(** * statscraper: the base scraper (statscraper/base_scraper.py)

    A shallow embedding of the navigation, caching and dimension
    resolution engine of [base_scraper.py], and the properties its
    specification states about it.

    Python objects live in a store ([World]) indexed by object identity;
    class attributes that hold one mutable object for the whole class
    ([Dataset._data], [Result.dimensionvalues], the default argument of
    [Result.__init__]) are single fields of the store.  Methods are
    computations in a state-and-exception monad: a raised exception
    keeps the store as it was at the raise, as in Python. *)

From Stdlib Require Import ZArith String Ascii List Permutation Sorted.
From Stdlib Require Import OrderedTypeEx DecimalString.
From stdpp Require Import gmap strings list fin_maps.

Local Open Scope string_scope.

(** ** Queries: the values [json.dumps] serialises

    A Python dict keeps its insertion order, so a dict is an association
    list; its keys are pairwise distinct ([json_wf]). *)

#[warnings="-register-all"]
Inductive json : Type :=
  | JNull
  | JBool (b : bool)
  | JInt (z : Z)
  | JStr (s : string)
  | JList (l : list json)
  | JDict (d : list (string * json)).

Section json_induction.
Variable P : json -> Prop.
Hypothesis Hnull : P JNull.
Hypothesis Hbool : forall b, P (JBool b).
Hypothesis Hint : forall z, P (JInt z).
Hypothesis Hstr : forall s, P (JStr s).
Hypothesis Hlist : forall l, Forall P l -> P (JList l).
Hypothesis Hdict : forall d, Forall (fun kv => P (snd kv)) d -> P (JDict d).

Fixpoint json_rect' (j : json) : P j :=
  match j with
  | JNull => Hnull
  | JBool b => Hbool b
  | JInt z => Hint z
  | JStr s => Hstr s
  | JList l =>
      Hlist l ((fix go (l : list json) : Forall P l :=
                  match l with
                  | [] => @List.Forall_nil _ P
                  | x :: l' => @List.Forall_cons _ P x l' (json_rect' x) (go l')
                  end) l)
  | JDict d =>
      Hdict d ((fix go (d : list (string * json))
                  : Forall (fun kv => P (snd kv)) d :=
                  match d with
                  | [] => @List.Forall_nil _ _
                  | kv :: d' =>
                      @List.Forall_cons _ (fun kv => P (snd kv)) kv d'
                        (json_rect' (snd kv)) (go d')
                  end) d)
  end.
End json_induction.

(** Keys of every dict are pairwise distinct, at every depth. *)
Fixpoint json_wf (j : json) : Prop :=
  match j with
  | JList l => (fix all (l : list json) : Prop :=
                  match l with [] => True | x :: l' => json_wf x /\ all l' end) l
  | JDict d => List.NoDup (map fst d) /\
               (fix all (d : list (string * json)) : Prop :=
                  match d with
                  | [] => True
                  | kv :: d' => json_wf (snd kv) /\ all d'
                  end) d
  | _ => True
  end.

(** [dict.get] on the association list. *)
Fixpoint dict_get (k : string) (d : list (string * json)) : option json :=
  match d with
  | [] => None
  | (k', v) :: d' => if String.eqb k k' then Some v else dict_get k d'
  end.

(** Equality of query values up to the insertion order of dict keys:
    lists compare in order, dicts compare as mappings (same size, every
    key of the left present on the right with an equal value).  This is
    Python's [==] but for one point: a bool and an int are never equal
    here, while Python has [True == 1]; [dumps] tells the two apart. *)
Fixpoint py_eq (a b : json) : bool :=
  match a, b with
  | JNull, JNull => true
  | JBool x, JBool y => Bool.eqb x y
  | JInt x, JInt y => Z.eqb x y
  | JStr x, JStr y => String.eqb x y
  | JList l, JList l' =>
      (fix go (l l' : list json) : bool :=
         match l, l' with
         | [], [] => true
         | x :: l, y :: l' => py_eq x y && go l l'
         | _, _ => false
         end) l l'
  | JDict d, JDict d' =>
      Nat.eqb (length d) (length d') &&
      forallb (fun kv => match dict_get (fst kv) d' with
                         | Some v' => py_eq (snd kv) v'
                         | None => false
                         end) d
  | _, _ => false
  end.

(** Truth value of a query, as tested by [if query:]. *)
Definition truthy (j : json) : bool :=
  match j with
  | JNull => false
  | JBool b => b
  | JInt z => negb (Z.eqb z 0)
  | JStr s => negb (String.eqb s "")
  | JList l => negb (Nat.eqb (length l) 0)
  | JDict d => negb (Nat.eqb (length d) 0)
  end.

(** ** [json.dumps(query, sort_keys=True)] *)

Definition hex_digit (n : N) : ascii :=
  match n with
  | 0 => "0" | 1 => "1" | 2 => "2" | 3 => "3" | 4 => "4" | 5 => "5"
  | 6 => "6" | 7 => "7" | 8 => "8" | 9 => "9" | 10 => "a" | 11 => "b"
  | 12 => "c" | 13 => "d" | 14 => "e" | _ => "f"
  end%N%char.

(** The double quote character (code point 34), as a string. *)
Definition quote : string := String (ascii_of_N 34) "".

(** One character under [ensure_ascii]: printable ASCII stays, the two
    reserved characters and the short escapes get a backslash, the rest
    becomes a four digit [\u] escape.  A character of a string stands
    for a code point below 256. *)
Definition escape_char (c : ascii) : string :=
  let n := N_of_ascii c in
  if (n =? 34)%N then String "\" quote
  else if (n =? 92)%N then "\\"
  else if (n =? 10)%N then "\n"
  else if (n =? 13)%N then "\r"
  else if (n =? 9)%N then "\t"
  else if (n =? 8)%N then "\b"
  else if (n =? 12)%N then "\f"
  else if ((32 <=? n) && (n <=? 126))%N then String c ""
  else "\u00" ++ String (hex_digit (n / 16)) (String (hex_digit (n mod 16)) "").

Fixpoint escape_body (s : string) : string :=
  match s with
  | EmptyString => ""
  | String c s' => escape_char c ++ escape_body s'
  end.

Definition encode_basestring_ascii (s : string) : string :=
  quote ++ escape_body s ++ quote.

Definition encode_int (z : Z) : string := NilZero.string_of_int (Z.to_int z).

Fixpoint join (sep : string) (l : list string) : string :=
  match l with
  | [] => ""
  | [x] => x
  | x :: l' => x ++ sep ++ join sep l'
  end.

(** [sorted] on the items of a dict: the keys are distinct, so the order
    of the result is the order of the keys (code point order on [str]). *)
Fixpoint insert_item {A} (kv : string * A) (l : list (string * A))
  : list (string * A) :=
  match l with
  | [] => [kv]
  | kv' :: l' =>
      if String.leb (fst kv) (fst kv') then kv :: l
      else kv' :: insert_item kv l'
  end.

Definition sorted_items {A} (l : list (string * A)) : list (string * A) :=
  fold_right insert_item [] l.

(** The encoder.  Each value of a dict is encoded where it stands and the
    encoded items are then put in key order, which is the text the
    library produces by sorting the items first. *)
Fixpoint dumps (j : json) : string :=
  match j with
  | JNull => "null"
  | JBool true => "true"
  | JBool false => "false"
  | JInt z => encode_int z
  | JStr s => encode_basestring_ascii s
  | JList l => "[" ++ join ", " (map dumps l) ++ "]"
  | JDict d =>
      "{" ++ join ", "
               (map (fun kv => encode_basestring_ascii (fst kv) ++ ": " ++ snd kv)
                    (sorted_items (map (fun kv => (fst kv, dumps (snd kv))) d)))
          ++ "}"
  end.

(** Key order on the items of a dict. *)
Definition key_le {A} (a b : string * A) : Prop :=
  String.leb (fst a) (fst b) = true.

Local Open Scope list_scope.

(** ** Exceptions

    [NoSuchItem] and [DatasetNotInView] both derive from [IndexError];
    [InvalidData] derives from [Exception].  [SystemError] stands for a
    store that holds no object at a reference, which no Python program
    can observe. *)

Inductive exn : Type :=
  | NoSuchItem
  | DatasetNotInView
  | InvalidData
  | IndexError
  | StopIteration
  | TypeError
  | AttributeError
  | UnboundLocalError
  | Exception
  | SystemError.

Definition exn_eqb (a b : exn) : bool :=
  match a, b with
  | NoSuchItem, NoSuchItem | DatasetNotInView, DatasetNotInView
  | InvalidData, InvalidData | IndexError, IndexError
  | StopIteration, StopIteration | TypeError, TypeError
  | AttributeError, AttributeError | UnboundLocalError, UnboundLocalError
  | Exception, Exception | SystemError, SystemError => true
  | _, _ => false
  end.

(** [isinstance e cls]: [e] was raised as an instance of class [cls] or
    of one of its subclasses. *)
Definition isinstance (e cls : exn) : bool :=
  match cls with
  | Exception => true
  | IndexError =>
      match e with
      | IndexError | NoSuchItem | DatasetNotInView => true
      | _ => false
      end
  | _ => exn_eqb e cls
  end.

(** ** Objects *)

(** Object identity. *)
Abbreviation ref := nat (only parsing).

Inductive item_type : Type := TYPE_DATASET | TYPE_COLLECTION.

Definition item_type_eqb (a b : item_type) : bool :=
  match a, b with
  | TYPE_DATASET, TYPE_DATASET | TYPE_COLLECTION, TYPE_COLLECTION => true
  | _, _ => false
  end.

(** Special id for root position. *)
Definition ROOT : string := "<root>".

(** [Item], with its two subclasses told apart by [Item_type].  The
    attributes that only a [Dataset] has ([_dimensions], [dialect],
    [query]) keep their class defaults on a [Collection]. *)
Record Item : Type := mkItem {
  Item_type : item_type;
  Item_id : string;
  Item_label : string;
  Item_blob : option string;
  Item_parent_ : option ref;
  Item__items : option (list ref);
  Dataset__dimensions : option (list ref);
  Dataset_dialect : option string;
  Dataset_query : json;
}.

(** What [Dimension.allowed_values] can hold: a plain list handed to the
    constructor, a [Dimensionslist] of [DimensionValue] objects, or the
    generator object a generator function returns when called (the
    arguments of the [DimensionValue] calls it has still to make, and
    the exception that ends it, if any). *)
Inductive allowed : Type :=
  | PlainList (l : list string)
  | DimensionValues (l : list ref)
  | Generator (pending : list (string * string)) (ends : option exn).

Record Dimension : Type := mkDimension {
  Dimension_id : string;
  Dimension_label : string;
  Dimension_datatype : option string;
  Dimension__allowed_values : option allowed;
  Dimension_dataset : option ref;
  Dimension_scraper : bool;
}.

Record DimensionValue : Type := mkDimensionValue {
  DimensionValue_value : string;
  DimensionValue_id : string;
  DimensionValue_label : string;
  DimensionValue_datatype : option string;
  DimensionValue_allowed_values : allowed;
  DimensionValue_dimension : ref;
}.

(** A raw dimension tag of a result: a literal, or a [DimensionValue]
    built beforehand. *)
Inductive rawvalue : Type :=
  | RawScalar (s : string)
  | RawDimensionValue (dv : ref).

Record Result : Type := mkResult {
  Result_value : Z;
  Result_raw_dimensions : ref;
  Result_resultset : option ref;
  Result_dataset : option ref;
}.

Record ResultSet : Type := mkResultSet {
  ResultSet_dataset : option ref;
  ResultSet_dialect : option string;
  ResultSet_list : list ref;
}.

Inductive event : Type :=
  | Hook (name : string)
  | Call_fetch_itemslist (item : ref)
  | Call_fetch_dimensions (dataset : ref)
  | Call_fetch_allowed_values (dimension : ref)
  | Call_fetch_data (dataset : ref) (query : json).

(** The store.  [Dataset__data] is the dict bound to [_data] in the body
    of class [Dataset]; [Result_dimensionvalues] is the [Dimensionslist]
    bound to [dimensionvalues] in the body of class [Result]; the
    mapping at [Result_default_dimensions] is the default value of the
    [dimensions] argument of [Result.__init__].  No method ever rebinds
    one of these on an instance.  [current_item] and [_collection_path]
    are the attributes of the one scraper; [trace] records, in order,
    the hooks fired and the collaborator methods called. *)
Record World : Type := mkWorld {
  items : gmap ref Item;
  dimensions : gmap ref Dimension;
  dimensionvalues : gmap ref DimensionValue;
  results : gmap ref Result;
  resultsets : gmap ref ResultSet;
  mappings : gmap ref (list (string * rawvalue));
  Dataset__data : gmap string ref;
  Result_dimensionvalues : list ref;
  current_item : ref;
  _collection_path : list ref;
  trace : list event;
}.

Definition Result_default_dimensions : ref := 0.

Definition with_items (f : gmap ref Item -> gmap ref Item) (w : World) : World :=
  mkWorld (f (items w)) (dimensions w) (dimensionvalues w) (results w)
    (resultsets w) (mappings w) (Dataset__data w) (Result_dimensionvalues w)
    (current_item w) (_collection_path w) (trace w).

Definition with_dimensions (f : gmap ref Dimension -> gmap ref Dimension)
    (w : World) : World :=
  mkWorld (items w) (f (dimensions w)) (dimensionvalues w) (results w)
    (resultsets w) (mappings w) (Dataset__data w) (Result_dimensionvalues w)
    (current_item w) (_collection_path w) (trace w).

Definition with_dimensionvalues
    (f : gmap ref DimensionValue -> gmap ref DimensionValue) (w : World) : World :=
  mkWorld (items w) (dimensions w) (f (dimensionvalues w)) (results w)
    (resultsets w) (mappings w) (Dataset__data w) (Result_dimensionvalues w)
    (current_item w) (_collection_path w) (trace w).

Definition with_results (f : gmap ref Result -> gmap ref Result) (w : World)
  : World :=
  mkWorld (items w) (dimensions w) (dimensionvalues w) (f (results w))
    (resultsets w) (mappings w) (Dataset__data w) (Result_dimensionvalues w)
    (current_item w) (_collection_path w) (trace w).

Definition with_resultsets (f : gmap ref ResultSet -> gmap ref ResultSet)
    (w : World) : World :=
  mkWorld (items w) (dimensions w) (dimensionvalues w) (results w)
    (f (resultsets w)) (mappings w) (Dataset__data w) (Result_dimensionvalues w)
    (current_item w) (_collection_path w) (trace w).

Definition with_mappings
    (f : gmap ref (list (string * rawvalue)) -> gmap ref (list (string * rawvalue)))
    (w : World) : World :=
  mkWorld (items w) (dimensions w) (dimensionvalues w) (results w)
    (resultsets w) (f (mappings w)) (Dataset__data w) (Result_dimensionvalues w)
    (current_item w) (_collection_path w) (trace w).

Definition with_data (f : gmap string ref -> gmap string ref) (w : World) : World :=
  mkWorld (items w) (dimensions w) (dimensionvalues w) (results w)
    (resultsets w) (mappings w) (f (Dataset__data w)) (Result_dimensionvalues w)
    (current_item w) (_collection_path w) (trace w).

Definition with_Result_dimensionvalues (f : list ref -> list ref) (w : World)
  : World :=
  mkWorld (items w) (dimensions w) (dimensionvalues w) (results w)
    (resultsets w) (mappings w) (Dataset__data w) (f (Result_dimensionvalues w))
    (current_item w) (_collection_path w) (trace w).

Definition with_current_item (r : ref) (w : World) : World :=
  mkWorld (items w) (dimensions w) (dimensionvalues w) (results w)
    (resultsets w) (mappings w) (Dataset__data w) (Result_dimensionvalues w)
    r (_collection_path w) (trace w).

Definition with_collection_path (f : list ref -> list ref) (w : World) : World :=
  mkWorld (items w) (dimensions w) (dimensionvalues w) (results w)
    (resultsets w) (mappings w) (Dataset__data w) (Result_dimensionvalues w)
    (current_item w) (f (_collection_path w)) (trace w).

Definition with_trace (f : list event -> list event) (w : World) : World :=
  mkWorld (items w) (dimensions w) (dimensionvalues w) (results w)
    (resultsets w) (mappings w) (Dataset__data w) (Result_dimensionvalues w)
    (current_item w) (_collection_path w) (f (trace w)).

(** ** The monad of methods *)

Inductive res (A : Type) : Type :=
  | Ok (a : A)
  | Raise (e : exn).
Arguments Ok {A} a.
Arguments Raise {A} e.

Definition M (A : Type) : Type := World -> res A * World.

Definition ret {A} (a : A) : M A := fun w => (Ok a, w).

Definition raise {A} (e : exn) : M A := fun w => (Raise e, w).

Definition bind {A B} (m : M A) (f : A -> M B) : M B :=
  fun w => match m w with
           | (Ok a, w') => f a w'
           | (Raise e, w') => (Raise e, w')
           end.

Notation "'let*' x ':=' m 'in' k" := (bind m (fun x => k))
  (at level 10, x name, m at level 100, k at level 200).

Definition get_world : M World := fun w => (Ok w, w).

Definition modify (f : World -> World) : M unit := fun w => (Ok tt, f w).

(** [try: m  except cls1, cls2, ...: handler]. *)
Definition try_except {A} (m : M A) (classes : list exn) (handler : M A) : M A :=
  fun w => match m w with
           | (Raise e, w') =>
               if existsb (isinstance e) classes then handler w'
               else (Raise e, w')
           | r => r
           end.

(** A generator that computes its elements without touching the store:
    the elements it yields, then the exception that ends it, if any. *)
Definition gen (A : Type) : Type := (list A * option exn)%type.

Fixpoint for_list {A} (l : list A) (body : A -> M unit) : M unit :=
  match l with
  | [] => ret tt
  | x :: l' => let* _ := body x in for_list l' body
  end.

(** [for x in g: body]. *)
Definition for_gen {A} (g : gen A) (body : A -> M unit) : M unit :=
  let* _ := for_list (fst g) body in
  match snd g with
  | Some e => raise e
  | None => ret tt
  end.

Definition log (e : event) : M unit := modify (with_trace (fun t => t ++ [e])).

(** *** Reading and writing objects *)

Definition get_item (r : ref) : M Item :=
  fun w => match items w !! r with
           | Some it => (Ok it, w)
           | None => (Raise SystemError, w)
           end.

Definition get_dimension (r : ref) : M Dimension :=
  fun w => match dimensions w !! r with
           | Some d => (Ok d, w)
           | None => (Raise SystemError, w)
           end.

Definition get_dimensionvalue (r : ref) : M DimensionValue :=
  fun w => match dimensionvalues w !! r with
           | Some d => (Ok d, w)
           | None => (Raise SystemError, w)
           end.

Definition get_result (r : ref) : M Result :=
  fun w => match results w !! r with
           | Some d => (Ok d, w)
           | None => (Raise SystemError, w)
           end.

Definition get_resultset (r : ref) : M ResultSet :=
  fun w => match resultsets w !! r with
           | Some d => (Ok d, w)
           | None => (Raise SystemError, w)
           end.

Definition get_mapping (r : ref) : M (list (string * rawvalue)) :=
  fun w => match mappings w !! r with
           | Some d => (Ok d, w)
           | None => (Raise SystemError, w)
           end.

(** Attribute assignment [obj.attr = v] on an object of the store. *)
Definition update_item (r : ref) (f : Item -> Item) : M unit :=
  let* it := get_item r in modify (with_items (insert r (f it))).

Definition update_dimension (r : ref) (f : Dimension -> Dimension) : M unit :=
  let* d := get_dimension r in modify (with_dimensions (insert r (f d))).

Definition update_result (r : ref) (f : Result -> Result) : M unit :=
  let* d := get_result r in modify (with_results (insert r (f d))).

Definition update_resultset (r : ref) (f : ResultSet -> ResultSet) : M unit :=
  let* d := get_resultset r in modify (with_resultsets (insert r (f d))).

(** Object creation: the new object gets an identity no live object has. *)
Definition new_item (it : Item) : M ref :=
  fun w => let r := fresh (dom (items w)) in
           (Ok r, with_items (insert r it) w).

Definition new_dimension (d : Dimension) : M ref :=
  fun w => let r := fresh (dom (dimensions w)) in
           (Ok r, with_dimensions (insert r d) w).

Definition new_dimensionvalue (d : DimensionValue) : M ref :=
  fun w => let r := fresh (dom (dimensionvalues w)) in
           (Ok r, with_dimensionvalues (insert r d) w).

Definition new_result (d : Result) : M ref :=
  fun w => let r := fresh (dom (results w)) in
           (Ok r, with_results (insert r d) w).

Definition new_resultset (d : ResultSet) : M ref :=
  fun w => let r := fresh (dom (resultsets w)) in
           (Ok r, with_resultsets (insert r d) w).

Definition new_mapping (d : list (string * rawvalue)) : M ref :=
  fun w => let r := fresh (dom (mappings w)) in
           (Ok r, with_mappings (insert r d) w).

Definition set_parent_ (p : option ref) (it : Item) : Item :=
  mkItem (Item_type it) (Item_id it) (Item_label it) (Item_blob it) p
    (Item__items it) (Dataset__dimensions it) (Dataset_dialect it)
    (Dataset_query it).

Definition set__items (l : option (list ref)) (it : Item) : Item :=
  mkItem (Item_type it) (Item_id it) (Item_label it) (Item_blob it)
    (Item_parent_ it) l (Dataset__dimensions it) (Dataset_dialect it)
    (Dataset_query it).

Definition set__dimensions (l : option (list ref)) (it : Item) : Item :=
  mkItem (Item_type it) (Item_id it) (Item_label it) (Item_blob it)
    (Item_parent_ it) (Item__items it) l (Dataset_dialect it)
    (Dataset_query it).

Definition set_dialect (d : option string) (it : Item) : Item :=
  mkItem (Item_type it) (Item_id it) (Item_label it) (Item_blob it)
    (Item_parent_ it) (Item__items it) (Dataset__dimensions it) d
    (Dataset_query it).

Definition set_query (q : json) (it : Item) : Item :=
  mkItem (Item_type it) (Item_id it) (Item_label it) (Item_blob it)
    (Item_parent_ it) (Item__items it) (Dataset__dimensions it)
    (Dataset_dialect it) q.

Definition set__allowed_values (a : option allowed) (d : Dimension) : Dimension :=
  mkDimension (Dimension_id d) (Dimension_label d) (Dimension_datatype d) a
    (Dimension_dataset d) (Dimension_scraper d).

Definition set_Dimension_dataset (r : option ref) (d : Dimension) : Dimension :=
  mkDimension (Dimension_id d) (Dimension_label d) (Dimension_datatype d)
    (Dimension__allowed_values d) r (Dimension_scraper d).

Definition set_Dimension_scraper (b : bool) (d : Dimension) : Dimension :=
  mkDimension (Dimension_id d) (Dimension_label d) (Dimension_datatype d)
    (Dimension__allowed_values d) (Dimension_dataset d) b.

Definition set_Result_resultset (r : option ref) (x : Result) : Result :=
  mkResult (Result_value x) (Result_raw_dimensions x) r (Result_dataset x).

Definition set_Result_dataset (r : option ref) (x : Result) : Result :=
  mkResult (Result_value x) (Result_raw_dimensions x) (Result_resultset x) r.

Definition set_ResultSet_dataset (r : option ref) (x : ResultSet) : ResultSet :=
  mkResultSet r (ResultSet_dialect x) (ResultSet_list x).

Definition set_ResultSet_dialect (d : option string) (x : ResultSet) : ResultSet :=
  mkResultSet (ResultSet_dataset x) d (ResultSet_list x).

Definition set_ResultSet_list (l : list ref) (x : ResultSet) : ResultSet :=
  mkResultSet (ResultSet_dataset x) (ResultSet_dialect x) l.

(** ** What a scraper author supplies

    The arguments of the constructor calls a collaborator makes before
    it yields: [Collection(id, label, blob)] or [Dataset(...)], possibly
    with [dialect] set; [Dimension(id_, label, allowed_values,
    datatype)]; [Result(value, dimensions)], where [None] for the
    dimensions means the argument was left out. *)

Record ItemSpec : Type := mkItemSpec {
  spec_type : item_type;
  spec_id : string;
  spec_label : option string;
  spec_blob : option string;
  spec_dialect : option string;
}.

Record DimensionSpec : Type := mkDimensionSpec {
  dspec_id : string;
  dspec_label : option string;
  dspec_allowed_values : option allowed;
  dspec_datatype : option string;
}.

Record ResultSpec : Type := mkResultSpec {
  rspec_value : Z;
  rspec_dimensions : option (list (string * rawvalue));
}.

(** A scraper class: the class attribute [dialect], the four methods
    a subclass of [BaseScraper] overrides, and the class attribute
    [_hooks].  Each method reads the store when it is called.
    [_fetch_allowed_values] gives the object the call returns; for a
    generator function that is a generator object.  [_hooks] gives, for
    each lifecycle point, the callbacks registered with the decorator
    [on], in registration order.  A callback is called with the
    scraper: it is a method on the store like any other, it may write
    to any part of it and it may raise. *)
Record Scraper : Type := mkScraper {
  dialect : option string;
  _fetch_itemslist : World -> ref -> gen ItemSpec;
  _fetch_dimensions : World -> ref -> gen DimensionSpec;
  _fetch_allowed_values : World -> ref -> allowed;
  _fetch_data : World -> ref -> json -> gen ResultSpec;
  _hooks : string -> list (M unit);
}.

(** [BaseScraper] itself: three methods raise, [_fetch_allowed_values]
    is a generator function whose body reads an attribute the scraper
    does not have, and no callback is registered. *)
Definition BaseScraper : Scraper :=
  mkScraper None
    (fun _ _ => ([], Some Exception))
    (fun _ _ => ([], Some Exception))
    (fun _ _ => Generator [] (Some AttributeError))
    (fun _ _ _ => ([], Some Exception))
    (fun _ => []).

(** Keys of [__getitem__] and [__contains__]: a string, an [Item]
    instance, or an integer index. *)
Inductive key : Type :=
  | KStr (s : string)
  | KItem (r : ref)
  | KInt (i : Z).

(** [next(filter(f, l))]: the first element that passes, and
    [StopIteration] when the iterator is exhausted. *)
Fixpoint filter_next (f : ref -> M bool) (l : list ref) : M ref :=
  match l with
  | [] => raise StopIteration
  | x :: l' => let* b := f x in if b then ret x else filter_next f l'
  end.

(** [list(filter(f, l))]. *)
Fixpoint filter_list (f : ref -> M bool) (l : list ref) : M (list ref) :=
  match l with
  | [] => ret []
  | x :: l' =>
      let* b := f x in
      let* r := filter_list f l' in
      ret (if b then x :: r else r)
  end.

(** [list.__getitem__] with an integer: negative indices count from the
    end, and an index out of range raises [IndexError]. *)
Definition list___getitem__ (l : list ref) (i : Z) : M ref :=
  let n := Z.of_nat (length l) in
  let j := if (i <? 0)%Z then (i + n)%Z else i in
  if ((j <? 0) || (n <=? j))%Z then raise IndexError
  else match l !! Z.to_nat j with
       | Some x => ret x
       | None => raise IndexError
       end.

Definition id_of_item (x : ref) : M string :=
  let* it := get_item x in ret (Item_id it).

Definition id_of_dimension (x : ref) : M string :=
  let* d := get_dimension x in ret (Dimension_id d).

Definition id_of_dimensionvalue (x : ref) : M string :=
  let* d := get_dimensionvalue x in ret (DimensionValue_id d).

(** ** class Dimensionslist

    [id_of] reads the [id] attribute of an element: the list holds
    [Dimension] objects in [Dataset._dimensions] and [DimensionValue]
    objects in [Result.dimensionvalues].  Neither is an [Item], so the
    identity test of the second branch never succeeds. *)

Definition Dimensionslist___getitem__ (id_of : ref -> M string)
    (self : list ref) (k : key) : M ref :=
  match k with
  | KStr s =>
      try_except
        (filter_next (fun x => let* i := id_of x in ret (String.eqb i s)) self)
        [IndexError] (raise NoSuchItem)
  | KItem r =>
      try_except (filter_next (fun x => ret false) self)
        [IndexError] (raise NoSuchItem)
  | KInt i => list___getitem__ self i
  end.

Definition Dimensionslist_get := Dimensionslist___getitem__.

(** The [else] branch calls [super(Itemslist, self)] on an object that is
    no [Itemslist], which raises [TypeError]. *)
Definition Dimensionslist___contains__ (id_of : ref -> M string)
    (self : list ref) (item : key) : M bool :=
  match item with
  | KStr s =>
      let* l := filter_list (fun x => let* i := id_of x in ret (String.eqb i s)) self in
      ret (negb (Nat.eqb (length l) 0))
  | _ => raise TypeError
  end.

(** ** class Itemslist *)

Definition Itemslist___getitem__ (self : list ref) (k : key) : M ref :=
  match k with
  | KStr s =>
      try_except
        (filter_next (fun x => let* i := id_of_item x in ret (String.eqb i s)) self)
        [IndexError] (raise NoSuchItem)
  | KItem r =>
      try_except (filter_next (fun x => ret (Nat.eqb x r)) self)
        [IndexError] (raise NoSuchItem)
  | KInt i => list___getitem__ self i
  end.

Definition Itemslist_get := Itemslist___getitem__.

Definition Itemslist___contains__ (self : list ref) (item : key) : M bool :=
  match item with
  | KStr s =>
      let* l := filter_list (fun x => let* i := id_of_item x in ret (String.eqb i s)) self in
      ret (negb (Nat.eqb (length l) 0))
  | KItem r => ret (existsb (Nat.eqb r) self)
  | KInt _ => ret false
  end.

(** [self._items.append(val)], [self] being the list bound to [_items]
    of [owner].  The scraper back-link it also sets is the one scraper
    of the store. *)
Definition Itemslist_append (owner val : ref) : M unit :=
  let* it := get_item owner in
  match Item__items it with
  | Some l => update_item owner (set__items (Some (l ++ [val])))
  | None => raise AttributeError
  end.

Definition Dimensionslist_append (owner val : ref) : M unit :=
  let* it := get_item owner in
  match Dataset__dimensions it with
  | Some l => update_item owner (set__dimensions (Some (l ++ [val])))
  | None => raise AttributeError
  end.

(** ** class Item *)

Definition Item___init__ (t : item_type) (id_ : string)
    (label blob : option string) : M ref :=
  new_item (mkItem t id_ (default id_ label) blob None None None None JNull).

Definition Item_parent (self : ref) : M ref :=
  let* it := get_item self in
  match Item_parent_ it with
  | None => raise Exception
  | Some p => ret p
  end.

(** The collaborator's constructor call, run when the generator reaches
    its [yield]. *)
Definition construct_item (s : ItemSpec) : M ref :=
  let* i := Item___init__ (spec_type s) (spec_id s) (spec_label s) (spec_blob s) in
  let* _ := match spec_dialect s with
            | Some d => update_item i (set_dialect (Some d))
            | None => ret tt
            end in
  ret i.

Section methods.
Variable S : Scraper.

(** [hashlib.md5(...).hexdigest()]. *)
Variable md5 : string -> string.

(** [Datatype(name).allowed_values], of the [datatypes] module. *)
Variable Datatype_allowed_values : string -> option allowed.

(** *** class Collection *)

Definition Collection_items (self : ref) : M (list ref) :=
  let* it := get_item self in
  match Item__items it with
  | Some l => ret l
  | None =>
      let* _ := update_item self (set__items (Some [])) in
      let* _ := log (Call_fetch_itemslist self) in
      let* w := get_world in
      let* _ := for_gen (_fetch_itemslist S w self) (fun spec =>
        let* i := construct_item spec in
        let* _ := update_item i (set_parent_ (Some self)) in
        let* x := get_item i in
        let* _ := if item_type_eqb (Item_type x) TYPE_DATASET
                     && match Dataset_dialect x with None => true | _ => false end
                  then update_item i (set_dialect (dialect S))
                  else ret tt in
        Itemslist_append self i) in
      let* it' := get_item self in
      ret (default [] (Item__items it'))
  end.

(** [item.items]: the property of [Collection], or of [Dataset], which
    returns [None]. *)
Definition Item_items (self : ref) : M (option (list ref)) :=
  let* it := get_item self in
  match Item_type it with
  | TYPE_COLLECTION => let* l := Collection_items self in ret (Some l)
  | TYPE_DATASET => ret None
  end.

(** *** class BaseScraper *)

(** [for f in self._hooks[name]: f(self)]: the callbacks registered
    for one lifecycle point are called in turn, and the first that
    raises ends the loop and the method that runs it.  The trace
    records that the point was reached. *)
Definition run_hooks (name : string) : M unit :=
  let* _ := log (Hook name) in
  for_list (_hooks S name) (fun f => f).

Definition BaseScraper___init__ : M unit :=
  let* root := Item___init__ TYPE_COLLECTION ROOT None None in
  let* _ := modify (with_current_item root) in
  let* _ := modify (with_collection_path (fun _ => [root])) in
  run_hooks "init".

Definition BaseScraper_items : M (option (list ref)) :=
  let* w := get_world in Item_items (current_item w).

(** [self.items[id_]]: subscripting [None] is a [TypeError]. *)
Definition items_getitem (its : option (list ref)) (k : key) : M ref :=
  match its with
  | None => raise TypeError
  | Some l => Itemslist___getitem__ l k
  end.

Definition BaseScraper_move_to_top : M unit :=
  let* w := get_world in
  match _collection_path w with
  | [] => raise IndexError
  | r :: rest =>
      let* _ := modify (with_collection_path (fun _ => rest)) in
      let* _ := modify (with_current_item r) in
      let* _ := modify (with_collection_path (fun _ => [])) in
      let* _ := modify (with_collection_path (fun p => p ++ [r])) in
      run_hooks "top"
  end.

Definition BaseScraper_move_up : M unit :=
  let* w := get_world in
  let* _ :=
    if (1 <? length (_collection_path w))%nat then
      let* _ := modify (with_collection_path (@removelast ref)) in
      let* w' := get_world in
      match last (_collection_path w') with
      | Some r => modify (with_current_item r)
      | None => raise IndexError
      end
    else ret tt in
  let* _ := run_hooks "up" in
  let* w'' := get_world in
  if (length (_collection_path w'') =? 1)%nat then run_hooks "top" else ret tt.

Definition BaseScraper_move_to (id_ : key) : M unit :=
  let* _ :=
    try_except
      (let* its := BaseScraper_items in
       let* r := items_getitem its id_ in
       let* _ := modify (with_current_item r) in
       modify (with_collection_path (fun p => p ++ [r])))
      [StopIteration; IndexError; NoSuchItem] (raise NoSuchItem) in
  run_hooks "select".

(** *** class Dataset, first part *)

Definition Dataset__hash (self : ref) : M string :=
  let* it := get_item self in
  ret (md5 (dumps (Dataset_query it))).

Definition Dataset__move_here (self : ref) : M unit :=
  let* p := Item_parent self in
  let* its := Item_items p in
  let* b := match its with
            | None => raise TypeError
            | Some l => Itemslist___contains__ l (KItem self)
            end in
  let* _ := if b then BaseScraper_move_up else ret tt in
  let* it := get_item self in
  try_except (BaseScraper_move_to (KStr (Item_id it)))
    [NoSuchItem] (raise DatasetNotInView).

(** *** class Dimension *)

Definition allowed_truthy (a : allowed) : bool :=
  match a with
  | PlainList l | DimensionValues l => negb (Nat.eqb (length l) 0)
  | Generator _ _ => true
  end.

Definition Dimension___init__ (id_ : string) (label : option string)
    (allowed_values : option allowed) (datatype : option string) : M ref :=
  let from_datatype :=
    match datatype with
    | Some dt =>
        if negb (String.eqb dt "") then (Some dt, Datatype_allowed_values dt)
        else (None, None)
    | None => (None, None)
    end in
  let _allowed_values :=
    match allowed_values with
    | Some a => if allowed_truthy a then Some a else snd from_datatype
    | None => snd from_datatype
    end in
  new_dimension
    (mkDimension id_ (default id_ label) (fst from_datatype) _allowed_values
       None false).

(** A call of the constructor: [id_] has no default value, so a call
    without arguments raises [TypeError] before the body runs. *)
Definition Dimension_call (args : option DimensionSpec) : M ref :=
  match args with
  | None => raise TypeError
  | Some s =>
      Dimension___init__ (dspec_id s) (dspec_label s)
        (dspec_allowed_values s) (dspec_datatype s)
  end.

Definition Dimension_allowed_values (self : ref) : M allowed :=
  let* d := get_dimension self in
  match Dimension__allowed_values d with
  | Some a => ret a
  | None =>
      let* _ := if Dimension_scraper d then ret tt else raise AttributeError in
      let* _ := log (Call_fetch_allowed_values self) in
      let* w := get_world in
      let a := _fetch_allowed_values S w self in
      let* _ := update_dimension self (set__allowed_values (Some a)) in
      ret a
  end.

(** *** class DimensionValue *)

Definition DimensionValue___init__ (value : string) (dimension : ref) : M ref :=
  let* d := get_dimension dimension in
  let* a := Dimension_allowed_values dimension in
  new_dimensionvalue
    (mkDimensionValue value (Dimension_id d) (Dimension_label d)
       (Dimension_datatype d) a dimension).

(** *** class Dataset, second part *)

Definition Dataset_dimensions (self : ref) : M (list ref) :=
  let* w := get_world in
  let* _ := if negb (Nat.eqb (current_item w) self)
            then Dataset__move_here self else ret tt in
  let* it := get_item self in
  match Dataset__dimensions it with
  | Some l => ret l
  | None =>
      let* _ := update_item self (set__dimensions (Some [])) in
      let* _ := log (Call_fetch_dimensions self) in
      let* w := get_world in
      let* _ := for_gen (_fetch_dimensions S w self) (fun spec =>
        let* d := Dimension_call (Some spec) in
        let* _ := update_dimension d (set_Dimension_dataset (Some self)) in
        let* _ := update_dimension d (set_Dimension_scraper true) in
        Dimensionslist_append self d) in
      let* it' := get_item self in
      ret (default [] (Dataset__dimensions it'))
  end.

(** *** class Result *)

Definition Result___init__ (value : Z)
    (dimensions : option (list (string * rawvalue))) : M ref :=
  let* m := match dimensions with
            | None => ret Result_default_dimensions
            | Some d => new_mapping d
            end in
  new_result (mkResult value m None None).

(** [val.dimensionvalues]: no instance has the attribute, so the
    lookup ends at the class. *)
Definition Result_get_dimensionvalues (val : ref) : M (list ref) :=
  let* _ := get_result val in
  let* w := get_world in
  ret (Result_dimensionvalues w).

Definition Result_dimensionvalues_append (val x : ref) : M unit :=
  let* _ := get_result val in
  modify (with_Result_dimensionvalues (fun l => l ++ [x])).

(** *** class ResultSet *)

(** The loop of [append] over [val.raw_dimensions.items()].  [dim] is
    the local variable of that name: [None] while nothing was assigned
    to it. *)
Fixpoint append_tags (dataset val : ref) (dataset_dimensions : list ref)
    (tags : list (string * rawvalue)) (dim : option ref) : M unit :=
  match tags with
  | [] => ret tt
  | (k, v) :: rest =>
      let* dim' :=
        match v with
        | RawDimensionValue dv =>
            let* _ := Result_dimensionvalues_append val dv in
            ret dim
        | RawScalar s =>
            let* ds := Dataset_dimensions dataset in
            let* b := Dimensionslist___contains__ id_of_dimension ds (KStr k) in
            if b then
              let* d := Dimensionslist___getitem__ id_of_dimension
                          dataset_dimensions (KStr k) in
              let* x := DimensionValue___init__ s d in
              ret (Some x)
            else
              let* d := Dimension_call None in
              let* x := DimensionValue___init__ s d in
              ret (Some x)
        end in
      let* _ := match dim' with
                | None => raise UnboundLocalError
                | Some x => Result_dimensionvalues_append val x
                end in
      append_tags dataset val dataset_dimensions rest dim'
  end.

Definition ResultSet_append (self val : ref) : M unit :=
  let* rs := get_resultset self in
  let* _ := update_result val (set_Result_resultset (Some self)) in
  let* _ := update_result val (set_Result_dataset (ResultSet_dataset rs)) in
  let* _ :=
    match ResultSet_dataset rs with
    | Some dataset =>
        let* dataset_dimensions := Dataset_dimensions dataset in
        let* v := get_result val in
        let* tags := get_mapping (Result_raw_dimensions v) in
        append_tags dataset val dataset_dimensions tags None
    | None => ret tt
    end in
  update_resultset self (fun x => set_ResultSet_list (ResultSet_list x ++ [val]) x).

(** *** class Dataset, third part *)

Definition Dataset_fetch (self : ref) (query : json) : M ref :=
  let* _ := if truthy query then update_item self (set_query query)
            else ret tt in
  let* hash_ := Dataset__hash self in
  let* w := get_world in
  match Dataset__data w !! hash_ with
  | Some rs => ret rs
  | None =>
      let* _ := if negb (Nat.eqb (current_item w) self)
                then Dataset__move_here self else ret tt in
      let* rs := new_resultset (mkResultSet None None []) in
      let* it := get_item self in
      let* _ := update_resultset rs (set_ResultSet_dialect (Dataset_dialect it)) in
      let* _ := update_resultset rs (set_ResultSet_dataset (Some self)) in
      let* _ := log (Call_fetch_data self (Dataset_query it)) in
      let* w' := get_world in
      let* _ := for_gen (_fetch_data S w' self (Dataset_query it)) (fun spec =>
        let* result := Result___init__ (rspec_value spec) (rspec_dimensions spec) in
        ResultSet_append rs result) in
      let* _ := modify (with_data (insert hash_ rs)) in
      ret rs
  end.

Definition Dataset_data (self : ref) : M ref :=
  let* it := get_item self in
  Dataset_fetch self (Dataset_query it).
End methods.

(** The store once the module is imported: the class bodies have run,
    no scraper exists yet. *)
Definition module_loaded : World :=
  mkWorld ∅ ∅ ∅ ∅ ∅ {[ Result_default_dimensions := [] ]} ∅ [] 0 [] [].

(** [obj[key]] on what [Dimension.allowed_values] returned: a generator
    object has no [__getitem__], a plain list takes integer indices
    only, a [Dimensionslist] runs its own [__getitem__]. *)
Definition allowed___getitem__ (a : allowed) (k : key) : M (string + ref) :=
  match a with
  | Generator _ _ => raise TypeError
  | PlainList l =>
      match k with
      | KInt i =>
          let n := Z.of_nat (length l) in
          let j := if (i <? 0)%Z then (i + n)%Z else i in
          if ((j <? 0) || (n <=? j))%Z then raise IndexError
          else match l !! Z.to_nat j with
               | Some x => ret (inl x)
               | None => raise IndexError
               end
      | _ => raise TypeError
      end
  | DimensionValues l =>
      let* r := Dimensionslist___getitem__ id_of_dimensionvalue l k in
      ret (inr r)
  end.

(** ** The scrapers of the test suite (tests/test_base_scraper.py) *)

Definition id_in (w : World) (r : ref) : string :=
  match items w !! r with
  | Some it => Item_id it
  | None => ""
  end.

Definition yield_Dataset (i : string) : ItemSpec :=
  mkItemSpec TYPE_DATASET i None None None.

Definition yield_Collection (i : string) : ItemSpec :=
  mkItemSpec TYPE_COLLECTION i None None None.

(** [class Scraper(BaseScraper)]: a scraper with hardcoded yields.  The
    body of its [_fetch_allowed_values] calls [DimensionValue] with a
    keyword [label] the constructor does not take: the generator object
    yields nothing and ends with [TypeError] when it is first advanced.
    The test suite registers no callback. *)
Definition TestScraper : Scraper :=
  mkScraper None
    (fun _ _ =>
       ([yield_Dataset "Dataset_1"; yield_Dataset "Dataset_2";
         yield_Dataset "Dataset_3"], None))
    (fun _ _ =>
       ([mkDimensionSpec "date" None None None;
         mkDimensionSpec "municipality" None
           (Some (PlainList ["Robertsfors kommun"; "Umeå kommun"])) None;
         mkDimensionSpec "gender" None None None], None))
    (fun _ _ => Generator [] (Some TypeError))
    (fun w dataset _ =>
       if String.eqb (id_in w dataset) "Dataset_1" then
         ([mkResultSpec 127
             (Some [("date", RawScalar "2017-08-10");
                    ("municipality", RawScalar "Robertsfors kommun")])], None)
       else if String.eqb (id_in w dataset) "Dataset_2" then
         ([mkResultSpec 12
             (Some [("date", RawScalar "2017-02-06");
                    ("municipality", RawScalar "Umeå kommun")]);
           mkResultSpec 130
             (Some [("date", RawScalar "2017-02-07");
                    ("municipality", RawScalar "Robertsfors kommun")])], None)
       else ([], None))
    (fun _ => []).

(** [class NestedScraper(Scraper)]:
    ROOT - Collection_1 - Dataset_1
         - Collection_2 - [Dataset_2, Dataset_3] *)
Definition NestedScraper : Scraper :=
  mkScraper (dialect TestScraper)
    (fun w item =>
       if String.eqb (id_in w item) ROOT then
         ([yield_Collection "Collection_1"; yield_Collection "Collection_2"], None)
       else if String.eqb (id_in w item) "Collection_1" then
         ([yield_Dataset "Dataset_1"], None)
       else if String.eqb (id_in w item) "Collection_2" then
         ([yield_Dataset "Dataset_2"; yield_Dataset "Dataset_3"], None)
       else ([], Some Exception))
    (_fetch_dimensions TestScraper)
    (_fetch_allowed_values TestScraper)
    (_fetch_data TestScraper)
    (_hooks TestScraper).

(** A scraper that uses the hooks, as the module docstring shows: the
    test scraper with a method registered with [on("up")] that returns
    and one registered with [on("select")] that raises. *)
Definition HookedScraper : Scraper :=
  mkScraper (dialect TestScraper)
    (_fetch_itemslist TestScraper)
    (_fetch_dimensions TestScraper)
    (_fetch_allowed_values TestScraper)
    (_fetch_data TestScraper)
    (fun name =>
       if String.eqb name "up" then [ret tt]
       else if String.eqb name "select" then [raise Exception]
       else []).

(** The store after [scraper = Scraper()]. *)
Definition fresh_scraper (S : Scraper) : World :=
  snd (BaseScraper___init__ S module_loaded).

(** The store after reading [scraper.items] once at the root. *)
Definition root_listed (S : Scraper) : World :=
  snd (BaseScraper_items S (fresh_scraper S)).

(** ** Programs a caller runs against a scraper *)

(** [rs = ResultSet(); rs.dataset = dataset]. *)
Definition owned_resultset (dataset : ref) : M ref :=
  let* rs := new_resultset (mkResultSet None None []) in
  let* _ := update_resultset rs (set_ResultSet_dataset (Some dataset)) in
  ret rs.

Section scenarios.
Variable S : Scraper.
Variable Datatype_allowed_values : string -> option allowed.

(** A result tagged with a [DimensionValue] built beforehand from the
    dataset's own [date] dimension, appended to a result set the
    dataset owns. *)
Definition append_prebuilt (dataset : ref) : M (ref * ref * ref) :=
  let* dims := Dataset_dimensions S Datatype_allowed_values dataset in
  let* d := Dimensionslist___getitem__ id_of_dimension dims (KStr "date") in
  let* dv := DimensionValue___init__ S "2017-08-10" d in
  let* rs := owned_resultset dataset in
  let* r := Result___init__ 127 (Some [("date", RawDimensionValue dv)]) in
  let* _ := ResultSet_append S Datatype_allowed_values rs r in
  ret (dv, rs, r).

(** A result tagged with a literal under an id the dataset does not
    declare. *)
Definition append_undeclared (dataset : ref) : M (ref * ref) :=
  let* rs := owned_resultset dataset in
  let* r := Result___init__ 127 (Some [("region", RawScalar "Norrland")]) in
  let* _ := ResultSet_append S Datatype_allowed_values rs r in
  ret (rs, r).

(** test_select_allowed_values, the [gender] part: read the allowed
    values, then look one up by [key]. *)
Definition select_allowed_value (dataset : ref) (k : string)
  : M (string + ref) :=
  let* dims := Dataset_dimensions S Datatype_allowed_values dataset in
  let* gender := Dimensionslist___getitem__ id_of_dimension dims (KStr "gender") in
  let* a := Dimension_allowed_values S gender in
  allowed___getitem__ a (KStr k).

(** Two results, the second built without a [dimensions] argument. *)
Definition two_results (dataset : ref) : M (ref * ref * ref) :=
  let* rs := owned_resultset dataset in
  let* r1 := Result___init__ 127 (Some [("date", RawScalar "2017-08-10")]) in
  let* r2 := Result___init__ 12 None in
  ret (rs, r1, r2).
End scenarios.

(** The allowed values of [gender] built with the constructor of
    [DimensionValue] and kept in a [Dimensionslist], then looked up by
    [key]. *)
Definition select_materialised_value (S : Scraper)
    (Datatype_allowed_values : string -> option allowed)
    (dataset : ref) (k : string) : M (list DimensionValue * ref) :=
  let* dims := Dataset_dimensions S Datatype_allowed_values dataset in
  let* gender := Dimensionslist___getitem__ id_of_dimension dims (KStr "gender") in
  let* male := DimensionValue___init__ S "male" gender in
  let* female := DimensionValue___init__ S "female" gender in
  let* m := get_dimensionvalue male in
  let* f := get_dimensionvalue female in
  let* x := Dimensionslist___getitem__ id_of_dimensionvalue [male; female] (KStr k) in
  ret ([m; f], x).

(** ** Sequences of navigation calls *)

Inductive nav_op : Type :=
  | Move_to (id_ : key)
  | Move_up
  | Move_to_top.

Definition run_op (S : Scraper) (op : nav_op) : M unit :=
  match op with
  | Move_to id_ => BaseScraper_move_to S id_
  | Move_up => BaseScraper_move_up S
  | Move_to_top => BaseScraper_move_to_top S
  end.

(** The caller goes on after a call that raised, with the store as the
    failed call left it. *)
Fixpoint run_ops (S : Scraper) (ops : list nav_op) (w : World) : World :=
  match ops with
  | [] => w
  | op :: ops' => run_ops S ops' (snd (run_op S op w))
  end.

Definition is_root_collection (w : World) (r : ref) : Prop :=
  exists it, items w !! r = Some it /\ Item_type it = TYPE_COLLECTION
             /\ Item_id it = ROOT /\ Item_parent_ it = None.

(** [child.parent is parent]. *)
Definition parent_is (w : World) (child parent : ref) : Prop :=
  exists it, items w !! child = Some it /\ Item_parent_ it = Some parent.

(** The path stack is a root-to-current chain. *)
Definition valid_path (w : World) : Prop :=
  (exists r rest, _collection_path w = r :: rest /\ is_root_collection w r)
  /\ (forall i p c, _collection_path w !! i = Some p ->
        _collection_path w !! S i = Some c -> parent_is w c p)
  /\ last (_collection_path w) = Some (current_item w).


(** Every element of a materialised child list points back to the
    collection that lists it. *)
Definition children_linked (w : World) : Prop :=
  forall c it l x, items w !! c = Some it -> Item__items it = Some l ->
    In x l -> parent_is w x c.

(** ** Predicates that methods leave alone *)

Definition preserves {A} (P : World -> Prop) (m : M A) : Prop :=
  forall w, P w -> P (snd (m w)).

(** ** What is asked of the registered callbacks *)

(** No callback of [S] breaks [P], whether it returns or raises. *)
Definition hooks_keep (P : World -> Prop) (S : Scraper) : Prop :=
  forall name f, In f (_hooks S name) -> preserves P f.

(** The callbacks of [S] only observe: they write nothing to the store
    but the trace.  They may raise. *)
Definition hooks_observe (S : Scraper) : Prop :=
  forall name f w, In f (_hooks S name) ->
    snd (f w) = with_trace (fun _ => trace (snd (f w))) w.

(** No callback of [S] raises. *)
Definition hooks_return (S : Scraper) : Prop :=
  forall name f w, In f (_hooks S name) -> fst (f w) = Ok tt.

(** The exception [e] is one a callback of [S] registered for one of
    the points [names] raises from some store. *)
Definition raised_by_hook (S : Scraper) (names : list string) (e : exn) : Prop :=
  exists name f w, In name names /\ In f (_hooks S name) /\ fst (f w) = Raise e.

(** The cursor is on [c] and the path stack is [p]. *)
Definition cursor_is (c : ref) (p : list ref) (w : World) : Prop :=
  current_item w = c /\ _collection_path w = p.

(** A predicate on the store that does not look at the cursor, the
    trace, the dimensions or the dimension values, nor at any attribute
    of an item but [query]. *)
Record frame (P : World -> Prop) : Prop := mkFrame {
  frame_trace : forall f w, P w -> P (with_trace f w);
  frame_current_item : forall r w, P w -> P (with_current_item r w);
  frame_collection_path : forall f w, P w -> P (with_collection_path f w);
  frame_dimensions : forall f w, P w -> P (with_dimensions f w);
  frame_dimensionvalues : forall f w, P w -> P (with_dimensionvalues f w);
  frame_update_item : forall r it f w,
    items w !! r = Some it -> Dataset_query (f it) = Dataset_query it ->
    P w -> P (with_items (insert r (f it)) w);
  frame_new_item : forall it w,
    P w -> P (with_items (insert (fresh (dom (items w))) it) w);
}.

(** A predicate that does not look at results, result sets, mappings or
    the cache of the datasets. *)
Record frame_results (P : World -> Prop) : Prop := mkFrameResults {
  frame_results_ : forall f w, P w -> P (with_results f w);
  frame_resultsets : forall f w, P w -> P (with_resultsets f w);
  frame_mappings : forall f w, P w -> P (with_mappings f w);
  frame_data : forall f w, P w -> P (with_data f w);
}.

(** A predicate that does not look at [Result.dimensionvalues]. *)
Definition frame_dimensionvalues_attr (P : World -> Prop) : Prop :=
  forall f w, P w -> P (with_Result_dimensionvalues f w).

(** The dataset [d] is live and its stored query is [q]. *)
Definition query_is (d : ref) (q : json) (w : World) : Prop :=
  exists it, items w !! d = Some it /\ Dataset_query it = q.

(** The part of the store that only [ResultSet.append] and the
    constructors of results write to. *)
Definition results_are (L : list ref) (R : gmap ref Result)
    (Mp : gmap ref (list (string * rawvalue))) (w : World) : Prop :=
  Result_dimensionvalues w = L /\ results w = R /\ mappings w = Mp.

(** What the cursor needs of the store: a valid path stack that starts
    at [root], over child lists that are linked to their parents. *)
Definition navigation_invariant (root : ref) (w : World) : Prop :=
  valid_path w
  /\ head (_collection_path w) = Some root
  /\ children_linked w.

(** Every live item of [w] is live in [w'], with its class, its id and
    its parent. *)
Definition extends (w w' : World) : Prop :=
  forall r it, items w !! r = Some it ->
    exists it', items w' !! r = Some it'
      /\ Item_type it' = Item_type it /\ Item_id it' = Item_id it
      /\ Item_parent_ it' = Item_parent_ it.

(** The dialect of an adopted item: its own if the collaborator set one,
    else, for a dataset, the dialect of the scraper. *)
Definition adopted_dialect (S : Scraper) (spec : ItemSpec) : option string :=
  match spec_dialect spec with
  | Some d => Some d
  | None =>
      match spec_type spec with
      | TYPE_DATASET => dialect S
      | TYPE_COLLECTION => None
      end
  end.

(** The body of the loop of [Collection.items]: what is done with one
    item the collaborator yields. *)
Definition adopt (S : Scraper) (self : ref) (spec : ItemSpec) : M unit :=
  let* i := construct_item spec in
  let* _ := update_item i (set_parent_ (Some self)) in
  let* x := get_item i in
  let* _ := if item_type_eqb (Item_type x) TYPE_DATASET
               && match Dataset_dialect x with None => true | _ => false end
            then update_item i (set_dialect (dialect S))
            else ret tt in
  Itemslist_append self i.

(** [w'] differs from [w] in its items and its trace at most. *)
Definition only_items_and_trace (w w' : World) : Prop :=
  w' = with_trace (fun _ => trace w') (with_items (fun _ => items w') w).

(** [x] is the object built from [spec] and adopted by [parent]. *)
Definition child_of (S : Scraper) (w : World) (parent x : ref)
    (spec : ItemSpec) : Prop :=
  exists X, items w !! x = Some X
    /\ Item_type X = spec_type spec /\ Item_id X = spec_id spec
    /\ Item_parent_ X = Some parent /\ Item__items X = None
    /\ Dataset_dialect X = adopted_dialect S spec
    /\ Item_label X = default (spec_id spec) (spec_label spec).

(** The exceptions the [except] clause of [move_to] catches. *)
Definition move_to_catches (e : exn) : bool :=
  existsb (isinstance e) [StopIteration; IndexError; NoSuchItem].

(** The store once the cursor has gone down to [x]: [x] is current and
    on top of the stack. *)
Definition arrived (x : ref) (w : World) : World :=
  with_collection_path (fun p => p ++ [x]) (with_current_item x w).


(** The path stack after [move_up]: without its top, unless it holds
    one entry. *)
Definition popped (p : list ref) : list ref :=
  if (1 <? length p)%nat then removelast p else p.

(** The store once [move_up] has moved the cursor, when its callbacks
    are about to run: below the root the stack has lost its top and the
    new top is current; at the root nothing is written. *)
Definition gone_up (w : World) : World :=
  if (1 <? length (_collection_path w))%nat then
    match last (removelast (_collection_path w)) with
    | Some c => with_current_item c (with_collection_path (@removelast ref) w)
    | None => with_collection_path (@removelast ref) w
    end
  else w.

(** The callbacks [move_up] runs: those of [up], then those of [top] if
    the stack then holds one entry. *)
Definition up_hooks (S : Scraper) : M unit :=
  let* _ := run_hooks S "up" in
  let* w := get_world in
  if (length (_collection_path w) =? 1)%nat then run_hooks S "top" else ret tt.

(** The store once [move_to_top] has moved the cursor to [r], when the
    callbacks of [top] are about to run. *)
Definition at_top (r : ref) (w : World) : World :=
  with_collection_path (fun _ => [r]) (with_current_item r w).

(** The store when [__init__] is about to run the callbacks of [init]:
    the root collection exists, it is current and alone on the stack. *)
Definition root_created : World :=
  snd ((let* root := Item___init__ TYPE_COLLECTION ROOT None None in
        let* _ := modify (with_current_item root) in
        modify (with_collection_path (fun _ => [root]))) module_loaded).

(** The cache of the datasets holds exactly [D]. *)
Definition cache_is (D : gmap string ref) (w : World) : Prop :=
  Dataset__data w = D.

(** [Q] holds of the outcome of [m] from every store where [P] holds. *)
Definition ensures {A} (P : World -> Prop) (m : M A)
    (Q : res A -> World -> Prop) : Prop :=
  forall w, P w -> Q (fst (m w)) (snd (m w)).

(** The body of the loop of [Dataset.dimensions]: what is done with one
    dimension the collaborator yields. *)
Definition declare (Datatype_allowed_values : string -> option allowed)
    (self : ref) (spec : DimensionSpec) : M unit :=
  let* d := Dimension_call Datatype_allowed_values (Some spec) in
  let* _ := update_dimension d (set_Dimension_dataset (Some self)) in
  let* _ := update_dimension d (set_Dimension_scraper true) in
  Dimensionslist_append self d.


(** The test [x.id == k] of [Dimensionslist.__getitem__] on the
    dimension object [d]. *)
Definition dimension_id_is (w : World) (k : string) (d : ref) : bool :=
  match dimensions w !! d with
  | Some D => String.eqb (Dimension_id D) k
  | None => false
  end.

(** The first dimension of [dims] whose id is [k]. *)
Definition declared (w : World) (dims : list ref) (k : string) : option ref :=
  List.find (dimension_id_is w k) dims.

(** Reading the allowed values of [d] cannot fail: they are there, or
    the dimension knows the scraper to ask. *)
Definition usable (w : World) (d : ref) : Prop :=
  exists D, dimensions w !! d = Some D
    /\ (Dimension_scraper D = true \/ is_Some (Dimension__allowed_values D)).

(** The cursor is at [dataset], whose dimensions are listed as [dims]
    and usable. *)
Definition ready (w : World) (dataset : ref) (dims : list ref) : Prop :=
  current_item w = dataset
  /\ (exists itd, items w !! dataset = Some itd
                  /\ Dataset__dimensions itd = Some dims)
  /\ forall d, In d dims -> usable w d.

(** From [w] to [w']: dimensions keep their ids and stay usable,
    dimension values stay, and nothing else changes but the trace and
    the list [Result.dimensionvalues]. *)
Definition resolves (w w' : World) : Prop :=
  w' = with_trace (fun _ => trace w')
         (with_Result_dimensionvalues (fun _ => Result_dimensionvalues w')
            (with_dimensionvalues (fun _ => dimensionvalues w')
               (with_dimensions (fun _ => dimensions w') w)))
  /\ (forall d D, dimensions w !! d = Some D ->
        exists D', dimensions w' !! d = Some D'
          /\ Dimension_id D' = Dimension_id D
          /\ (Dimension_scraper D = true \/ is_Some (Dimension__allowed_values D) ->
              Dimension_scraper D' = true \/ is_Some (Dimension__allowed_values D')))
  /\ (forall v DV, dimensionvalues w !! v = Some DV ->
        dimensionvalues w' !! v = Some DV).

(** The dimension value [v] resolves the raw tag [(id, literal)]: it is
    a new object that holds the literal under the id of the tag and is
    bound to the first declared dimension with that id. *)
Definition resolved_tag (w w' : World) (dims : list ref) (v : ref)
    (tag : string * string) : Prop :=
  exists DV, dimensionvalues w' !! v = Some DV
    /\ DimensionValue_value DV = snd tag
    /\ DimensionValue_id DV = fst tag
    /\ declared w dims (fst tag) = Some (DimensionValue_dimension DV)
    /\ dimensionvalues w !! v = None.

(** A raw tag with a literal value. *)
Definition scalar_tag (tag : string * string) : string * rawvalue :=
  (fst tag, RawScalar (snd tag)).



(** The test [x.id == s] on a live item. *)
Definition item_id_is (w : World) (s : string) (x : ref) : bool :=
  match items w !! x with
  | Some it => String.eqb (Item_id it) s
  | None => false
  end.

(** ** Stores of the test scenarios *)

(** The store after [scraper.move_to("Dataset_1")] on a new scraper. *)
Definition at_Dataset_1 : World :=
  snd (BaseScraper_move_to TestScraper (KStr "Dataset_1")
         (fresh_scraper TestScraper)).

(** Then, after reading [dataset.dimensions] of the current dataset. *)
Definition dims_listed : World :=
  snd (Dataset_dimensions TestScraper (fun _ => None) 1 at_Dataset_1).

(** Then, with a result set of the dataset and the result of the test
    scraper for [Dataset_1] built but not yet appended. *)
Definition result_built : World :=
  snd ((let* _ := owned_resultset 1 in
        Result___init__ 127
          (Some (map scalar_tag [("date", "2017-08-10");
                                 ("municipality", "Robertsfors kommun")])))
         dims_listed).

(** A result set that belongs to no dataset, and a result. *)
Definition unowned_result : World :=
  snd ((let* _ := new_resultset (mkResultSet None None []) in
        Result___init__ 127 (Some [("date", RawScalar "2017-08-10")]))
         (fresh_scraper TestScraper)).

(** The nested scraper after [move_to("Collection_1")] and a look at
    [scraper.items] there. *)
Definition nested_below : World :=
  snd (BaseScraper_items NestedScraper
         (snd (BaseScraper_move_to NestedScraper (KStr "Collection_1")
                 (fresh_scraper NestedScraper)))).

Definition root_item (l : option (list ref)) : Item :=
  mkItem TYPE_COLLECTION ROOT ROOT None None l None None JNull.

Definition child_item (t : item_type) (i : string) (p : ref)
    (l : option (list ref)) : Item :=
  mkItem t i i None (Some p) l None None JNull.

(** * Properties *)

Local Open Scope string_scope.

Example dumps_none : dumps JNull = "null".
Proof. reflexivity. Qed.

Example dumps_sorts_keys :
  dumps (JDict [("b", JInt 2); ("a", JList [JBool true; JStr "x"])])
  = "{" ++ quote ++ "a" ++ quote ++ ": [true, " ++ quote ++ "x" ++ quote
        ++ "], " ++ quote ++ "b" ++ quote ++ ": 2}".
Proof. vm_compute. reflexivity. Qed.

(** ** The canonical form is insensitive to insertion order *)

Section sorting.
Context {A : Type}.

Lemma string_leb_refl (a : string) : String.leb a a = true.
Proof.
  destruct (String.leb_total a a); assumption.
Qed.

Lemma string_leb_trans (a b c : string) :
  String.leb a b = true -> String.leb b c = true -> String.leb a c = true.
Proof.
  unfold String.leb.
  destruct (String.compare a b) eqn:Eab; try discriminate;
    destruct (String.compare b c) eqn:Ebc; try discriminate; intros _ _.
  - apply String.compare_eq_iff in Eab, Ebc. subst.
    fold (String.leb c c). apply string_leb_refl.
  - apply String.compare_eq_iff in Eab. subst. now rewrite Ebc.
  - apply String.compare_eq_iff in Ebc. subst. now rewrite Eab.
  - apply String_as_OT.cmp_lt in Eab, Ebc.
    assert (Hac : String_as_OT.lt a c)
      by (eapply String_as_OT.lt_trans; eassumption).
    apply String_as_OT.cmp_lt in Hac.
    unfold String_as_OT.cmp in Hac. now rewrite Hac.
Qed.

Lemma insert_item_perm (kv : string * A) l :
  Permutation (insert_item kv l) (kv :: l).
Proof.
  induction l as [|kv' l IH]; simpl.
  - reflexivity.
  - destruct (String.leb (fst kv) (fst kv')).
    + reflexivity.
    + rewrite IH. apply perm_swap.
Qed.

Lemma sorted_items_perm (l : list (string * A)) :
  Permutation (sorted_items l) l.
Proof.
  induction l as [|kv l IH]; simpl.
  - reflexivity.
  - rewrite insert_item_perm. now apply perm_skip.
Qed.

Lemma insert_item_sorted (kv : string * A) l :
  StronglySorted key_le l -> StronglySorted key_le (insert_item kv l).
Proof.
  induction 1 as [|kv' l Hs IH Hall]; simpl.
  - repeat constructor.
  - destruct (String.leb (fst kv) (fst kv')) eqn:Hle.
    + constructor.
      * now constructor.
      * constructor; [exact Hle|].
        eapply List.Forall_impl; [|exact Hall].
        intros x Hx. unfold key_le in *. eapply string_leb_trans; eassumption.
    + constructor; [exact IH|].
      rewrite List.Forall_forall. intros x Hx.
      apply (Permutation_in _ (insert_item_perm kv l)) in Hx.
      destruct Hx as [<-|Hx].
      * unfold key_le. destruct (String.leb_total (fst kv) (fst kv')); congruence.
      * rewrite List.Forall_forall in Hall. now apply Hall.
Qed.

Lemma sorted_items_sorted (l : list (string * A)) :
  StronglySorted key_le (sorted_items l).
Proof.
  induction l as [|kv l IH]; simpl.
  - constructor.
  - now apply insert_item_sorted.
Qed.

(** Two key-sorted lists with distinct keys and the same elements are
    the same list. *)
Lemma sorted_perm_unique (l1 l2 : list (string * A)) :
  StronglySorted key_le l1 -> StronglySorted key_le l2 ->
  List.NoDup (map fst l1) -> Permutation l1 l2 -> l1 = l2.
Proof.
  intros H1. revert l2.
  induction H1 as [|x t1 Hs1 IH Hall1]; intros l2 H2 Hnd Hp.
  - apply Permutation_nil in Hp. now subst.
  - destruct H2 as [|y t2 Hs2 Hall2].
    + apply Permutation_sym, Permutation_nil in Hp. discriminate.
    + assert (Hxy : x = y).
      { assert (Hx : In x (y :: t2))
          by (eapply Permutation_in; [exact Hp|now left]).
        assert (Hy : In y (x :: t1))
          by (eapply Permutation_in; [symmetry; exact Hp|now left]).
        destruct Hx as [->|Hx]; [reflexivity|].
        destruct Hy as [->|Hy]; [reflexivity|].
        rewrite List.Forall_forall in Hall1, Hall2.
        assert (Hk : fst x = fst y)
          by (apply String.leb_antisym; [apply Hall1|apply Hall2]; assumption).
        simpl in Hnd. apply NoDup_cons_iff in Hnd as [Hnin _].
        exfalso. apply Hnin. rewrite Hk. now apply in_map. }
      subst y. f_equal. apply IH; [assumption| |].
      * simpl in Hnd. now apply NoDup_cons_iff in Hnd as [_ Hnd].
      * eapply Permutation_cons_inv; exact Hp.
Qed.

Lemma sorted_items_canonical (l1 l2 : list (string * A)) :
  List.NoDup (map fst l1) -> Permutation l1 l2 ->
  sorted_items l1 = sorted_items l2.
Proof.
  intros Hnd Hp.
  apply sorted_perm_unique; try apply sorted_items_sorted.
  - eapply Permutation_NoDup; [|exact Hnd].
    apply Permutation_map. symmetry. apply sorted_items_perm.
  - rewrite sorted_items_perm, Hp. symmetry. apply sorted_items_perm.
Qed.
End sorting.

Lemma json_wf_list l : json_wf (JList l) <-> Forall json_wf l.
Proof.
  simpl. induction l as [|x l IH].
  - split; [constructor|trivial].
  - rewrite List.Forall_cons_iff, <- IH. reflexivity.
Qed.

Lemma json_wf_dict d :
  json_wf (JDict d) <->
  List.NoDup (map fst d) /\ Forall (fun kv => json_wf (snd kv)) d.
Proof.
  simpl. apply and_iff_compat_l.
  induction d as [|kv d IH].
  - split; [constructor|trivial].
  - rewrite List.Forall_cons_iff, <- IH. reflexivity.
Qed.

Lemma dict_get_In k d v : dict_get k d = Some v -> In (k, v) d.
Proof.
  induction d as [|[k' v'] d IH]; simpl; [discriminate|].
  destruct (String.eqb k k') eqn:E.
  - apply String.eqb_eq in E. intros [= ->]. subst. now left.
  - intros H. right. now apply IH.
Qed.

Lemma py_eq_truthy (a b : json) : py_eq a b = true -> truthy a = truthy b.
Proof.
  destruct a, b; simpl; try discriminate; trivial.
  - intros H. apply Bool.eqb_prop in H. now subst.
  - intros H. apply Z.eqb_eq in H. now subst.
  - intros H. apply String.eqb_eq in H. now subst.
  - destruct l, l0; simpl; congruence.
  - intros H. apply andb_true_iff in H as [H _].
    apply Nat.eqb_eq in H. now rewrite H.
Qed.

(** Structurally equal queries have the same canonical text. *)
Lemma dumps_py_eq (a : json) :
  forall q, json_wf a -> json_wf q -> py_eq a q = true -> dumps a = dumps q.
Proof.
  induction a as [| | | |l IH|d IH] using json_rect';
    intros q Ha Hb Heq; destruct q as [|b'|z'|s'|l0|d0];
    simpl in Heq; try discriminate.
  - reflexivity.
  - apply Bool.eqb_prop in Heq. now subst.
  - apply Z.eqb_eq in Heq. now subst.
  - apply String.eqb_eq in Heq. now subst.
  - apply json_wf_list in Ha, Hb. simpl. do 3 f_equal.
    revert l0 Hb Heq.
    induction IH as [|x l Hx _ IHl]; intros [|y l'] Hb Heq; try discriminate.
    + reflexivity.
    + apply andb_true_iff in Heq as [Hxy Hrest].
      apply List.Forall_cons_iff in Ha as [Hax Hal].
      apply List.Forall_cons_iff in Hb as [Hby Hbl].
      simpl. f_equal; [now apply Hx|now apply IHl].
  - apply json_wf_dict in Ha as [Hnd Hwf], Hb as [Hnd' Hwf'].
    apply andb_true_iff in Heq as [Hlen Hall].
    apply Nat.eqb_eq in Hlen. rewrite forallb_forall in Hall.
    simpl. do 4 f_equal.
    apply sorted_items_canonical.
    + now rewrite map_map.
    + apply NoDup_Permutation_bis.
      * apply (NoDup_map_inv fst). now rewrite map_map.
      * rewrite !length_map. now rewrite Hlen.
      * intros kv Hin. apply in_map_iff in Hin as [[k v] [<- Hin]].
        specialize (Hall _ Hin). simpl in Hall |- *.
        destruct (dict_get k d0) as [v'|] eqn:Hget; [|discriminate].
        apply dict_get_In in Hget.
        rewrite List.Forall_forall in IH, Hwf, Hwf'.
        pose proof (IH _ Hin v' (Hwf _ Hin) (Hwf' _ Hget) Hall) as Hd.
        simpl in Hd. rewrite Hd.
        apply in_map_iff. now exists (k, v').
Qed.

Local Open Scope list_scope.

Example fresh_scraper_at_root :
  current_item (fresh_scraper TestScraper) = 0
  /\ _collection_path (fresh_scraper TestScraper) = [0]
  /\ (Item_id <$> items (fresh_scraper TestScraper) !! 0) = Some ROOT.
Proof. vm_compute. auto. Qed.

(** test_move_to_item: by id, then by index, then by identity. *)
Example test_move_to_item :
  let w1 := snd (BaseScraper_move_to TestScraper (KStr "Dataset_1")
                   (fresh_scraper TestScraper)) in
  let w2 := snd (BaseScraper_move_up TestScraper w1) in
  let w3 := snd (BaseScraper_move_to TestScraper (KInt 1) w2) in
  let w4 := snd (BaseScraper_move_up TestScraper w3) in
  let w5 := snd (BaseScraper_move_to TestScraper (KItem 3) w4) in
  id_in w1 (current_item w1) = "Dataset_1"
  /\ id_in w3 (current_item w3) = "Dataset_2"
  /\ id_in w5 (current_item w5) = "Dataset_3"
  /\ _collection_path w5 = [0; 3].
Proof. vm_compute. auto. Qed.

(** test_select_missing_item. *)
Example test_select_missing_item :
  fst (BaseScraper_move_to TestScraper (KStr "non_existing_item")
         (fresh_scraper TestScraper))
  = Raise NoSuchItem.
Proof. vm_compute. reflexivity. Qed.

(** ** Lookup by id in the ordered collections *)

Lemma filter_next_none (f : ref -> M bool) (l : list ref) (w : World) :
  (forall x, In x l -> f x w = (Ok false, w)) ->
  filter_next f l w = (Raise StopIteration, w).
Proof.
  induction l as [|x l IH]; intros Hf; simpl.
  - reflexivity.
  - unfold bind. rewrite (Hf x (or_introl eq_refl)).
    apply IH. intros y Hy. apply Hf. now right.
Qed.

Lemma String_eqb_neq (a b : string) : a <> b -> String.eqb a b = false.
Proof. intros H. now apply String.eqb_neq. Qed.

(** C5, as the code has it.  Looking up an id that no element carries
    ends [next] on an exhausted iterator: the exception is
    [StopIteration], which the [except IndexError] clause of
    [__getitem__] does not catch, so neither [Itemslist] nor
    [Dimensionslist] raises [NoSuchItem]. *)
Theorem getitem_absent_id_raises_StopIteration
    (w : World) (its dims : list ref) (s : string) :
  (forall x, In x its ->
     exists it, items w !! x = Some it /\ Item_id it <> s) ->
  (forall x, In x dims ->
     exists d, dimensions w !! x = Some d /\ Dimension_id d <> s) ->
  Itemslist___getitem__ its (KStr s) w = (Raise StopIteration, w)
  /\ Itemslist_get its (KStr s) w = (Raise StopIteration, w)
  /\ Dimensionslist___getitem__ id_of_dimension dims (KStr s) w
     = (Raise StopIteration, w)
  /\ Dimensionslist_get id_of_dimension dims (KStr s) w
     = (Raise StopIteration, w)
  /\ isinstance StopIteration NoSuchItem = false
  /\ isinstance StopIteration IndexError = false.
Proof.
  intros Hits Hdims.
  assert (H1 : Itemslist___getitem__ its (KStr s) w = (Raise StopIteration, w)).
  { unfold Itemslist___getitem__, try_except.
    rewrite filter_next_none; [reflexivity|].
    intros x Hx. destruct (Hits x Hx) as (it & Hit & Hne).
    cbv [bind id_of_item get_item ret]. rewrite Hit.
    now rewrite String_eqb_neq. }
  assert (H2 : Dimensionslist___getitem__ id_of_dimension dims (KStr s) w
               = (Raise StopIteration, w)).
  { unfold Dimensionslist___getitem__, try_except.
    rewrite filter_next_none; [reflexivity|].
    intros x Hx. destruct (Hdims x Hx) as (d & Hd & Hne).
    cbv [bind id_of_dimension get_dimension ret]. rewrite Hd.
    now rewrite String_eqb_neq. }
  repeat split; assumption.
Qed.

Lemma getitem_absent_id_witness :
  Itemslist___getitem__ [1; 2; 3] (KStr "non_existing_item")
    (root_listed TestScraper)
  = (Raise StopIteration, root_listed TestScraper).
Proof.
  refine (proj1 (getitem_absent_id_raises_StopIteration
                   (root_listed TestScraper) [1; 2; 3] []
                   "non_existing_item" _ _)).
  - intros x [<-|[<-|[<-|[]]]]; eexists; (split; [vm_compute; reflexivity|]);
      simpl; discriminate.
  - intros x [].
Defined.

(** ** Appending a result *)

Lemma append_tags_prebuilt_first (S : Scraper) dt (dataset val : ref)
    (dims : list ref) (k : string) (dv : ref) rest (w : World) :
  is_Some (results w !! val) ->
  append_tags S dt dataset val dims ((k, RawDimensionValue dv) :: rest) None w
  = (Raise UnboundLocalError, with_Result_dimensionvalues (fun l => l ++ [dv]) w).
Proof.
  intros [x Hx]. simpl.
  cbv [bind Result_dimensionvalues_append get_result modify ret raise].
  now rewrite Hx.
Qed.

(** C6, as the code has it.  In [append] the statement that attaches
    [dim] stands after the [if]/[else], so it also runs when the raw
    value is a [DimensionValue]; [dim] has no value then, and the call
    ends in [UnboundLocalError] after the value was attached once and
    before the result enters the set. *)
Theorem append_prebuilt_raises_UnboundLocalError
    (dt : string -> option allowed) :
  let out := append_prebuilt TestScraper dt 1 (root_listed TestScraper) in
  fst out = Raise UnboundLocalError
  /\ Result_dimensionvalues (snd out) = [0]
  /\ (DimensionValue_value <$> dimensionvalues (snd out) !! 0) = Some "2017-08-10"
  /\ (ResultSet_list <$> resultsets (snd out) !! 0) = Some [].
Proof. vm_compute. auto. Qed.

Lemma append_tags_undeclared (S : Scraper) dt (dataset val : ref)
    (dims : list ref) (k s : string) rest dim (w w' : World) (ds : list ref) :
  Dataset_dimensions S dt dataset w = (Ok ds, w') ->
  Dimensionslist___contains__ id_of_dimension ds (KStr k) w' = (Ok false, w') ->
  append_tags S dt dataset val dims ((k, RawScalar s) :: rest) dim w
  = (Raise TypeError, w').
Proof.
  intros Hd Hc. cbn [append_tags]. cbv [bind]. rewrite Hd. cbv beta iota.
  rewrite Hc. reflexivity.
Qed.

(** C7, as the code has it.  For a tag whose id the dataset does not
    declare, [append] calls [Dimension()] without the [id_] its
    constructor requires: the call raises [TypeError], no
    [DimensionValue] is built and the result does not enter the set. *)
Theorem append_undeclared_raises_TypeError (dt : string -> option allowed) :
  let out := append_undeclared TestScraper dt 1 (root_listed TestScraper) in
  fst out = Raise TypeError
  /\ Result_dimensionvalues (snd out) = []
  /\ dimensionvalues (snd out) = ∅
  /\ (ResultSet_list <$> resultsets (snd out) !! 0) = Some [].
Proof. vm_compute. auto. Qed.

(** ** Allowed values *)

(** X18: The allowed values are fetched on the first access and kept: the
    second access returns the same object and calls nothing. *)
Lemma allowed_values_memoized (S : Scraper) (d : ref) (a : allowed)
    (w w' : World) :
  Dimension_allowed_values S d w = (Ok a, w') ->
  Dimension_allowed_values S d w' = (Ok a, w').
Proof.
  cbv [Dimension_allowed_values bind get_dimension log modify get_world
         update_dimension ret raise].
  destruct (dimensions w !! d) as [x|] eqn:Hx; [|discriminate].
  destruct (Dimension__allowed_values x) as [a0|] eqn:Ha.
  - intros [= <- <-]. now rewrite Hx, Ha.
  - destruct (Dimension_scraper x); [|discriminate].
    simpl. rewrite Hx. intros [= <- <-]. simpl.
    now rewrite lookup_insert_eq.
Qed.

(** C8, as the code has it.  What is fetched and kept is the generator
    object that [_fetch_allowed_values] returns, and a generator cannot
    be subscripted: both lookups of test_select_allowed_values raise
    [TypeError]. *)
Theorem allowed_values_lookup_raises_TypeError
    (dt : string -> option allowed) :
  fst (select_allowed_value TestScraper dt 1 "female" (root_listed TestScraper))
  = Raise TypeError
  /\ fst (select_allowed_value TestScraper dt 1 "Women" (root_listed TestScraper))
     = Raise TypeError
  /\ (Dimension__allowed_values <$>
        dimensions (snd (select_allowed_value TestScraper dt 1 "female"
                           (root_listed TestScraper))) !! 2)
     = Some (Some (Generator [] (Some TypeError))).
Proof. vm_compute. auto. Qed.

(** Were the values built by [DimensionValue.__init__] and kept in a
    [Dimensionslist], the lookups would still fail: each value copies
    the id and the label of its dimension, and [__getitem__] compares
    ids only. *)
Example materialised_allowed_values_lookup (dt : string -> option allowed) :
  fst (select_materialised_value TestScraper dt 1 "female"
         (root_listed TestScraper)) = Raise StopIteration
  /\ fst (select_materialised_value TestScraper dt 1 "Women"
            (root_listed TestScraper)) = Raise StopIteration
  /\ fst (select_materialised_value TestScraper dt 1 "gender"
            (root_listed TestScraper))
     = Ok (map (fun v => mkDimensionValue v "gender" "gender" None
                           (Generator [] (Some TypeError)) 2)
             ["male"; "female"], 0).
Proof. vm_compute. auto. Qed.

(** ** Methods and the predicates they leave alone *)

Create HintDb pres discriminated.

Section preserves_rules.
Context (P : World -> Prop).

Lemma preserves_ret {A} (a : A) : preserves P (ret a).
Proof. intros w Hw. exact Hw. Qed.

Lemma preserves_raise {A} (e : exn) : preserves P (@raise A e).
Proof. intros w Hw. exact Hw. Qed.

Lemma preserves_get_world : preserves P get_world.
Proof. intros w Hw. exact Hw. Qed.

Lemma preserves_bind {A B} (m : M A) (f : A -> M B) :
  preserves P m -> (forall a, preserves P (f a)) -> preserves P (bind m f).
Proof.
  intros Hm Hf w Hw. unfold bind. specialize (Hm w Hw).
  destruct (m w) as [[a|e] w1]; simpl in *.
  - now apply Hf.
  - exact Hm.
Qed.

Lemma preserves_try_except {A} (m : M A) classes (h : M A) :
  preserves P m -> preserves P h -> preserves P (try_except m classes h).
Proof.
  intros Hm Hh w Hw. unfold try_except. specialize (Hm w Hw).
  destruct (m w) as [[a|e] w1]; simpl in *.
  - exact Hm.
  - destruct (existsb (isinstance e) classes); [now apply Hh|exact Hm].
Qed.

Lemma preserves_for_list {A} (l : list A) (body : A -> M unit) :
  (forall x, preserves P (body x)) -> preserves P (for_list l body).
Proof.
  intros Hb. induction l as [|x l IH]; simpl.
  - apply preserves_ret.
  - apply preserves_bind; [apply Hb|intros _; exact IH].
Qed.

Lemma preserves_for_list_In {A} (l : list A) (body : A -> M unit) :
  (forall x, In x l -> preserves P (body x)) -> preserves P (for_list l body).
Proof.
  induction l as [|x l IH]; intros Hb; simpl.
  - apply preserves_ret.
  - apply preserves_bind; [apply Hb; now left|intros _].
    apply IH. intros y Hy. apply Hb. now right.
Qed.

Lemma preserves_for_gen {A} (g : gen A) (body : A -> M unit) :
  (forall x, preserves P (body x)) -> preserves P (for_gen g body).
Proof.
  intros Hb. unfold for_gen. apply preserves_bind.
  - now apply preserves_for_list.
  - intros _. destruct (snd g); [apply preserves_raise|apply preserves_ret].
Qed.

Lemma preserves_modify (f : World -> World) :
  (forall w, P w -> P (f w)) -> preserves P (modify f).
Proof. intros Hf w Hw. now apply Hf. Qed.

Lemma preserves_get_item r : preserves P (get_item r).
Proof. intros w Hw. unfold get_item. now destruct (items w !! r). Qed.

Lemma preserves_get_dimension r : preserves P (get_dimension r).
Proof. intros w Hw. unfold get_dimension. now destruct (dimensions w !! r). Qed.

Lemma preserves_get_dimensionvalue r : preserves P (get_dimensionvalue r).
Proof.
  intros w Hw. unfold get_dimensionvalue. now destruct (dimensionvalues w !! r).
Qed.

Lemma preserves_get_result r : preserves P (get_result r).
Proof. intros w Hw. unfold get_result. now destruct (results w !! r). Qed.

Lemma preserves_get_resultset r : preserves P (get_resultset r).
Proof. intros w Hw. unfold get_resultset. now destruct (resultsets w !! r). Qed.

Lemma preserves_get_mapping r : preserves P (get_mapping r).
Proof. intros w Hw. unfold get_mapping. now destruct (mappings w !! r). Qed.
End preserves_rules.

#[export] Hint Resolve preserves_ret preserves_raise preserves_get_world
  preserves_get_item preserves_get_dimension preserves_get_dimensionvalue
  preserves_get_result preserves_get_resultset preserves_get_mapping : pres.

(** One step through the structure of a method body. *)
Ltac pres_step :=
  match goal with
  | |- preserves _ (bind _ _) => apply preserves_bind; [|intros ?]
  | |- preserves _ (try_except _ _ _) => apply preserves_try_except
  | |- preserves _ (for_gen _ _) => apply preserves_for_gen; intros ?
  | |- preserves _ (match ?x with _ => _ end) => destruct x
  | |- preserves _ _ => solve [auto with pres]
  end.

Ltac pres := repeat pres_step.

(** ** Callbacks *)

Lemma hooks_keep_none (P : World -> Prop) (S : Scraper) :
  (forall name, _hooks S name = []) -> hooks_keep P S.
Proof. intros H name f Hf. rewrite H in Hf. destruct Hf. Qed.

Lemma hooks_observe_keep (P : World -> Prop) (S : Scraper) :
  hooks_observe S -> (forall f w, P w -> P (with_trace f w)) -> hooks_keep P S.
Proof.
  intros Ho Ht name f Hf w Hw. rewrite (Ho name f w Hf). now apply Ht.
Qed.

Lemma hooks_observe_none (S : Scraper) :
  (forall name, _hooks S name = []) -> hooks_observe S.
Proof. intros H name f w Hf. rewrite H in Hf. destruct Hf. Qed.

Lemma hooks_return_none (S : Scraper) :
  (forall name, _hooks S name = []) -> hooks_return S.
Proof. intros H name f w Hf. rewrite H in Hf. destruct Hf. Qed.

Lemma TestScraper_no_hooks (name : string) : _hooks TestScraper name = [].
Proof. reflexivity. Qed.

Lemma HookedScraper_hooks (name : string) (f : M unit) :
  In f (_hooks HookedScraper name) -> f = ret tt \/ f = raise Exception.
Proof.
  cbn. destruct (String.eqb name "up"); [intros [<-|[]]; now left|].
  destruct (String.eqb name "select"); [intros [<-|[]]; now right|intros []].
Qed.

Lemma HookedScraper_observes : hooks_observe HookedScraper.
Proof.
  intros name f w Hf.
  destruct (HookedScraper_hooks name f Hf) as [->| ->]; now destruct w.
Qed.

Lemma for_list_raised (l : list (M unit)) (w : World) (e : exn) :
  fst (for_list l (fun f => f) w) = Raise e ->
  exists f w0, In f l /\ fst (f w0) = Raise e.
Proof.
  revert w. induction l as [|f l IH]; intros w; cbn; [discriminate|].
  unfold bind. destruct (f w) as [[[]|e0] w1] eqn:Hf; cbn.
  - intros H. destruct (IH w1 H) as (g & w0 & Hg & He). eauto.
  - intros [= ->]. exists f, w. split; [now left|now rewrite Hf].
Qed.

Lemma for_list_return (l : list (M unit)) (w : World) :
  (forall f w0, In f l -> fst (f w0) = Ok tt) ->
  fst (for_list l (fun f => f) w) = Ok tt.
Proof.
  revert w. induction l as [|f l IH]; intros w H; cbn; [reflexivity|].
  unfold bind. pose proof (H f w (or_introl eq_refl)) as Hf.
  destruct (f w) as [[[]|e0] w1]; cbn in Hf; [|discriminate].
  apply IH. intros g w0 Hg. apply H. now right.
Qed.

Lemma run_hooks_none (S : Scraper) (name : string) (w : World) :
  _hooks S name = [] ->
  run_hooks S name w = (Ok tt, with_trace (fun t => t ++ [Hook name]) w).
Proof. intros H. cbv [run_hooks bind log modify]. now rewrite H. Qed.

Lemma run_hooks_raised (S : Scraper) (name : string) (w : World) (e : exn) :
  fst (run_hooks S name w) = Raise e -> raised_by_hook S [name] e.
Proof.
  cbv [run_hooks bind log modify]. intros H.
  destruct (for_list_raised _ _ _ H) as (f & w0 & Hf & He).
  exists name, f, w0. split; [now left|auto].
Qed.

Lemma run_hooks_return (S : Scraper) (name : string) (w : World) :
  hooks_return S -> fst (run_hooks S name w) = Ok tt.
Proof.
  intros H. cbv [run_hooks bind log modify]. apply for_list_return.
  intros f w0 Hf. exact (H name f w0 Hf).
Qed.

Lemma run_hooks_keep (P : World -> Prop) (S : Scraper) (name : string) :
  (forall f w, P w -> P (with_trace f w)) -> hooks_keep P S ->
  preserves P (run_hooks S name).
Proof.
  intros Ht HK. unfold run_hooks. apply preserves_bind.
  - apply preserves_modify. intros w. apply Ht.
  - intros _. apply preserves_for_list_In. intros f Hf. exact (HK name f Hf).
Qed.

Lemma raised_by_hook_incl (S : Scraper) (names names' : list string) (e : exn) :
  incl names names' -> raised_by_hook S names e -> raised_by_hook S names' e.
Proof.
  intros Hi (name & f & w & Hn & Hf & He). exists name, f, w. auto.
Qed.

Section frame_rules.
Context (P : World -> Prop) (HP : frame P).

Lemma preserves_log e : preserves P (log e).
Proof. apply preserves_modify. intros w. apply (frame_trace P HP). Qed.

Lemma preserves_set_current_item r : preserves P (modify (with_current_item r)).
Proof. apply preserves_modify. intros w. apply (frame_current_item P HP). Qed.

Lemma preserves_set_collection_path f :
  preserves P (modify (with_collection_path f)).
Proof. apply preserves_modify. intros w. apply (frame_collection_path P HP). Qed.

Lemma preserves_update_item r f :
  (forall it, Dataset_query (f it) = Dataset_query it) ->
  preserves P (update_item r f).
Proof.
  intros Hf w Hw. cbv [update_item bind get_item modify].
  destruct (items w !! r) as [it|] eqn:Hit; simpl; [|exact Hw].
  now apply (frame_update_item P HP).
Qed.

Lemma preserves_new_item it : preserves P (new_item it).
Proof. intros w Hw. simpl. now apply (frame_new_item P HP). Qed.

Lemma preserves_update_dimension r f : preserves P (update_dimension r f).
Proof.
  intros w Hw. cbv [update_dimension bind get_dimension modify].
  destruct (dimensions w !! r); simpl; [|exact Hw].
  now apply (frame_dimensions P HP).
Qed.

Lemma preserves_new_dimension d : preserves P (new_dimension d).
Proof. intros w Hw. simpl. now apply (frame_dimensions P HP). Qed.

Lemma preserves_new_dimensionvalue d : preserves P (new_dimensionvalue d).
Proof. intros w Hw. simpl. now apply (frame_dimensionvalues P HP). Qed.

Hint Resolve preserves_log preserves_set_current_item
  preserves_set_collection_path preserves_new_item
  preserves_update_dimension preserves_new_dimension
  preserves_new_dimensionvalue : pres.

Lemma preserves_filter_next f l :
  (forall x, preserves P (f x)) -> preserves P (filter_next f l).
Proof.
  intros Hf. induction l as [|x l IH]; simpl; pres.
Qed.

Lemma preserves_filter_list f l :
  (forall x, preserves P (f x)) -> preserves P (filter_list f l).
Proof.
  intros Hf. induction l as [|x l IH]; simpl; pres.
Qed.

Lemma preserves_list_getitem l i : preserves P (list___getitem__ l i).
Proof. unfold list___getitem__. pres. Qed.

Lemma preserves_id_of_item x : preserves P (id_of_item x).
Proof. unfold id_of_item. pres. Qed.

Lemma preserves_id_of_dimension x : preserves P (id_of_dimension x).
Proof. unfold id_of_dimension. pres. Qed.

Hint Resolve preserves_list_getitem preserves_id_of_item
  preserves_id_of_dimension : pres.

Lemma preserves_Itemslist_getitem l k : preserves P (Itemslist___getitem__ l k).
Proof.
  unfold Itemslist___getitem__. pres;
    apply preserves_filter_next; intros x; pres.
Qed.

Lemma preserves_Itemslist_contains l k : preserves P (Itemslist___contains__ l k).
Proof.
  unfold Itemslist___contains__. pres.
  apply preserves_filter_list; intros x; pres.
Qed.

Lemma preserves_Dimensionslist_getitem l k :
  preserves P (Dimensionslist___getitem__ id_of_dimension l k).
Proof.
  unfold Dimensionslist___getitem__. pres;
    apply preserves_filter_next; intros x; pres.
Qed.

Lemma preserves_Dimensionslist_contains l k :
  preserves P (Dimensionslist___contains__ id_of_dimension l k).
Proof.
  unfold Dimensionslist___contains__. pres.
  apply preserves_filter_list; intros x; pres.
Qed.

Hint Resolve preserves_Itemslist_getitem preserves_Itemslist_contains
  preserves_Dimensionslist_getitem preserves_Dimensionslist_contains : pres.

Lemma preserves_Itemslist_append owner val :
  preserves P (Itemslist_append owner val).
Proof.
  unfold Itemslist_append. pres. now apply preserves_update_item.
Qed.

Lemma preserves_Dimensionslist_append owner val :
  preserves P (Dimensionslist_append owner val).
Proof.
  unfold Dimensionslist_append. pres. now apply preserves_update_item.
Qed.

Lemma preserves_construct_item spec : preserves P (construct_item spec).
Proof.
  unfold construct_item, Item___init__. pres. now apply preserves_update_item.
Qed.

Hint Resolve preserves_Itemslist_append preserves_Dimensionslist_append
  preserves_construct_item : pres.

Variable S : Scraper.
Variable Datatype_allowed_values : string -> option allowed.

Lemma preserves_Collection_items self : preserves P (Collection_items S self).
Proof.
  unfold Collection_items. pres; now apply preserves_update_item.
Qed.

Hint Resolve preserves_Collection_items : pres.

Lemma preserves_Item_items self : preserves P (Item_items S self).
Proof. unfold Item_items. pres. Qed.

Hint Resolve preserves_Item_items : pres.

(** The callbacks are asked to leave [P] alone. *)
Hypothesis HK : hooks_keep P S.

Lemma preserves_run_hooks name : preserves P (run_hooks S name).
Proof.
  unfold run_hooks. pres. apply preserves_for_list_In.
  intros f Hf. exact (HK name f Hf).
Qed.

Hint Resolve preserves_run_hooks : pres.

Lemma preserves_move_up : preserves P (BaseScraper_move_up S).
Proof. unfold BaseScraper_move_up. pres. Qed.

Lemma preserves_move_to_top : preserves P (BaseScraper_move_to_top S).
Proof. unfold BaseScraper_move_to_top. pres. Qed.

Lemma preserves_move_to k : preserves P (BaseScraper_move_to S k).
Proof.
  unfold BaseScraper_move_to, BaseScraper_items, items_getitem. pres.
Qed.

Hint Resolve preserves_move_up preserves_move_to_top preserves_move_to : pres.

Lemma preserves_move_here self : preserves P (Dataset__move_here S self).
Proof. unfold Dataset__move_here, Item_parent. pres. Qed.

Hint Resolve preserves_move_here : pres.

Lemma preserves_Dimension_call args :
  preserves P (Dimension_call Datatype_allowed_values args).
Proof. unfold Dimension_call, Dimension___init__. pres. Qed.

Lemma preserves_Dimension_allowed_values self :
  preserves P (Dimension_allowed_values S self).
Proof. unfold Dimension_allowed_values. pres. Qed.

Hint Resolve preserves_Dimension_call preserves_Dimension_allowed_values : pres.

Lemma preserves_DimensionValue_init v d :
  preserves P (DimensionValue___init__ S v d).
Proof. unfold DimensionValue___init__. pres. Qed.

Lemma preserves_Dataset_dimensions self :
  preserves P (Dataset_dimensions S Datatype_allowed_values self).
Proof.
  unfold Dataset_dimensions. pres; now apply preserves_update_item.
Qed.
End frame_rules.

Section frame_results_rules.
Context (P : World -> Prop) (HP : frame P) (HR : frame_results P).

Lemma preserves_update_result r f : preserves P (update_result r f).
Proof.
  intros w Hw. cbv [update_result bind get_result modify].
  destruct (results w !! r); simpl; [|exact Hw].
  now apply (frame_results_ P HR).
Qed.

Lemma preserves_update_resultset r f : preserves P (update_resultset r f).
Proof.
  intros w Hw. cbv [update_resultset bind get_resultset modify].
  destruct (resultsets w !! r); simpl; [|exact Hw].
  now apply (frame_resultsets P HR).
Qed.

Lemma preserves_new_resultset x : preserves P (new_resultset x).
Proof. intros w Hw. simpl. now apply (frame_resultsets P HR). Qed.

Lemma preserves_new_result x : preserves P (new_result x).
Proof. intros w Hw. simpl. now apply (frame_results_ P HR). Qed.

Lemma preserves_new_mapping x : preserves P (new_mapping x).
Proof. intros w Hw. simpl. now apply (frame_mappings P HR). Qed.

Lemma preserves_set_data f : preserves P (modify (with_data f)).
Proof. apply preserves_modify. intros w. apply (frame_data P HR). Qed.

Hint Resolve preserves_update_result preserves_update_resultset
  preserves_new_resultset preserves_new_result preserves_new_mapping
  preserves_set_data : pres.

Lemma preserves_Result_init v d : preserves P (Result___init__ v d).
Proof. unfold Result___init__. pres. Qed.

Context (HV : frame_dimensionvalues_attr P).
Variable S : Scraper.
Variable Datatype_allowed_values : string -> option allowed.
Hypothesis HK : hooks_keep P S.

Lemma preserves_Result_dimensionvalues_append val x :
  preserves P (Result_dimensionvalues_append val x).
Proof.
  unfold Result_dimensionvalues_append. pres.
  apply preserves_modify. intros w. apply HV.
Qed.

Hint Resolve preserves_Result_dimensionvalues_append preserves_Result_init
  preserves_Dataset_dimensions preserves_DimensionValue_init
  preserves_Dimension_call preserves_Dimensionslist_getitem
  preserves_Dimensionslist_contains preserves_move_here preserves_log : pres.

Lemma preserves_append_tags dataset val dims tags dim :
  preserves P (append_tags S Datatype_allowed_values dataset val dims tags dim).
Proof.
  revert dim. induction tags as [|[k v] tags IH]; intros dim;
    cbn [append_tags].
  - apply preserves_ret.
  - pres.
Qed.

Lemma preserves_ResultSet_append self val :
  preserves P (ResultSet_append S Datatype_allowed_values self val).
Proof.
  unfold ResultSet_append. pres. apply preserves_append_tags.
Qed.
End frame_results_rules.

(** ** Reading a successful call backwards *)

Lemma bind_Ok_inv {A B} (m : M A) (f : A -> M B) (w w' : World) (b : B) :
  bind m f w = (Ok b, w') ->
  exists a w1, m w = (Ok a, w1) /\ f a w1 = (Ok b, w').
Proof.
  unfold bind. destruct (m w) as [[a|e] w1]; [eauto|discriminate].
Qed.

Lemma preserves_Ok {A} (P : World -> Prop) (m : M A) (w w' : World) r :
  preserves P m -> m w = (r, w') -> P w -> P w'.
Proof. intros Hm Heq Hw. specialize (Hm w Hw). now rewrite Heq in Hm. Qed.

(** What holds of the outcome of a method, whatever the store it starts
    from. *)
Definition post {A} (m : M A) (Q : res A -> World -> Prop) : Prop :=
  forall w, Q (fst (m w)) (snd (m w)).

Lemma post_bind {A B} (m : M A) (f : A -> M B) (Q : res B -> World -> Prop) :
  (forall e w, Q (Raise e) w) -> (forall a, post (f a) Q) -> post (bind m f) Q.
Proof.
  intros Hr Hf w. unfold bind. destruct (m w) as [[a|e] w1].
  - apply Hf.
  - apply Hr.
Qed.

(** ** The cache of query results *)

Lemma query_is_frame (d : ref) (q : json) : frame (query_is d q).
Proof.
  split; try (intros; assumption).
  - intros r it f w Hr Hf (it0 & Hd & Hq). unfold query_is. simpl.
    destruct (decide (r = d)) as [->|Hne].
    + rewrite lookup_insert_eq. exists (f it). split; [reflexivity|].
      rewrite Hf. congruence.
    + rewrite lookup_insert_ne by exact Hne. eauto.
  - intros it w (it0 & Hd & Hq). unfold query_is. simpl.
    rewrite lookup_insert_ne; [eauto|].
    intros Heq. apply (is_fresh (dom (items w))). rewrite Heq.
    apply elem_of_dom. eauto.
Qed.

Lemma query_is_frame_results (d : ref) (q : json) : frame_results (query_is d q).
Proof. split; intros; assumption. Qed.

Lemma query_is_frame_attr (d : ref) (q : json) :
  frame_dimensionvalues_attr (query_is d q).
Proof. intros f w H. exact H. Qed.

Section cache.
Variable S : Scraper.
Variable md5 : string -> string.
Variable Datatype_allowed_values : string -> option allowed.

Local Abbreviation fetch := (Dataset_fetch S md5 Datatype_allowed_values).

(** The store after the assignment [self.query = query] of [fetch],
    which runs for a true [query] only. *)
Lemma fetch_sets_query (d : ref) (q : json) (it : Item) (w : World) :
  items w !! d = Some it ->
  exists w0,
    (if truthy q then update_item d (set_query q) else ret tt) w = (Ok tt, w0)
    /\ w0 = (if truthy q then with_items (insert d (set_query q it)) w else w)
    /\ query_is d (if truthy q then q else Dataset_query it) w0.
Proof.
  intros Hit. destruct (truthy q).
  - eexists. cbv [update_item bind get_item modify]. rewrite Hit.
    repeat split. exists (set_query q it). simpl.
    now rewrite lookup_insert_eq.
  - exists w. repeat split. now exists it.
Qed.

(** A hit: the cached result set comes back, and nothing but the stored
    query changes. *)
Lemma fetch_hit (d : ref) (q : json) (it : Item) (w : World) (rs : ref) :
  items w !! d = Some it ->
  Dataset__data w !! md5 (dumps (if truthy q then q else Dataset_query it))
  = Some rs ->
  fetch d q w
  = (Ok rs, if truthy q then with_items (insert d (set_query q it)) w else w).
Proof.
  intros Hit Hhit.
  destruct (fetch_sets_query d q it w Hit) as (w0 & Hset & Hw0 & it0 & Hit0 & Hq0).
  unfold Dataset_fetch. unfold bind at 1. rewrite Hset.
  cbv [bind Dataset__hash get_item ret get_world]. rewrite Hit0, Hq0.
  assert (Hd : Dataset__data w0 = Dataset__data w)
    by (rewrite Hw0; now destruct (truthy q)).
  rewrite Hd, Hhit, <- Hw0. reflexivity.
Qed.

(** After a call that returned, the result set returned is cached under
    the hash of the query the dataset now stores. *)
Lemma fetch_caches (d : ref) (q : json) (w w1 : World) (rs : ref) :
  (forall q0, hooks_keep (query_is d q0) S) ->
  fetch d q w = (Ok rs, w1) ->
  exists it1, items w1 !! d = Some it1
    /\ Dataset__data w1 !! md5 (dumps (Dataset_query it1)) = Some rs
    /\ (truthy q = true -> Dataset_query it1 = q).
Proof.
  unfold Dataset_fetch. intros HK H.
  apply bind_Ok_inv in H as ([] & w0 & Hset & H).
  apply bind_Ok_inv in H as (h & w0' & Hhash & H).
  assert (Hh : w0' = w0 /\ exists it0, items w0 !! d = Some it0
                 /\ h = md5 (dumps (Dataset_query it0))).
  { revert Hhash. cbv [Dataset__hash bind get_item ret].
    destruct (items w0 !! d) as [it0|]; [|discriminate].
    intros [= <- <-]. eauto. }
  destruct Hh as (-> & it0 & Hit0 & ->).
  assert (Hq : truthy q = true -> Dataset_query it0 = q).
  { intros Ht. rewrite Ht in Hset. revert Hset.
    cbv [update_item bind get_item modify].
    destruct (items w !! d) as [it|]; [|discriminate].
    intros [= <-]. simpl in Hit0. rewrite lookup_insert_eq in Hit0.
    now injection Hit0 as <-. }
  apply bind_Ok_inv in H as (wx & w0' & Hgw & H).
  injection Hgw as <- <-.
  destruct (Dataset__data w0 !! md5 (dumps (Dataset_query it0))) as [rs0|] eqn:Hl.
  - injection H as <- <-. exists it0. auto.
  - assert (HP : query_is d (Dataset_query it0) w1).
    { eapply preserves_Ok; [|exact H|now exists it0].
      pose proof (query_is_frame d (Dataset_query it0)) as F.
      pose proof (query_is_frame_results d (Dataset_query it0)) as FR.
      pose proof (query_is_frame_attr d (Dataset_query it0)) as FA.
      pose proof (HK (Dataset_query it0)) as K.
      pres; eauto using preserves_move_here, preserves_new_resultset,
        preserves_update_resultset, preserves_log, preserves_Result_init,
        preserves_ResultSet_append, preserves_set_data. }
    destruct HP as (it1 & Hit1 & Hq1). exists it1. split; [exact Hit1|].
    rewrite Hq1. split; [|exact Hq].
    assert (HQ : post
      (let* _ := if negb (Nat.eqb (current_item w0) d)
                 then Dataset__move_here S d else ret tt in
       let* rs := new_resultset (mkResultSet None None []) in
       let* it := get_item d in
       let* _ := update_resultset rs (set_ResultSet_dialect (Dataset_dialect it)) in
       let* _ := update_resultset rs (set_ResultSet_dataset (Some d)) in
       let* _ := log (Call_fetch_data d (Dataset_query it)) in
       let* w' := get_world in
       let* _ := for_gen (_fetch_data S w' d (Dataset_query it)) (fun spec =>
         let* result := Result___init__ (rspec_value spec) (rspec_dimensions spec) in
         ResultSet_append S Datatype_allowed_values rs result) in
       let* _ := modify (with_data (insert (md5 (dumps (Dataset_query it0))) rs)) in
       ret rs)
      (fun r w' => forall x, r = Ok x ->
         Dataset__data w' !! md5 (dumps (Dataset_query it0)) = Some x)).
    { do 8 (apply post_bind; [discriminate|intros ?]).
      intros w' x [= <-]. simpl. apply lookup_insert_eq. }
    specialize (HQ w0). rewrite H in HQ. now apply HQ.
Qed.
End cache.

(** C1.  When [D.fetch(q)] has returned a result set, [D.fetch(q')] with
    a query [q'] equal to [q] up to the insertion order of its keys
    computes the same hash, returns that same result set object, and
    changes nothing but the stored query: the trace has no new call of
    [_fetch_data] (nor of any other collaborator), and the current item
    and the path stack stay where they were.  The callbacks that ran
    while the first call moved the cursor are asked not to rebind the
    query of the dataset; the second call runs none. *)
Theorem fetch_twice_returns_cached_resultset
    (S : Scraper) (md5 : string -> string) (dt : string -> option allowed)
    (d : ref) (q q' : json) (w w1 : World) (rs : ref) :
  (forall q0, hooks_keep (query_is d q0) S) ->
  json_wf q -> json_wf q' -> py_eq q q' = true ->
  Dataset_fetch S md5 dt d q w = (Ok rs, w1) ->
  md5 (dumps q) = md5 (dumps q') /\
  exists h w2,
    Dataset__hash md5 d w1 = (Ok h, w1)
    /\ Dataset__data w1 !! h = Some rs
    /\ Dataset_fetch S md5 dt d q' w1 = (Ok rs, w2)
    /\ Dataset__hash md5 d w2 = (Ok h, w2)
    /\ trace w2 = trace w1
    /\ current_item w2 = current_item w1
    /\ _collection_path w2 = _collection_path w1
    /\ Dataset__data w2 = Dataset__data w1
    /\ resultsets w2 = resultsets w1
    /\ results w2 = results w1.
Proof.
  intros HK Hwf Hwf' Heq Hfetch.
  pose proof (dumps_py_eq q q' Hwf Hwf' Heq) as Hdumps.
  split; [now rewrite Hdumps|].
  destruct (fetch_caches S md5 dt d q w w1 rs HK Hfetch) as (it1 & Hit1 & Hc & Hq).
  pose proof (py_eq_truthy q q' Heq) as Ht.
  exists (md5 (dumps (Dataset_query it1))).
  exists (if truthy q' then with_items (insert d (set_query q' it1)) w1 else w1).
  assert (Hsame : md5 (dumps (if truthy q' then q' else Dataset_query it1))
                  = md5 (dumps (Dataset_query it1))).
  { destruct (truthy q') eqn:Ht'; [|reflexivity].
    rewrite Hq by congruence. now rewrite Hdumps. }
  split.
  { cbv [Dataset__hash bind get_item ret]. now rewrite Hit1. }
  split; [exact Hc|]. split.
  { apply fetch_hit; [exact Hit1|]. now rewrite Hsame. }
  split.
  { cbv [Dataset__hash bind get_item ret].
    destruct (truthy q') eqn:Ht'; simpl.
    - rewrite lookup_insert_eq. simpl. now rewrite <- Hsame.
    - now rewrite Hit1. }
  destruct (truthy q'); repeat split; reflexivity.
Qed.

Definition query_ab : json := JDict [("a", JInt 1); ("b", JList [JStr "x"])].
Definition query_ba : json := JDict [("b", JList [JStr "x"]); ("a", JInt 1)].

Lemma query_ab_wf : json_wf query_ab /\ json_wf query_ba.
Proof.
  split; simpl; (split; [|tauto]);
    repeat constructor; simpl; intuition discriminate.
Qed.

Lemma fetch_twice_witness :
  let w := root_listed TestScraper in
  let w1 := snd (Dataset_fetch TestScraper (fun s => s) (fun _ => None) 1 query_ab w) in
  dumps query_ab = dumps query_ba /\
  exists h w2,
    Dataset__hash (fun s => s) 1 w1 = (Ok h, w1)
    /\ Dataset__data w1 !! h = Some 0
    /\ Dataset_fetch TestScraper (fun s => s) (fun _ => None) 1 query_ba w1 = (Ok 0, w2)
    /\ Dataset__hash (fun s => s) 1 w2 = (Ok h, w2)
    /\ trace w2 = trace w1
    /\ current_item w2 = current_item w1
    /\ _collection_path w2 = _collection_path w1
    /\ Dataset__data w2 = Dataset__data w1
    /\ resultsets w2 = resultsets w1
    /\ results w2 = results w1.
Proof.
  intros w w1.
  refine (fetch_twice_returns_cached_resultset TestScraper (fun s => s)
            (fun _ => None) 1 query_ab query_ba w w1 0
            (fun q0 => hooks_keep_none _ _ TestScraper_no_hooks)
            (proj1 query_ab_wf) (proj2 query_ab_wf) _ _).
  - vm_compute. reflexivity.
  - vm_compute. reflexivity.
Defined.

(** One dict serves every dataset: a result set cached by one dataset
    is what any other dataset gets for a query with the same canonical
    text. *)
Lemma cache_is_shared_between_datasets
    (S : Scraper) (md5 : string -> string) (dt : string -> option allowed)
    (d1 d2 : ref) (q q' : json) (w w1 : World) (rs : ref) (it1 it2 : Item) :
  (forall q0, hooks_keep (query_is d1 q0) S) ->
  Dataset_fetch S md5 dt d1 q w = (Ok rs, w1) ->
  items w1 !! d1 = Some it1 -> items w1 !! d2 = Some it2 ->
  json_wf (Dataset_query it1) ->
  json_wf (if truthy q' then q' else Dataset_query it2) ->
  py_eq (Dataset_query it1) (if truthy q' then q' else Dataset_query it2) = true ->
  Dataset_fetch S md5 dt d2 q' w1
  = (Ok rs, if truthy q' then with_items (insert d2 (set_query q' it2)) w1 else w1).
Proof.
  intros HK Hfetch H1 H2 Hwf1 Hwf2 Heq.
  destruct (fetch_caches S md5 dt d1 q w w1 rs HK Hfetch) as (it & Hit & Hc & _).
  assert (it = it1) by congruence. subst it.
  apply fetch_hit; [exact H2|].
  now rewrite <- (dumps_py_eq _ _ Hwf1 Hwf2 Heq).
Qed.

(** C2, as the code has it.  [_data] is bound once, in the body of class
    [Dataset], and no instance rebinds it.  With [Dataset_1] (object 1)
    and [Dataset_2] (object 2) of the test scraper and any hash
    function: after [Dataset_1.data], the call [Dataset_2.data] returns
    the very result set of [Dataset_1], whose owner is [Dataset_1] and
    whose one row is the row of [Dataset_1]; [_fetch_data] is never
    called on [Dataset_2] and the store does not change. *)
Theorem second_dataset_gets_first_datasets_resultset
    (md5 : string -> string) (dt : string -> option allowed) :
  let w := root_listed TestScraper in
  let w1 := snd (Dataset_data TestScraper md5 dt 1 w) in
  fst (Dataset_data TestScraper md5 dt 1 w) = Ok 0
  /\ Dataset_data TestScraper md5 dt 2 w1 = (Ok 0, w1)
  /\ (ResultSet_dataset <$> resultsets w1 !! 0) = Some (Some 1)
  /\ (ResultSet_list <$> resultsets w1 !! 0) = Some [0]
  /\ (Result_value <$> results w1 !! 0) = Some 127%Z
  /\ List.filter (fun e => match e with Call_fetch_data _ _ => true | _ => false end)
       (trace w1) = [Call_fetch_data 1 JNull].
Proof.
  intros w w1.
  assert (H1 : fst (Dataset_data TestScraper md5 dt 1 w) = Ok 0)
    by (vm_compute; reflexivity).
  assert (H0 : exists it0, items w !! 1 = Some it0 /\ Dataset_query it0 = JNull)
    by (eexists; split; [vm_compute; reflexivity|reflexivity]).
  assert (Hi1 : exists it1, items w1 !! 1 = Some it1 /\ Dataset_query it1 = JNull)
    by (eexists; split; [vm_compute; reflexivity|reflexivity]).
  assert (Hi2 : exists it2, items w1 !! 2 = Some it2 /\ Dataset_query it2 = JNull)
    by (eexists; split; [vm_compute; reflexivity|reflexivity]).
  assert (Hrest : (ResultSet_dataset <$> resultsets w1 !! 0) = Some (Some 1)
            /\ (ResultSet_list <$> resultsets w1 !! 0) = Some [0]
            /\ (Result_value <$> results w1 !! 0) = Some 127%Z
            /\ List.filter
                 (fun e => match e with Call_fetch_data _ _ => true | _ => false end)
                 (trace w1) = [Call_fetch_data 1 JNull])
    by (vm_compute; auto).
  assert (Hw1 : w1 = snd (Dataset_data TestScraper md5 dt 1 w)) by reflexivity.
  clearbody w1. clearbody w.
  destruct H0 as (it0 & H0 & Hq0), Hi1 as (it1 & Hi1 & Hq1),
    Hi2 as (it2 & Hi2 & Hq2).
  assert (Hd : forall d it x, items x !! d = Some it -> Dataset_query it = JNull ->
             Dataset_data TestScraper md5 dt d x
             = Dataset_fetch TestScraper md5 dt d JNull x).
  { intros d it x Hx Hq. cbv [Dataset_data bind get_item]. now rewrite Hx, Hq. }
  rewrite (Hd 1 it0 w H0 Hq0) in H1, Hw1.
  assert (Hf : Dataset_fetch TestScraper md5 dt 1 JNull w = (Ok 0, w1)).
  { destruct (Dataset_fetch TestScraper md5 dt 1 JNull w) as [r wx].
    cbn [fst snd] in H1, Hw1. now subst. }
  split; [now rewrite (Hd 1 it0 w H0 Hq0)|]. split; [|exact Hrest].
  rewrite (Hd 2 it2 w1 Hi2 Hq2).
  apply (cache_is_shared_between_datasets TestScraper md5 dt 1 2 JNull JNull
           w w1 0 it1 it2 (fun q0 => hooks_keep_none _ _ TestScraper_no_hooks)
           Hf Hi1 Hi2).
  - now rewrite Hq1.
  - cbn [truthy]. now rewrite Hq2.
  - cbn [truthy]. now rewrite Hq1, Hq2.
Qed.

(** ** Repositioning the cursor *)

Lemma existsb_eqb_In (d : nat) (l : list nat) :
  In d l -> existsb (Nat.eqb d) l = true.
Proof.
  intros H. apply existsb_exists. exists d. split; [exact H|apply Nat.eqb_refl].
Qed.

(** test_move_deep_automatically, without the warm cache of the tests
    that ran before it: from the root of the nested scraper, a dataset
    two levels down is not in view. *)
Example nested_dataset_not_in_view :
  let at_root := root_listed NestedScraper in
  let listed := snd (Collection_items NestedScraper 1 at_root) in
  id_in listed 3 = "Dataset_1"
  /\ fst (Dataset__move_here NestedScraper 3 listed) = Raise DatasetNotInView.
Proof. vm_compute. auto. Qed.

(** ** State shared by all results *)

Lemma results_are_frame L R Mp : frame (results_are L R Mp).
Proof. split; intros; assumption. Qed.

Section shared_results.
Variable S : Scraper.
Variable Datatype_allowed_values : string -> option allowed.

(** No callback writes to the results, to their mappings or to
    [Result.dimensionvalues]. *)
Hypothesis HK : forall L R Mp, hooks_keep (results_are L R Mp) S.

Lemma dimensionvalues_append_extends (val x : ref) (w w' : World) :
  Result_dimensionvalues_append val x w = (Ok tt, w') ->
  Result_dimensionvalues w' = Result_dimensionvalues w ++ [x]
  /\ results w' = results w /\ mappings w' = mappings w.
Proof.
  cbv [Result_dimensionvalues_append bind get_result modify].
  destruct (results w !! val); [|discriminate].
  intros [= <-]. auto.
Qed.

(** Each raw tag of a result attaches at least one entry to the list
    of the class. *)
Lemma append_tags_extends (dataset val : ref) (dims : list ref) tags :
  forall dim w w',
    append_tags S Datatype_allowed_values dataset val dims tags dim w = (Ok tt, w') ->
    exists added,
      Result_dimensionvalues w' = Result_dimensionvalues w ++ added
      /\ length tags <= length added
      /\ results w' = results w /\ mappings w' = mappings w.
Proof.
  induction tags as [|[k v] tags IH]; intros dim w w' H; cbn [append_tags] in H.
  - injection H as <-. exists []. rewrite app_nil_r. simpl. auto.
  - apply bind_Ok_inv in H as (dim' & w1 & Hv & H).
    apply bind_Ok_inv in H as ([] & w2 & Hx & H).
    destruct (IH _ _ _ H) as (added & Hadd & Hlen & Hres & Hmap).
    assert (H2 : exists pre, Result_dimensionvalues w2
                             = Result_dimensionvalues w ++ pre
                   /\ 1 <= length pre
                   /\ results w2 = results w /\ mappings w2 = mappings w).
    { assert (H1 : exists pre, Result_dimensionvalues w1
                               = Result_dimensionvalues w ++ pre
                     /\ results w1 = results w /\ mappings w1 = mappings w).
      { destruct v as [s|dv].
        - exists []. rewrite app_nil_r.
          eapply (preserves_Ok (results_are _ _ _)); [|exact Hv|repeat split].
          pose proof (results_are_frame (Result_dimensionvalues w) (results w)
                        (mappings w)) as F.
          pose proof (HK (Result_dimensionvalues w) (results w) (mappings w)) as K.
          pres; eauto using preserves_Dataset_dimensions,
            preserves_Dimensionslist_contains, preserves_Dimensionslist_getitem,
            preserves_DimensionValue_init, preserves_Dimension_call.
        - apply bind_Ok_inv in Hv as ([] & w0 & Ha & Hr).
          injection Hr as <- <-. exists [dv].
          now apply dimensionvalues_append_extends in Ha. }
      destruct H1 as (pre & Hpre & Hr1 & Hm1).
      destruct dim' as [x|]; [|discriminate].
      apply dimensionvalues_append_extends in Hx as (Hx & Hr2 & Hm2).
      exists (pre ++ [x]). rewrite Hx, Hpre, app_assoc, length_app. simpl.
      repeat split; [lia|congruence|congruence]. }
    destruct H2 as (pre & Hpre & Hlen1 & Hr2 & Hm2).
    exists (pre ++ added). rewrite Hadd, Hpre, app_assoc, length_app. simpl.
    repeat split; [lia|congruence|congruence].
Qed.

Lemma update_result_keeps (r : ref) (f : Result -> Result) (w w' : World) :
  (forall x, Result_raw_dimensions (f x) = Result_raw_dimensions x) ->
  update_result r f w = (Ok tt, w') ->
  Result_dimensionvalues w' = Result_dimensionvalues w
  /\ mappings w' = mappings w
  /\ resultsets w' = resultsets w
  /\ is_Some (results w' !! r)
  /\ forall r' x, results w !! r' = Some x ->
       exists x', results w' !! r' = Some x'
                  /\ Result_raw_dimensions x' = Result_raw_dimensions x.
Proof.
  intros Hf. cbv [update_result bind get_result modify].
  destruct (results w !! r) as [x0|] eqn:Hr; [|discriminate].
  intros [= <-]. simpl. repeat split.
  - rewrite lookup_insert_eq. eauto.
  - intros r' x Hx. destruct (decide (r = r')) as [->|Hne].
    + rewrite lookup_insert_eq. exists (f x0). split; [reflexivity|].
      rewrite Hf. congruence.
    + rewrite lookup_insert_ne by exact Hne. eauto.
Qed.
End shared_results.

Lemma default_dimensions_shared (v1 v2 : Z) (w0 : World) :
  exists a b w1 w2 x1 x2,
    Result___init__ v1 None w0 = (Ok a, w1)
    /\ Result___init__ v2 None w1 = (Ok b, w2)
    /\ a <> b
    /\ results w2 !! a = Some x1 /\ results w2 !! b = Some x2
    /\ Result_raw_dimensions x1 = Result_default_dimensions
    /\ Result_raw_dimensions x2 = Result_default_dimensions.
Proof.
  cbv [Result___init__ bind ret new_result].
  set (a := fresh (dom (results w0))).
  set (x1 := mkResult v1 Result_default_dimensions None None).
  set (x2 := mkResult v2 Result_default_dimensions None None).
  set (w1 := with_results (insert a x1) w0).
  set (b := fresh (dom (results w1))).
  assert (Hab : a <> b).
  { intros Heq. apply (is_fresh (dom (results w1))). fold b. rewrite <- Heq.
    apply elem_of_dom. simpl. rewrite lookup_insert_eq. eauto. }
  exists a, b, w1, (with_results (insert b x2) w1), x1, x2.
  repeat split; try assumption; simpl.
  - rewrite lookup_insert_ne by (intros Heq; now apply Hab).
    now rewrite lookup_insert_eq.
  - now rewrite lookup_insert_eq.
Qed.

(** C10.  [dimensionvalues] is bound once, in the body of class
    [Result], and [append] only ever appends to that one list: after
    [append] attached the dimension values of a result (at least one
    entry for each of its raw tags, when the result set has an owner),
    every result of the store, appended or not, shows them under
    [dimensionvalues], after those that were attached before.  Two
    results built without a [dimensions] argument are distinct objects
    whose [raw_dimensions] is one and the same mapping, the default
    value of the argument.  The callbacks that run when
    [append] has to move the cursor are asked not to write to the
    results themselves. *)
Theorem results_share_dimensionvalues
    (S : Scraper) (dt : string -> option allowed)
    (w w' : World) (rs r1 : ref) :
  (forall L R Mp, hooks_keep (results_are L R Mp) S) ->
  ResultSet_append S dt rs r1 w = (Ok tt, w') ->
  (exists added,
     Result_dimensionvalues w' = Result_dimensionvalues w ++ added
     /\ (forall ds x tags,
           (ResultSet_dataset <$> resultsets w !! rs) = Some (Some ds) ->
           results w !! r1 = Some x ->
           mappings w !! Result_raw_dimensions x = Some tags ->
           length tags <= length added)
     /\ Result_get_dimensionvalues r1 w'
        = (Ok (Result_dimensionvalues w ++ added), w')
     /\ forall r2, is_Some (results w' !! r2) ->
          Result_get_dimensionvalues r2 w'
          = (Ok (Result_dimensionvalues w ++ added), w'))
  /\ (forall v1 v2 w0, exists a b w1 w2 x1 x2,
        Result___init__ v1 None w0 = (Ok a, w1)
        /\ Result___init__ v2 None w1 = (Ok b, w2)
        /\ a <> b
        /\ results w2 !! a = Some x1 /\ results w2 !! b = Some x2
        /\ Result_raw_dimensions x1 = Result_default_dimensions
        /\ Result_raw_dimensions x2 = Result_default_dimensions).
Proof.
  intros HK H. split; [|apply default_dimensions_shared].
  unfold ResultSet_append in H.
  apply bind_Ok_inv in H as (rsv & w0 & Hrs & H).
  assert (Hw0 : w0 = w /\ resultsets w !! rs = Some rsv).
  { revert Hrs. unfold get_resultset.
    destruct (resultsets w !! rs); [|discriminate]. now intros [= <- <-]. }
  destruct Hw0 as (-> & Hrsv).
  apply bind_Ok_inv in H as ([] & wa & Ha & H).
  apply bind_Ok_inv in H as ([] & wb & Hb & H).
  apply bind_Ok_inv in H as ([] & wc & Hc & H).
  apply update_result_keeps in Ha as (Ha1 & Ha2 & _ & _ & Ha5); [|reflexivity].
  apply update_result_keeps in Hb as (Hb1 & Hb2 & _ & Hb4 & Hb5); [|reflexivity].
  assert (Hlast : Result_dimensionvalues w' = Result_dimensionvalues wc
                  /\ results w' = results wc).
  { revert H. cbv [update_resultset bind get_resultset modify].
    destruct (resultsets wc !! rs); [|discriminate]. now intros [= <-]. }
  destruct Hlast as (Hl1 & Hl2).
  assert (Hmid : exists added,
            Result_dimensionvalues wc = Result_dimensionvalues wb ++ added
            /\ results wc = results wb
            /\ forall ds x tags, ResultSet_dataset rsv = Some ds ->
                 results wb !! r1 = Some x ->
                 mappings wb !! Result_raw_dimensions x = Some tags ->
                 length tags <= length added).
  { destruct (ResultSet_dataset rsv) as [ds|].
    - apply bind_Ok_inv in Hc as (dd & w1 & Hd & Hc).
      apply bind_Ok_inv in Hc as (v & w2 & Hv & Hc).
      apply bind_Ok_inv in Hc as (tags & w3 & Ht & Hc).
      assert (F : results_are (Result_dimensionvalues wb) (results wb)
                    (mappings wb) w1).
      { eapply preserves_Ok; [|exact Hd|repeat split].
        apply preserves_Dataset_dimensions; [apply results_are_frame|apply HK]. }
      destruct F as (F1 & F2 & F3).
      assert (Hv' : w2 = w1 /\ results w1 !! r1 = Some v).
      { revert Hv. unfold get_result.
        destruct (results w1 !! r1); [|discriminate]. now intros [= <- <-]. }
      destruct Hv' as (-> & Hv').
      assert (Ht' : w3 = w1 /\ mappings w1 !! Result_raw_dimensions v = Some tags).
      { revert Ht. unfold get_mapping.
        destruct (mappings w1 !! Result_raw_dimensions v); [|discriminate].
        now intros [= <- <-]. }
      destruct Ht' as (-> & Ht').
      apply (append_tags_extends S dt HK) in Hc
        as (added & Hadd & Hlen & Hres & _).
      exists added. rewrite Hadd, Hres, F1, F2. repeat split.
      intros ds' x tags' _ Hx Htags.
      rewrite F2 in Hv'. rewrite F3 in Ht'.
      assert (x = v) by congruence. subst x.
      assert (tags' = tags) by congruence. now subst tags'.
    - injection Hc as <-. exists []. rewrite app_nil_r.
      repeat split. discriminate. }
  destruct Hmid as (added & Hadd & Hres & Hlen).
  exists added.
  assert (Hrdv : Result_dimensionvalues w' = Result_dimensionvalues w ++ added)
    by congruence.
  assert (Hget : forall r2, is_Some (results w' !! r2) ->
            Result_get_dimensionvalues r2 w'
            = (Ok (Result_dimensionvalues w ++ added), w')).
  { intros r2 [x Hx].
    cbv [Result_get_dimensionvalues bind get_result get_world ret].
    now rewrite Hx, Hrdv. }
  split; [exact Hrdv|]. split.
  - intros ds x tags Hds Hx Htags.
    rewrite Hrsv in Hds. simpl in Hds. injection Hds as Hds.
    destruct (Ha5 _ _ Hx) as (xa & Hxa & Hra).
    destruct (Hb5 _ _ Hxa) as (xb & Hxb & Hrb).
    apply (Hlen ds xb tags Hds Hxb).
    rewrite Hb2, Ha2, Hrb, Hra. exact Htags.
  - split; [|exact Hget]. apply Hget.
    rewrite Hl2, Hres. exact Hb4.
Qed.

Lemma results_share_witness :
  let w := snd (two_results 1 (root_listed TestScraper)) in
  let w' := snd (ResultSet_append TestScraper (fun _ => None) 0 0 w) in
  exists added,
    Result_dimensionvalues w' = Result_dimensionvalues w ++ added
    /\ (forall ds x tags,
          (ResultSet_dataset <$> resultsets w !! 0) = Some (Some ds) ->
          results w !! 0 = Some x ->
          mappings w !! Result_raw_dimensions x = Some tags ->
          length tags <= length added)
    /\ Result_get_dimensionvalues 0 w'
       = (Ok (Result_dimensionvalues w ++ added), w')
    /\ forall r2, is_Some (results w' !! r2) ->
         Result_get_dimensionvalues r2 w'
         = (Ok (Result_dimensionvalues w ++ added), w').
Proof.
  intros w w'.
  refine (proj1 (results_share_dimensionvalues TestScraper (fun _ => None)
                   w w' 0 0
                   (fun L R Mp => hooks_keep_none _ _ TestScraper_no_hooks) _)).
  vm_compute. reflexivity.
Defined.

(** The second of two results was never appended, and shows the
    dimension value attached to the first. *)
Example unappended_result_shows_dimensionvalues :
  let w := snd (two_results 1 (root_listed TestScraper)) in
  let w' := snd (ResultSet_append TestScraper (fun _ => None) 0 0 w) in
  fst (Result_get_dimensionvalues 1 w) = Ok []
  /\ fst (Result_get_dimensionvalues 1 w') = Ok [0]
  /\ (Result_resultset <$> results w' !! 1) = Some None
  /\ (DimensionValue_value <$> dimensionvalues w' !! 0) = Some "2017-08-10".
Proof. vm_compute. auto. Qed.

(** ** The path stack *)

Lemma get_item_eq (r : ref) (it : Item) (w : World) :
  items w !! r = Some it -> get_item r w = (Ok it, w).
Proof. intros H. unfold get_item. now rewrite H. Qed.

Lemma update_item_eq (r : ref) (f : Item -> Item) (it : Item) (w : World) :
  items w !! r = Some it ->
  update_item r f w = (Ok tt, with_items (insert r (f it)) w).
Proof. intros H. cbv [update_item bind get_item modify]. now rewrite H. Qed.

Lemma fresh_item_not_live (w : World) (r : ref) (it : Item) :
  items w !! r = Some it -> fresh (dom (items w)) <> r.
Proof.
  intros H Heq. apply (is_fresh (dom (items w))). rewrite Heq.
  apply elem_of_dom. eauto.
Qed.

Lemma extends_refl w : extends w w.
Proof. intros r it H. eauto. Qed.

Lemma extends_trans w1 w2 w3 : extends w1 w2 -> extends w2 w3 -> extends w1 w3.
Proof.
  intros H12 H23 r it H.
  destruct (H12 r it H) as (it2 & H2 & Ht & Hi & Hp).
  destruct (H23 r it2 H2) as (it3 & H3 & Ht' & Hi' & Hp').
  exists it3. repeat split; congruence.
Qed.

Lemma extends_parent_is w w' x p :
  extends w w' -> parent_is w x p -> parent_is w' x p.
Proof.
  intros He (it & Hit & Hp). destruct (He x it Hit) as (it' & H' & _ & _ & Hp').
  exists it'. split; [exact H'|congruence].
Qed.

Lemma extends_is_root w w' r :
  extends w w' -> is_root_collection w r -> is_root_collection w' r.
Proof.
  intros He (it & Hit & Ht & Hi & Hp).
  destruct (He r it Hit) as (it' & H' & Ht' & Hi' & Hp').
  exists it'. repeat split; congruence.
Qed.

Lemma extends_valid_path w w' :
  extends w w' -> _collection_path w' = _collection_path w ->
  current_item w' = current_item w -> valid_path w -> valid_path w'.
Proof.
  intros He Hp Hc ((r & rest & Hpath & Hroot) & Hchain & Hlast).
  unfold valid_path. rewrite Hp, Hc. repeat split.
  - exists r, rest. split; [exact Hpath|]. eapply extends_is_root; eauto.
  - intros i p c Hi Hsi. eapply extends_parent_is; eauto.
  - exact Hlast.
Qed.

Lemma Collection_items_unfold (S : Scraper) (self : ref) :
  Collection_items S self
  = (let* it := get_item self in
     match Item__items it with
     | Some l => ret l
     | None =>
         let* _ := update_item self (set__items (Some [])) in
         let* _ := log (Call_fetch_itemslist self) in
         let* w := get_world in
         let* _ := for_gen (_fetch_itemslist S w self) (adopt S self) in
         let* it' := get_item self in
         ret (default [] (Item__items it'))
     end).
Proof. reflexivity. Qed.

Lemma only_items_and_trace_refl w : only_items_and_trace w w.
Proof. unfold only_items_and_trace. now destruct w. Qed.

Lemma only_items_and_trace_trans w1 w2 w3 :
  only_items_and_trace w1 w2 -> only_items_and_trace w2 w3 ->
  only_items_and_trace w1 w3.
Proof.
  unfold only_items_and_trace. intros H12 H23. rewrite H23. rewrite H12 at 1.
  reflexivity.
Qed.

Lemma only_items_with_items f w : only_items_and_trace w (with_items f w).
Proof. unfold only_items_and_trace. now destruct w. Qed.

Lemma only_items_with_trace f w : only_items_and_trace w (with_trace f w).
Proof. unfold only_items_and_trace. now destruct w. Qed.

Lemma new_item_eq (X : Item) (w : World) :
  new_item X w
  = (Ok (fresh (dom (items w))), with_items (insert (fresh (dom (items w))) X) w).
Proof. reflexivity. Qed.

Lemma with_items_twice f g w :
  with_items f (with_items g w) = with_items (fun m => f (g m)) w.
Proof. reflexivity. Qed.

Lemma with_items_ext f g w :
  f (items w) = g (items w) -> with_items f w = with_items g w.
Proof. intros H. unfold with_items. now rewrite H. Qed.

(** Rewriting an attribute of the object created last. *)
Lemma update_new_item (i : ref) (f : Item -> Item) (X : Item) (w : World) :
  update_item i f (with_items (insert i X) w)
  = (Ok tt, with_items (insert i (f X)) w).
Proof.
  rewrite (update_item_eq i f X) by (cbn; apply lookup_insert_eq).
  f_equal. rewrite with_items_twice. apply with_items_ext.
  apply insert_insert_eq.
Qed.

(** One adopted item: a new object [i], child of [self], at the end of
    the child list of [self]; every other item stays as it was. *)
Lemma adopt_spec (S : Scraper) (self : ref) (spec : ItemSpec) (w : World)
    (its : Item) (l : list ref) :
  items w !! self = Some its -> Item__items its = Some l ->
  let i := fresh (dom (items w)) in
  exists w' X,
    adopt S self spec w = (Ok tt, w')
    /\ only_items_and_trace w w' /\ trace w' = trace w
    /\ items w' = <[self := set__items (Some (l ++ [i])) its]> (<[i := X]> (items w))
    /\ Item_parent_ X = Some self /\ Item__items X = None
    /\ Item_type X = spec_type spec /\ Item_id X = spec_id spec
    /\ Dataset_dialect X = adopted_dialect S spec
    /\ Item_label X = default (spec_id spec) (spec_label spec).
Proof.
  intros Hself Hl i.
  assert (Hne : i <> self) by (eapply fresh_item_not_live; eauto).
  set (X0 := mkItem (spec_type spec) (spec_id spec)
               (default (spec_id spec) (spec_label spec)) (spec_blob spec)
               None None None None JNull).
  set (X1 := match spec_dialect spec with
             | Some d => set_dialect (Some d) X0
             | None => X0
             end).
  set (X2 := set_parent_ (Some self) X1).
  set (X3 := if item_type_eqb (Item_type X2) TYPE_DATASET
                && match Dataset_dialect X2 with None => true | _ => false end
             then set_dialect (dialect S) X2 else X2).
  exists (with_items (insert self (set__items (Some (l ++ [i])) its))
            (with_items (insert i X3) w)), X3.
  assert (Hc : construct_item spec w = (Ok i, with_items (insert i X1) w)).
  { unfold construct_item, Item___init__. unfold bind at 1.
    rewrite new_item_eq. fold X0. fold i.
    cbv beta iota. subst X1. destruct (spec_dialect spec) as [d|].
    - unfold bind. now rewrite update_new_item.
    - reflexivity. }
  assert (Hd : (if item_type_eqb (Item_type X2) TYPE_DATASET
                   && match Dataset_dialect X2 with None => true | _ => false end
                then update_item i (set_dialect (dialect S)) else ret tt)
                 (with_items (insert i X2) w)
               = (Ok tt, with_items (insert i X3) w)).
  { subst X3.
    destruct (item_type_eqb (Item_type X2) TYPE_DATASET
              && match Dataset_dialect X2 with None => true | _ => false end).
    - apply update_new_item.
    - reflexivity. }
  assert (Hs : items (with_items (insert i X3) w) !! self = Some its)
    by (cbn; now rewrite lookup_insert_ne by exact Hne).
  split.
  { unfold adopt. unfold bind at 1. rewrite Hc. cbv beta iota.
    unfold bind at 1. rewrite update_new_item. fold X2. cbv beta iota.
    unfold bind at 1.
    rewrite (get_item_eq i X2) by (cbn; apply lookup_insert_eq).
    cbv beta iota. unfold bind at 1. rewrite Hd. cbv beta iota.
    unfold Itemslist_append, bind.
    rewrite (get_item_eq self its _ Hs), Hl.
    now rewrite (update_item_eq self _ its _ Hs). }
  split.
  { eapply only_items_and_trace_trans; apply only_items_with_items. }
  split; [reflexivity|]. split; [reflexivity|].
  subst X3 X2 X1 X0. unfold adopted_dialect.
  destruct (spec_dialect spec), (spec_type spec); cbn; auto 10.
Qed.

Lemma set__items_twice a b it : set__items a (set__items b it) = set__items a it.
Proof. reflexivity. Qed.

Lemma fresh_item_lookup (w : World) : items w !! fresh (dom (items w)) = None.
Proof. apply not_elem_of_dom. apply is_fresh. Qed.

(** The loop of [Collection.items] over what the collaborator yields:
    one new child for each yield, in order, appended to the child list;
    no other item changes. *)
Lemma adopt_all_spec (S : Scraper) (self : ref) (specs : list ItemSpec) :
  forall (w : World) (its : Item) (l : list ref),
    items w !! self = Some its -> Item__items its = Some l ->
    exists w' new,
      for_list specs (adopt S self) w = (Ok tt, w')
      /\ only_items_and_trace w w' /\ trace w' = trace w
      /\ items w' !! self = Some (set__items (Some (l ++ new)) its)
      /\ (forall r it, items w !! r = Some it -> r <> self ->
            items w' !! r = Some it)
      /\ Forall2 (fun x spec => child_of S w' self x spec /\ items w !! x = None)
           new specs
      /\ (forall r, is_Some (items w' !! r) ->
            is_Some (items w !! r) \/ In r new).
Proof.
  induction specs as [|spec specs IH]; intros w its l Hself Hl.
  - exists w, []. rewrite app_nil_r. repeat split.
    + apply only_items_and_trace_refl.
    + rewrite Hself. f_equal. destruct its. simpl in *. now subst.
    + auto.
    + constructor.
    + auto.
  - destruct (adopt_spec S self spec w its l Hself Hl)
      as (w1 & X & Hrun & Hframe & Htrace & Hitems & Hp & Hi & Ht & Hid & Hdl & Hlb).
    set (i := fresh (dom (items w))) in *.
    assert (Hne : i <> self) by (eapply fresh_item_not_live; eauto).
    assert (Hself1 : items w1 !! self = Some (set__items (Some (l ++ [i])) its))
      by (rewrite Hitems; apply lookup_insert_eq).
    assert (Hi1 : items w1 !! i = Some X).
    { rewrite Hitems, lookup_insert_ne by (intros E; now apply Hne).
      apply lookup_insert_eq. }
    assert (Hold : forall r it, items w !! r = Some it -> r <> self ->
                     items w1 !! r = Some it).
    { intros r it Hr Hrs. rewrite Hitems.
      rewrite lookup_insert_ne by (intros E; now apply Hrs).
      rewrite lookup_insert_ne; [exact Hr|].
      intros E. subst r. unfold i in Hr. now rewrite fresh_item_lookup in Hr. }
    destruct (IH w1 _ (l ++ [i]) Hself1 eq_refl)
      as (w' & new & Hrun' & Hframe' & Htrace' & Hself' & Hold' & Hnew' & Hlive').
    exists w', (i :: new). repeat split.
    + simpl. unfold bind. now rewrite Hrun.
    + eapply only_items_and_trace_trans; eassumption.
    + congruence.
    + rewrite Hself', set__items_twice, <- app_assoc. reflexivity.
    + intros r it Hr Hrs. apply Hold'; [now apply Hold|exact Hrs].
    + constructor.
      * split; [|apply fresh_item_lookup].
        exists X. rewrite (Hold' i X Hi1 Hne). auto 10.
      * eapply Forall2_impl; [exact Hnew'|].
        intros x sp [Hc Hx]. split; [exact Hc|].
        destruct (items w !! x) as [it|] eqn:Hwx; [|reflexivity].
        destruct (decide (x = self)) as [->|Hxs].
        -- congruence.
        -- rewrite (Hold x it Hwx Hxs) in Hx. discriminate.
    + intros r Hr. destruct (Hlive' r Hr) as [Hr1|Hr1]; [|right; now right].
      destruct (decide (r = i)) as [->|Hri]; [right; now left|].
      left. rewrite Hitems in Hr1.
      destruct (decide (r = self)) as [->|Hrs]; [eauto|].
      rewrite lookup_insert_ne in Hr1 by (intros E; now apply Hrs).
      now rewrite lookup_insert_ne in Hr1 by (intros E; now apply Hri).
Qed.

(** A child list that is there is returned as it is. *)
Lemma Collection_items_memo (S : Scraper) (self : ref) (its : Item)
    (l : list ref) (w : World) :
  items w !! self = Some its -> Item__items its = Some l ->
  Collection_items S self w = (Ok l, w).
Proof.
  intros Hs Hl. rewrite Collection_items_unfold. unfold bind.
  now rewrite (get_item_eq self its w Hs), Hl.
Qed.

(** The first access: the collaborator is called once, on the store in
    which the child list is already bound to an empty list; what it
    yields is adopted in order; the exception that ends it, if any,
    comes out after the children yielded before it were adopted. *)
Lemma Collection_items_first (S : Scraper) (self : ref) (its : Item) (w : World) :
  items w !! self = Some its -> Item__items its = None ->
  let called := with_trace (fun t => t ++ [Call_fetch_itemslist self])
                  (with_items (insert self (set__items (Some []) its)) w) in
  let g := _fetch_itemslist S called self in
  exists w' new,
    Collection_items S self w
    = (match snd g with Some e => Raise e | None => Ok new end, w')
    /\ only_items_and_trace w w'
    /\ trace w' = trace w ++ [Call_fetch_itemslist self]
    /\ items w' !! self = Some (set__items (Some new) its)
    /\ (forall r it, items w !! r = Some it -> r <> self ->
          items w' !! r = Some it)
    /\ Forall2 (fun x spec => child_of S w' self x spec /\ items w !! x = None)
         new (fst g)
    /\ (forall r, is_Some (items w' !! r) -> is_Some (items w !! r) \/ In r new).
Proof.
  intros Hs Hn called g.
  assert (Hc : items called !! self = Some (set__items (Some []) its))
    by (cbn; apply lookup_insert_eq).
  destruct (adopt_all_spec S self (fst g) called _ [] Hc eq_refl)
    as (w' & new & Hrun & Hframe & Htrace & Hself & Hold & Hnew & Hlive).
  rewrite set__items_twice in Hself. simpl in Hself.
  exists w', new.
  assert (Hold0 : forall r it, items w !! r = Some it -> r <> self ->
                    items called !! r = Some it).
  { intros r it Hr Hrs. cbn. now rewrite lookup_insert_ne by (intros E; now apply Hrs). }
  split.
  { rewrite Collection_items_unfold. unfold bind at 1.
    rewrite (get_item_eq self its w Hs), Hn. unfold bind at 1.
    rewrite (update_item_eq self _ its w Hs).
    cbv [bind log modify get_world]. fold called. fold g.
    unfold for_gen, bind. rewrite Hrun.
    destruct (snd g) as [e|]; [reflexivity|].
    unfold ret. now rewrite (get_item_eq self _ w' Hself). }
  split.
  { eapply only_items_and_trace_trans; [|exact Hframe].
    eapply only_items_and_trace_trans;
      [apply only_items_with_items|apply only_items_with_trace]. }
  split; [exact Htrace|]. split; [exact Hself|]. split.
  { intros r it Hr Hrs. apply Hold; [now apply Hold0|exact Hrs]. }
  split.
  { eapply Forall2_impl; [exact Hnew|]. intros x sp [Hch Hx].
    split; [exact Hch|]. destruct (items w !! x) as [it|] eqn:Hwx; [|reflexivity].
    destruct (decide (x = self)) as [->|Hxs]; [congruence|].
    rewrite (Hold0 x it Hwx Hxs) in Hx. discriminate. }
  intros r Hr. destruct (Hlive r Hr) as [Hr1|Hr1]; [left|now right].
  destruct (decide (r = self)) as [->|Hrs]; [eauto|].
  cbn in Hr1. now rewrite lookup_insert_ne in Hr1 by (intros E; now apply Hrs).
Qed.

Lemma Forall2_In_left {A B} (P : A -> B -> Prop) (l : list A) (l' : list B) x :
  Forall2 P l l' -> In x l -> exists y, In y l' /\ P x y.
Proof.
  induction 1 as [|a b l l' Hab _ IH]; intros Hin; [destruct Hin|].
  destruct Hin as [<-|Hin].
  - exists b. split; [now left|exact Hab].
  - destruct (IH Hin) as (y & Hy & Hp). exists y. split; [now right|exact Hp].
Qed.

(** Whatever its outcome, reading the children of a collection keeps
    every live item's class, id and parent, keeps child lists linked to
    their parents, writes to items and trace only, and leaves the list
    it returns bound to the collection. *)
Lemma Collection_items_keeps (S : Scraper) (c : ref) (w : World) :
  let w' := snd (Collection_items S c w) in
  only_items_and_trace w w'
  /\ extends w w'
  /\ (children_linked w -> children_linked w')
  /\ (forall l, fst (Collection_items S c w) = Ok l ->
        exists itc, items w' !! c = Some itc /\ Item__items itc = Some l).
Proof.
  destruct (items w !! c) as [its|] eqn:Hc.
  2:{ rewrite Collection_items_unfold. cbv [bind get_item]. rewrite Hc. simpl.
      repeat split; auto using only_items_and_trace_refl, extends_refl.
      discriminate. }
  destruct (Item__items its) as [l|] eqn:Hl.
  { rewrite (Collection_items_memo S c its l w Hc Hl). simpl.
    repeat split; auto using only_items_and_trace_refl, extends_refl.
    intros l0 [= <-]. eauto. }
  destruct (Collection_items_first S c its w Hc Hl)
    as (w' & new & Hrun & Hframe & _ & Hself & Hold & Hnew & Hlive).
  rewrite Hrun. cbn [fst snd].
  assert (Hext : extends w w').
  { intros r it Hr. destruct (decide (r = c)) as [->|Hrc].
    - exists (set__items (Some new) its). rewrite Hc in Hr.
      injection Hr as <-. auto.
    - exists it. rewrite (Hold r it Hr Hrc). auto. }
  split; [exact Hframe|]. split; [exact Hext|]. split.
  - intros HCL c' it' l' x Hc' Hl' Hx.
    destruct (decide (c' = c)) as [->|Hne].
    + rewrite Hself in Hc'. injection Hc' as <-. simpl in Hl'.
      injection Hl' as <-.
      destruct (Forall2_In_left _ _ _ x Hnew Hx) as (spec & _ & (X & HX & _ & _ & Hp & _) & _).
      exists X. auto.
    + destruct (Hlive c' (ex_intro _ it' Hc')) as [[it0 H0]|Hin].
      * rewrite (Hold c' it0 H0 Hne) in Hc'. injection Hc' as <-.
        eapply extends_parent_is; [exact Hext|]. eapply HCL; eauto.
      * destruct (Forall2_In_left _ _ _ c' Hnew Hin)
          as (spec & _ & (X & HX & _ & _ & _ & Hi & _) & _).
        rewrite HX in Hc'. injection Hc' as <-. congruence.
  - intros l0 Hl0. exists (set__items (Some new) its). split; [exact Hself|].
    destruct (snd (_fetch_itemslist S _ c)); [discriminate|].
    now injection Hl0 as <-.
Qed.

(** ** Lookups in an [Itemslist] *)

Lemma filter_next_readonly (f : ref -> M bool) (l : list ref) (w : World) :
  (forall x, snd (f x w) = w) ->
  snd (filter_next f l w) = w
  /\ forall x, fst (filter_next f l w) = Ok x -> In x l.
Proof.
  intros Hf. induction l as [|y l [IH1 IH2]]; simpl.
  - split; [reflexivity|discriminate].
  - unfold bind. specialize (Hf y). destruct (f y w) as [[b|e] w1]; simpl in Hf; subst w1.
    + destruct b; simpl.
      * split; [reflexivity|]. intros x [= <-]. now left.
      * split; [exact IH1|]. intros x Hx. right. now apply IH2.
    + simpl. split; [reflexivity|discriminate].
Qed.

Lemma id_of_item_readonly (s : string) (x : ref) (w : World) :
  snd ((let* i := id_of_item x in ret (String.eqb i s)) w) = w.
Proof.
  cbv [bind id_of_item get_item ret]. now destruct (items w !! x).
Qed.

Lemma list_getitem_readonly (l : list ref) (i : Z) (w : World) :
  snd (list___getitem__ l i w) = w
  /\ forall x, fst (list___getitem__ l i w) = Ok x -> In x l.
Proof.
  unfold list___getitem__.
  destruct ((_ <? 0)%Z || (_ <=? _)%Z); [split; [reflexivity|discriminate]|].
  destruct (l !! _) as [y|] eqn:Hy; simpl; (split; [reflexivity|]);
    [|discriminate].
  intros x [= <-]. apply list_elem_of_In. eapply list_elem_of_lookup_2. exact Hy.
Qed.

(** A lookup reads the store only, and what it returns is an element of
    the list. *)
Lemma Itemslist_getitem_member (l : list ref) (k : key) (w : World) :
  snd (Itemslist___getitem__ l k w) = w
  /\ forall x, fst (Itemslist___getitem__ l k w) = Ok x -> In x l.
Proof.
  destruct k as [s|r|i]; simpl.
  - destruct (filter_next_readonly
                (fun x => let* i := id_of_item x in ret (String.eqb i s)) l w
                (fun x => id_of_item_readonly s x w)) as [H1 H2].
    unfold try_except.
    destruct (filter_next _ l w) as [[x|e] w1]; simpl in *; subst w1.
    + split; [reflexivity|]. intros y [= <-]. now apply H2.
    + match goal with |- context [if ?c then _ else _] => destruct c end;
        simpl; (split; [reflexivity|discriminate]).
  - destruct (filter_next_readonly (fun x => ret (Nat.eqb x r)) l w
                (fun x => eq_refl)) as [H1 H2].
    unfold try_except.
    destruct (filter_next _ l w) as [[x|e] w1]; simpl in *; subst w1.
    + split; [reflexivity|]. intros y [= <-]. now apply H2.
    + match goal with |- context [if ?c then _ else _] => destruct c end;
        simpl; (split; [reflexivity|discriminate]).
  - apply list_getitem_readonly.
Qed.

Lemma only_items_and_trace_fields (w w' : World) :
  only_items_and_trace w w' ->
  current_item w' = current_item w
  /\ _collection_path w' = _collection_path w
  /\ dimensions w' = dimensions w
  /\ dimensionvalues w' = dimensionvalues w
  /\ results w' = results w
  /\ resultsets w' = resultsets w
  /\ mappings w' = mappings w
  /\ Dataset__data w' = Dataset__data w
  /\ Result_dimensionvalues w' = Result_dimensionvalues w.
Proof. intros H. rewrite H. repeat split. Qed.

Lemma Item_items_eq (S : Scraper) (c : ref) (w : World) :
  Item_items S c w
  = match items w !! c with
    | None => (Raise SystemError, w)
    | Some itc =>
        match Item_type itc with
        | TYPE_DATASET => (Ok None, w)
        | TYPE_COLLECTION =>
            match Collection_items S c w with
            | (Ok l, w1) => (Ok (Some l), w1)
            | (Raise e, w1) => (Raise e, w1)
            end
        end
    end.
Proof.
  unfold Item_items. unfold bind at 1. unfold get_item.
  destruct (items w !! c) as [itc|]; [|reflexivity].
  destruct (Item_type itc); [reflexivity|].
  unfold bind. now destruct (Collection_items S c w) as [[l|e] w1].
Qed.

(** [item.items], whatever the class of the item. *)
Lemma Item_items_keeps (S : Scraper) (c : ref) (w : World) :
  let w' := snd (Item_items S c w) in
  only_items_and_trace w w'
  /\ extends w w'
  /\ (children_linked w -> children_linked w')
  /\ (forall l, fst (Item_items S c w) = Ok (Some l) ->
        exists itc, items w' !! c = Some itc /\ Item__items itc = Some l)
  /\ (fst (Item_items S c w) = Ok None ->
        w' = w /\ exists itc, items w !! c = Some itc
                              /\ Item_type itc = TYPE_DATASET).
Proof.
  rewrite Item_items_eq.
  destruct (items w !! c) as [itc|] eqn:Hc.
  2:{ cbn [fst snd].
      split; [apply only_items_and_trace_refl|].
      split; [apply extends_refl|]. split; [auto|].
      split; [discriminate|discriminate]. }
  destruct (Item_type itc) eqn:Ht.
  - cbn [fst snd].
    split; [apply only_items_and_trace_refl|].
    split; [apply extends_refl|]. split; [auto|].
    split; [discriminate|]. intros _. eauto.
  - destruct (Collection_items_keeps S c w) as (H1 & H2 & H3 & H4).
    destruct (Collection_items S c w) as [[l|e] w1]; cbn [fst snd] in *.
    + split; [exact H1|]. split; [exact H2|]. split; [exact H3|].
      split; [|discriminate]. intros l0 [= <-]. now apply H4.
    + split; [exact H1|]. split; [exact H2|]. split; [exact H3|].
      split; discriminate.
Qed.

Lemma items_getitem_member (its : option (list ref)) (k : key) (w : World) :
  snd (items_getitem its k w) = w
  /\ forall x, fst (items_getitem its k w) = Ok x ->
       exists l, its = Some l /\ In x l.
Proof.
  destruct its as [l|]; simpl.
  - destruct (Itemslist_getitem_member l k w) as [H1 H2].
    split; [exact H1|]. intros x Hx. exists l. auto.
  - split; [reflexivity|discriminate].
Qed.

(** [move_to], outcome by outcome: a lookup that returned has moved
    the cursor when the callbacks of [select] run, and their outcome is
    the outcome of the call. *)
Lemma move_to_eq (S : Scraper) (k : key) (w : World) :
  BaseScraper_move_to S k w
  = match Item_items S (current_item w) w with
    | (Ok its, w1) =>
        match fst (items_getitem its k w1) with
        | Ok x => run_hooks S "select" (arrived x w1)
        | Raise e =>
            (if move_to_catches e then Raise NoSuchItem else Raise e, w1)
        end
    | (Raise e, w1) =>
        (if move_to_catches e then Raise NoSuchItem else Raise e, w1)
    end.
Proof.
  unfold BaseScraper_move_to, BaseScraper_items, move_to_catches.
  unfold bind at 1. unfold try_except. unfold bind at 1. unfold bind at 1.
  unfold get_world.
  destruct (Item_items S (current_item w) w) as [[its|e] w1].
  - unfold bind at 1.
    destruct (items_getitem_member its k w1) as [Hw _].
    destruct (items_getitem its k w1) as [[x|e] w2]; cbn [fst snd] in *; subst w2.
    + reflexivity.
    + now destruct (existsb (isinstance e) _).
  - now destruct (existsb (isinstance e) _).
Qed.

Lemma navigation_invariant_fields (root : ref) (w w' : World) :
  items w' = items w -> _collection_path w' = _collection_path w ->
  current_item w' = current_item w ->
  navigation_invariant root w -> navigation_invariant root w'.
Proof.
  intros Hi Hp Hc.
  unfold navigation_invariant, valid_path, children_linked, parent_is,
    is_root_collection.
  now rewrite Hi, Hp, Hc.
Qed.

Lemma navigation_invariant_trace (root : ref) (f : list event -> list event)
    (w : World) :
  navigation_invariant root w -> navigation_invariant root (with_trace f w).
Proof. now apply navigation_invariant_fields. Qed.

Lemma cursor_is_trace (c : ref) (p : list ref) (f : list event -> list event)
    (w : World) :
  cursor_is c p w -> cursor_is c p (with_trace f w).
Proof. intros H. exact H. Qed.

Lemma navigation_invariant_extends (root : ref) (w w' : World) :
  only_items_and_trace w w' -> extends w w' ->
  (children_linked w -> children_linked w') ->
  navigation_invariant root w -> navigation_invariant root w'.
Proof.
  intros Hf He Hcl (Hv & Hh & Hc).
  destruct (only_items_and_trace_fields w w' Hf) as (Hcur & Hpath & _).
  split; [|split].
  - now apply (extends_valid_path w w').
  - now rewrite Hpath.
  - auto.
Qed.

(** A lookup that returned pushes a child of the current item. *)
Lemma navigation_invariant_push (root x : ref) (w : World) (itc : Item)
    (l : list ref) :
  navigation_invariant root w ->
  items w !! current_item w = Some itc -> Item__items itc = Some l -> In x l ->
  navigation_invariant root (arrived x w).
Proof.
  intros (((r & rest & Hpath & Hroot) & Hchain & Hlast) & Hhead & Hcl) Hc Hl Hx.
  unfold navigation_invariant, valid_path, arrived. cbn.
  split; [split; [|split]|split].
  - exists r, (rest ++ [x]). rewrite Hpath. split; [reflexivity|exact Hroot].
  - intros i p c Hi Hsi.
    destruct (decide (S i < length (_collection_path w))) as [Hlt|Hge].
    + rewrite lookup_app_l in Hi by lia. rewrite lookup_app_l in Hsi by lia.
      exact (Hchain i p c Hi Hsi).
    + assert (Hlen : S i = length (_collection_path w)).
      { apply lookup_lt_Some in Hsi. rewrite length_app in Hsi. simpl in Hsi. lia. }
      rewrite lookup_app_l in Hi by lia.
      rewrite lookup_app_r in Hsi by lia.
      replace (S i - length (_collection_path w)) with 0 in Hsi by lia.
      injection Hsi as <-.
      rewrite last_lookup in Hlast. rewrite <- Hlen in Hlast. simpl in Hlast.
      rewrite Hi in Hlast. injection Hlast as ->.
      exact (Hcl _ _ _ _ Hc Hl Hx).
  - apply last_snoc.
  - rewrite Hpath in Hhead |- *. exact Hhead.
  - exact Hcl.
Qed.

Lemma move_to_keeps_invariant (S : Scraper) (root : ref) (k : key) (w : World) :
  hooks_keep (navigation_invariant root) S ->
  navigation_invariant root w ->
  navigation_invariant root (snd (BaseScraper_move_to S k w)).
Proof.
  intros HK Hinv. rewrite move_to_eq.
  destruct (Item_items_keeps S (current_item w) w) as (Hf & He & Hcl & Hsome & _).
  destruct (Item_items S (current_item w) w) as [[its|e] w1]; cbn [fst snd] in *.
  2:{ eapply navigation_invariant_extends; eauto. }
  assert (Hinv1 : navigation_invariant root w1)
    by (eapply navigation_invariant_extends; eauto).
  destruct (items_getitem_member its k w1) as [_ Hmem].
  destruct (fst (items_getitem its k w1)) as [x|e]; cbn [snd]; [|exact Hinv1].
  destruct (Hmem x eq_refl) as (l & -> & Hx).
  destruct (Hsome l eq_refl) as (itc & Hc & Hl).
  destruct (only_items_and_trace_fields w w1 Hf) as (Hcur & _).
  rewrite <- Hcur in Hc.
  apply (run_hooks_keep _ S "select" (navigation_invariant_trace root) HK).
  eapply navigation_invariant_push; eauto.
Qed.

Lemma two_last {A} (l : list A) :
  1 < length l -> exists p c x, l = (p ++ [c]) ++ [x].
Proof.
  intros Hlen. destruct l as [|x q _] using rev_ind; [simpl in Hlen; lia|].
  destruct q as [|c p _] using rev_ind.
  - simpl in Hlen. lia.
  - now exists p, c, x.
Qed.

(** [move_up] moves the cursor, then runs its callbacks. *)
Lemma move_up_eq (S : Scraper) (w : World) :
  BaseScraper_move_up S w = up_hooks S (gone_up w).
Proof.
  unfold BaseScraper_move_up, up_hooks, gone_up.
  unfold bind at 1. unfold get_world at 1. cbv beta iota.
  destruct (1 <? length (_collection_path w))%nat eqn:Hlen.
  - apply Nat.ltb_lt in Hlen.
    destruct (two_last _ Hlen) as (p & c & x & Hp).
    unfold bind at 1. unfold bind at 1. unfold modify at 1. cbv beta iota.
    unfold bind at 1. unfold get_world at 1. cbv beta iota.
    cbn [_collection_path with_collection_path].
    rewrite Hp, removelast_last, last_snoc. reflexivity.
  - reflexivity.
Qed.

(** Below the root the stack loses its top and the new top is current;
    at the root, or on an empty stack, nothing moves. *)
Lemma gone_up_fields (w : World) :
  gone_up w = with_current_item (current_item (gone_up w))
                (with_collection_path (fun _ => _collection_path (gone_up w)) w)
  /\ _collection_path (gone_up w) = popped (_collection_path w)
  /\ ((length (_collection_path w) <= 1 /\ gone_up w = w)
      \/ (exists p c x, _collection_path w = (p ++ [c]) ++ [x]
            /\ _collection_path (gone_up w) = p ++ [c]
            /\ current_item (gone_up w) = c)).
Proof.
  destruct w as [its dims dvs res rss maps data rdv cur path tr].
  unfold gone_up, popped. cbn [_collection_path].
  destruct (1 <? length path)%nat eqn:Hlen.
  - apply Nat.ltb_lt in Hlen.
    destruct (two_last path Hlen) as (p & c & x & ->).
    rewrite !removelast_last, last_snoc.
    cbv [with_current_item with_collection_path]. cbn.
    rewrite ?removelast_last.
    split; [reflexivity|]. split; [reflexivity|].
    right. exists p, c, x. auto.
  - apply Nat.ltb_ge in Hlen. cbn.
    split; [reflexivity|]. split; [reflexivity|]. left. auto.
Qed.

Section up_hooks_rules.
Variable S : Scraper.

Lemma up_hooks_keep (P : World -> Prop) :
  (forall f w, P w -> P (with_trace f w)) -> hooks_keep P S ->
  preserves P (up_hooks S).
Proof.
  intros Ht HK. unfold up_hooks.
  apply preserves_bind; [now apply run_hooks_keep|intros _].
  apply preserves_bind; [apply preserves_get_world|intros w'].
  destruct (_ =? 1)%nat; [now apply run_hooks_keep|apply preserves_ret].
Qed.

Lemma up_hooks_raised (w : World) (e : exn) :
  fst (up_hooks S w) = Raise e -> raised_by_hook S ["up"; "top"] e.
Proof.
  unfold up_hooks. unfold bind at 1.
  destruct (run_hooks S "up" w) as [[[]|e0] w1] eqn:Hup.
  - unfold bind at 1. unfold get_world at 1. cbv beta iota.
    destruct (_ =? 1)%nat; [|discriminate].
    intros H. apply run_hooks_raised in H.
    eapply raised_by_hook_incl; [|exact H]. intros n [<-|[]]. right. now left.
  - cbn. intros [= ->].
    assert (H : fst (run_hooks S "up" w) = Raise e) by now rewrite Hup.
    apply run_hooks_raised in H.
    eapply raised_by_hook_incl; [|exact H]. intros n [<-|[]]. now left.
Qed.

Lemma up_hooks_return (w : World) :
  hooks_return S -> fst (up_hooks S w) = Ok tt.
Proof.
  intros H. unfold up_hooks. unfold bind at 1.
  pose proof (run_hooks_return S "up" w H) as Hup.
  destruct (run_hooks S "up" w) as [[[]|e0] w1]; [|discriminate].
  unfold bind at 1. unfold get_world at 1. cbv beta iota.
  destruct (_ =? 1)%nat; [now apply run_hooks_return|reflexivity].
Qed.

(** Callbacks that only observe and return leave a store that differs
    in its trace. *)
Lemma for_list_quiet (l : list (M unit)) (w : World) :
  (forall f w0, In f l ->
     fst (f w0) = Ok tt
     /\ snd (f w0) = with_trace (fun _ => trace (snd (f w0))) w0) ->
  exists t, for_list l (fun f => f) w = (Ok tt, with_trace (fun _ => t) w).
Proof.
  revert w. induction l as [|f l IH]; intros w H; cbn.
  - exists (trace w). now destruct w.
  - unfold bind. destruct (H f w (or_introl eq_refl)) as [Hr Hs].
    destruct (f w) as [[[]|e0] w1]; cbn in Hr, Hs; [|discriminate].
    destruct (IH w1) as (t & Ht).
    { intros g w0 Hg. apply H. now right. }
    exists t. rewrite Ht, Hs. now destruct w.
Qed.

Lemma run_hooks_quiet (name : string) (w : World) :
  hooks_observe S -> hooks_return S ->
  exists t, run_hooks S name w = (Ok tt, with_trace (fun _ => t) w).
Proof.
  intros Ho Hr. cbv [run_hooks bind log modify].
  destruct (for_list_quiet (_hooks S name)
              (with_trace (fun t => t ++ [Hook name]) w)) as (t & Ht).
  { intros f w0 Hf. split; [exact (Hr name f w0 Hf)|exact (Ho name f w0 Hf)]. }
  exists t. rewrite Ht. now destruct w.
Qed.

Lemma up_hooks_quiet (w : World) :
  hooks_observe S -> hooks_return S ->
  exists t, up_hooks S w = (Ok tt, with_trace (fun _ => t) w).
Proof.
  intros Ho Hr. unfold up_hooks. unfold bind at 1.
  destruct (run_hooks_quiet "up" w Ho Hr) as (t & ->).
  unfold bind at 1. unfold get_world at 1. cbv beta iota.
  destruct (_ =? 1)%nat.
  - destruct (run_hooks_quiet "top" (with_trace (fun _ => t) w) Ho Hr)
      as (t' & ->).
    exists t'. now destruct w.
  - now exists t.
Qed.
End up_hooks_rules.

Lemma move_up_keeps_invariant (S : Scraper) (root : ref) (w : World) :
  hooks_keep (navigation_invariant root) S ->
  navigation_invariant root w ->
  navigation_invariant root (snd (BaseScraper_move_up S w)).
Proof.
  intros HK Hinv. rewrite move_up_eq.
  apply (up_hooks_keep S _ (navigation_invariant_trace root) HK).
  destruct (gone_up_fields w) as (Hw & _ & Hcases).
  set (w' := gone_up w) in *.
  assert (Hitems : items w' = items w) by (rewrite Hw; reflexivity).
  destruct Hcases as [(_ & ->)|(p & c & x & Hp & Hp' & Hc')]; [exact Hinv|].
  destruct Hinv as (((r & rest & Hpath & Hroot) & Hchain & Hlast) & Hhead & Hcl).
  unfold navigation_invariant, valid_path, children_linked, parent_is,
    is_root_collection in *.
  rewrite Hitems, Hp', Hc'. rewrite Hp in Hpath, Hchain, Hhead.
  split; [split; [|split]|split].
  + destruct p as [|a p]; simpl in *.
    * injection Hpath as <- _. exists c, []. auto.
    * injection Hpath as <- _. exists a, (p ++ [c]). auto.
  + intros i a b Hi Hsi. apply (Hchain i a b).
    * apply lookup_app_l_Some. exact Hi.
    * apply lookup_app_l_Some. exact Hsi.
  + apply last_snoc.
  + destruct p; simpl in *; exact Hhead.
  + exact Hcl.
Qed.

(** [move_to_top] moves the cursor to the first entry of the stack,
    then runs the callbacks of [top]. *)
Lemma move_to_top_eq (S : Scraper) (w : World) :
  BaseScraper_move_to_top S w
  = match _collection_path w with
    | [] => (Raise IndexError, w)
    | r :: _ => run_hooks S "top" (at_top r w)
    end.
Proof.
  unfold BaseScraper_move_to_top. unfold bind at 1. unfold get_world at 1.
  cbv beta iota.
  destruct (_collection_path w) as [|r rest]; [reflexivity|].
  cbv [bind modify at_top]. now destruct w.
Qed.

Lemma move_to_top_keeps_invariant (S : Scraper) (root : ref) (w : World) :
  hooks_keep (navigation_invariant root) S ->
  navigation_invariant root w ->
  navigation_invariant root (snd (BaseScraper_move_to_top S w)).
Proof.
  intros HK Hinv. rewrite move_to_top_eq.
  destruct Hinv as (((r & rest & Hpath & Hroot) & Hchain & Hlast) & Hhead & Hcl).
  rewrite Hpath.
  apply (run_hooks_keep _ S "top" (navigation_invariant_trace root) HK).
  unfold navigation_invariant, valid_path, at_top. cbn.
  split; [split; [|split]|split].
  - exists r, []. auto.
  - intros i p c Hi Hsi. destruct i; discriminate.
  - reflexivity.
  - now rewrite Hpath in Hhead.
  - exact Hcl.
Qed.

(** A new scraper is the root, created and made current, and then what
    the callbacks of [init] did. *)
Lemma fresh_scraper_eq (S : Scraper) :
  fresh_scraper S = snd (run_hooks S "init" root_created).
Proof. reflexivity. Qed.

Lemma root_created_invariant :
  navigation_invariant (current_item root_created) root_created.
Proof.
  assert (Hitems : items root_created
                   = {[ 0 := mkItem TYPE_COLLECTION ROOT ROOT None None None
                                None None JNull ]})
    by (vm_compute; reflexivity).
  unfold navigation_invariant, valid_path, children_linked, parent_is,
    is_root_collection.
  rewrite Hitems.
  change (_collection_path root_created) with [0].
  change (current_item root_created) with 0.
  split; [split; [|split]|split].
  - exists 0, []. split; [reflexivity|]. eexists. rewrite lookup_singleton_eq. auto.
  - intros i p c Hi Hsi. destruct i; discriminate.
  - reflexivity.
  - reflexivity.
  - intros c it l x Hc Hl Hx. apply lookup_singleton_Some in Hc as [<- <-].
    discriminate.
Qed.

Lemma fresh_scraper_invariant (S : Scraper) :
  hooks_keep (navigation_invariant (current_item root_created)) S ->
  navigation_invariant (current_item root_created) (fresh_scraper S).
Proof.
  intros HK. rewrite fresh_scraper_eq.
  apply (run_hooks_keep _ S "init" (navigation_invariant_trace _) HK).
  exact root_created_invariant.
Qed.

Lemma run_op_keeps_invariant (S : Scraper) (root : ref) (op : nav_op)
    (w : World) :
  hooks_keep (navigation_invariant root) S ->
  navigation_invariant root w ->
  navigation_invariant root (snd (run_op S op w)).
Proof.
  intros HK Hinv. destruct op; simpl.
  - now apply move_to_keeps_invariant.
  - now apply move_up_keeps_invariant.
  - now apply move_to_top_keeps_invariant.
Qed.

Lemma run_ops_keep_invariant (S : Scraper) (root : ref) (ops : list nav_op) :
  hooks_keep (navigation_invariant root) S ->
  forall w, navigation_invariant root w ->
            navigation_invariant root (run_ops S ops w).
Proof.
  intros HK. induction ops as [|op ops IH]; intros w Hinv; simpl; [exact Hinv|].
  apply IH. now apply run_op_keeps_invariant.
Qed.




(** X2: [move_to_top] after any navigation on a new scraper: the cursor
    is at the root and the stack holds the root alone when the
    callbacks of [top] run, and the outcome of the call is theirs.  It
    raises only what one of them raises, and with none registered it
    returns and has written nothing but cursor, stack and trace. *)
Theorem move_to_top_returns_to_root (S : Scraper) (ops : list nav_op) :
  hooks_keep (navigation_invariant (current_item root_created)) S ->
  let w := run_ops S ops (fresh_scraper S) in
  let root := current_item root_created in
  BaseScraper_move_to_top S w = run_hooks S "top" (at_top root w)
  /\ (hooks_keep (cursor_is root [root]) S ->
      cursor_is root [root] (snd (BaseScraper_move_to_top S w)))
  /\ (forall e, fst (BaseScraper_move_to_top S w) = Raise e ->
        raised_by_hook S ["top"] e)
  /\ (hooks_return S -> fst (BaseScraper_move_to_top S w) = Ok tt)
  /\ (_hooks S "top" = [] ->
      BaseScraper_move_to_top S w
      = (Ok tt, with_trace (fun t => t ++ [Hook "top"]) (at_top root w))).
Proof.
  intros HK w root.
  destruct (run_ops_keep_invariant S _ ops HK (fresh_scraper S)
              (fresh_scraper_invariant S HK))
    as (((r & rest & Hpath & _) & _) & Hhead & _).
  fold w in Hpath, Hhead. rewrite Hpath in Hhead. cbn in Hhead.
  injection Hhead as ->. fold root in Hpath.
  assert (Heq : BaseScraper_move_to_top S w = run_hooks S "top" (at_top root w))
    by now rewrite move_to_top_eq, Hpath.
  split; [exact Heq|]. rewrite Heq. split; [|split; [|split]].
  - intros HC. apply (run_hooks_keep _ S "top" (cursor_is_trace _ _) HC).
    split; reflexivity.
  - intros e. apply run_hooks_raised.
  - apply run_hooks_return.
  - apply run_hooks_none.
Qed.

(** X4: [move_to] then [move_up]: the cursor and the stack are back
    where they were, also when a callback of [move_up] raises; that is
    all [move_up] can raise here.  The callbacks are asked to leave the
    cursor and the stack alone. *)
Theorem move_to_then_move_up_restores_cursor
    (S : Scraper) (k : key) (w w1 : World) :
  (forall c p, hooks_keep (cursor_is c p) S) ->
  last (_collection_path w) = Some (current_item w) ->
  BaseScraper_move_to S k w = (Ok tt, w1) ->
  let w2 := snd (BaseScraper_move_up S w1) in
  current_item w2 = current_item w
  /\ _collection_path w2 = _collection_path w
  /\ (forall e, fst (BaseScraper_move_up S w1) = Raise e ->
        raised_by_hook S ["up"; "top"] e)
  /\ (hooks_return S -> fst (BaseScraper_move_up S w1) = Ok tt)
  /\ (hooks_observe S -> items w2 = items w1).
Proof.
  intros HC Hlast Hmove w2. rewrite move_to_eq in Hmove.
  destruct (Item_items_keeps S (current_item w) w) as (Hf & _).
  destruct (Item_items S (current_item w) w) as [[its|e] w0]; cbn [snd] in Hf;
    [|destruct (move_to_catches e); discriminate].
  destruct (only_items_and_trace_fields w w0 Hf) as (_ & Hpath & _).
  destruct (fst (items_getitem its k w0)) as [x|e];
    [|destruct (move_to_catches e); discriminate].
  assert (H1 : cursor_is x (_collection_path w ++ [x]) w1).
  { eapply preserves_Ok;
      [apply (run_hooks_keep _ S "select" (cursor_is_trace _ _) (HC _ _))
      |exact Hmove|].
    split; [reflexivity|]. cbn. now rewrite Hpath. }
  destruct H1 as (Hc1 & Hp1).
  destruct (gone_up_fields w1) as (Hg & _ & Hcases).
  assert (H2 : cursor_is (current_item w) (_collection_path w) (gone_up w1)).
  { destruct Hcases as [(Hlen & _)|(p & c & y & Hp & Hp' & Hc')].
    - rewrite Hp1, length_app in Hlen. simpl in Hlen.
      destruct (_collection_path w); [discriminate|simpl in Hlen; lia].
    - rewrite Hp1 in Hp. apply app_inj_tail in Hp as [Hp ->].
      split; [|now rewrite Hp', <- Hp].
      rewrite Hc'. rewrite Hp, last_snoc in Hlast. now injection Hlast. }
  subst w2. rewrite move_up_eq.
  split; [|split; [|split; [|split]]].
  - apply (up_hooks_keep S _ (cursor_is_trace _ _) (HC _ _) _ H2).
  - apply (up_hooks_keep S _ (cursor_is_trace _ _) (HC _ _) _ H2).
  - intros e. apply up_hooks_raised.
  - apply up_hooks_return.
  - intros Ho.
    apply (up_hooks_keep S (fun y => items y = items w1)).
    + intros f y Hy. exact Hy.
    + apply hooks_observe_keep; [exact Ho|]. intros f y Hy. exact Hy.
    + rewrite Hg. reflexivity.
Qed.

(** C9.  At the root the path stack has one entry: [move_up] moves
    nothing and runs the callbacks of [up], then those of [top].  After
    any number of calls the current item and the path stack are as they
    were.  The call raises nothing of its own: what it raises, one of
    these callbacks raised, and with none that raises it returns.  With
    none registered it writes to the trace only.  The callbacks are
    asked to leave the cursor and the stack alone. *)
Theorem move_up_at_root_is_noop (S : Scraper) (w : World) :
  length (_collection_path w) = 1 ->
  hooks_keep (cursor_is (current_item w) (_collection_path w)) S ->
  BaseScraper_move_up S w
  = (let* _ := run_hooks S "up" in run_hooks S "top") w
  /\ (forall n,
        let w' := Nat.iter n (fun x => snd (BaseScraper_move_up S x)) w in
        current_item w' = current_item w
        /\ _collection_path w' = _collection_path w
        /\ (forall e, fst (BaseScraper_move_up S w') = Raise e ->
              raised_by_hook S ["up"; "top"] e)
        /\ (hooks_return S -> fst (BaseScraper_move_up S w') = Ok tt))
  /\ (_hooks S "up" = [] -> _hooks S "top" = [] ->
      BaseScraper_move_up S w
      = (Ok tt, with_trace (fun t => t ++ [Hook "top"])
                  (with_trace (fun t => t ++ [Hook "up"]) w))).
Proof.
  intros Hlen HK.
  assert (Hgone : forall x, length (_collection_path x) = 1 -> gone_up x = x).
  { intros x Hx. unfold gone_up. now rewrite Hx. }
  assert (Heq : BaseScraper_move_up S w
                = (let* _ := run_hooks S "up" in run_hooks S "top") w).
  { rewrite move_up_eq, (Hgone w Hlen). unfold up_hooks. unfold bind at 1 3.
    pose proof (run_hooks_keep _ S "up" (cursor_is_trace _ _) HK w
                  (conj eq_refl eq_refl)) as (_ & Hp).
    destruct (run_hooks S "up" w) as [[[]|e] w1]; [|reflexivity].
    cbn [snd] in Hp. unfold bind at 1. unfold get_world at 1. cbv beta iota.
    now rewrite Hp, Hlen. }
  split; [exact Heq|]. split.
  - intros n.
    assert (Hn : cursor_is (current_item w) (_collection_path w)
                   (Nat.iter n (fun x => snd (BaseScraper_move_up S x)) w)).
    { induction n as [|n IH]; [split; reflexivity|].
      rewrite Nat.iter_succ, move_up_eq.
      apply (up_hooks_keep S _ (cursor_is_trace _ _) HK).
      destruct IH as (Hc & Hp).
      rewrite Hgone by (now rewrite Hp). now split. }
    destruct Hn as (Hc & Hp). cbv zeta.
    split; [exact Hc|]. split; [exact Hp|]. rewrite move_up_eq. split.
    + intros e. apply up_hooks_raised.
    + apply up_hooks_return.
  - intros Hup Htop. rewrite Heq. unfold bind.
    rewrite (run_hooks_none S "up" w Hup).
    now rewrite (run_hooks_none S "top" _ Htop).
Qed.



Lemma Itemslist_getitem_absent_id (l : list ref) (s : string) (w : World) :
  (forall y, In y l -> exists it, items w !! y = Some it /\ Item_id it <> s) ->
  Itemslist___getitem__ l (KStr s) w = (Raise StopIteration, w).
Proof.
  intros Hl. unfold Itemslist___getitem__, try_except.
  rewrite filter_next_none; [reflexivity|].
  intros y Hy. destruct (Hl y Hy) as (it & Hit & Hne).
  cbv [bind id_of_item get_item ret]. rewrite Hit.
  now rewrite String_eqb_neq.
Qed.

Lemma Itemslist_getitem_by_identity (l : list ref) (x : ref) (w : World) :
  Itemslist___getitem__ l (KItem x) w
  = (if existsb (Nat.eqb x) l then Ok x else Raise StopIteration, w).
Proof.
  unfold Itemslist___getitem__, try_except.
  induction l as [|y l IH]; simpl; [reflexivity|].
  unfold bind, ret. rewrite (Nat.eqb_sym x y).
  destruct (Nat.eqb y x) eqn:E.
  - apply Nat.eqb_eq in E. now subst.
  - simpl. exact IH.
Qed.


Lemma list_getitem_out_of_range (l : list ref) (i : Z) (w : World) :
  (Z.of_nat (length l) <= i \/ i < - Z.of_nat (length l))%Z ->
  list___getitem__ l i w = (Raise IndexError, w).
Proof.
  intros Hi. unfold list___getitem__.
  destruct (Z.ltb_spec i 0).
  - destruct (Z.ltb_spec (i + Z.of_nat (length l)) 0); [reflexivity|lia].
  - destruct (Z.ltb_spec i 0); [lia|].
    destruct (Z.leb_spec (Z.of_nat (length l)) i); [reflexivity|lia].
Qed.

Section move_to_listed.
Variable S : Scraper.
Variables (w : World) (itc : Item) (l : list ref).
Hypothesis Hcur : items w !! current_item w = Some itc.
Hypothesis Htype : Item_type itc = TYPE_COLLECTION.
Hypothesis Hlisted : Item__items itc = Some l.

Lemma move_to_listed (k : key) :
  BaseScraper_move_to S k w
  = match fst (Itemslist___getitem__ l k w) with
    | Ok x => run_hooks S "select" (arrived x w)
    | Raise e => (if move_to_catches e then Raise NoSuchItem else Raise e, w)
    end.
Proof.
  rewrite move_to_eq, Item_items_eq, Hcur, Htype.
  now rewrite (Collection_items_memo S _ itc l w Hcur Hlisted).
Qed.


(** X6: A key that matches no listed child: [NoSuchItem], and the store,
    cursor included, stays as it was. *)
Theorem move_to_missing_child :
  (forall s,
     (forall y, In y l -> exists it, items w !! y = Some it /\ Item_id it <> s) ->
     BaseScraper_move_to S (KStr s) w = (Raise NoSuchItem, w))
  /\ (forall i, (Z.of_nat (length l) <= i \/ i < - Z.of_nat (length l))%Z ->
        BaseScraper_move_to S (KInt i) w = (Raise NoSuchItem, w))
  /\ (forall x, ~ In x l ->
        BaseScraper_move_to S (KItem x) w = (Raise NoSuchItem, w)).
Proof.
  split; [|split].
  - intros s Hs. rewrite move_to_listed.
    now rewrite (Itemslist_getitem_absent_id l s w Hs).
  - intros i Hi. rewrite move_to_listed. cbn [Itemslist___getitem__].
    now rewrite (list_getitem_out_of_range l i w Hi).
  - intros x Hx. rewrite move_to_listed, Itemslist_getitem_by_identity.
    destruct (existsb (Nat.eqb x) l) eqn:E; [|reflexivity].
    apply existsb_exists in E as (y & Hy & Heq). apply Nat.eqb_eq in Heq.
    subst y. contradiction.
Qed.
End move_to_listed.


(** X8: A dataset has no children: [move_to] from a dataset raises
    [TypeError], which the [except] clause lets through, and changes
    nothing. *)
Theorem move_to_from_dataset_raises_TypeError
    (S : Scraper) (k : key) (w : World) (itc : Item) :
  items w !! current_item w = Some itc -> Item_type itc = TYPE_DATASET ->
  BaseScraper_move_to S k w = (Raise TypeError, w).
Proof.
  intros Hc Ht. now rewrite move_to_eq, Item_items_eq, Hc, Ht.
Qed.

(** X10: The children of a live collection are asked for once: after a first
    access, whether it returned or raised, the next one returns the
    list bound by the first, calls no collaborator and leaves the store
    as it is.  A first access that returned gave that same list. *)
Theorem Collection_items_asks_once (S : Scraper) (c : ref) (its : Item) (w : World) :
  items w !! c = Some its ->
  let w1 := snd (Collection_items S c w) in
  exists l,
    Collection_items S c w1 = (Ok l, w1)
    /\ (forall l0, fst (Collection_items S c w) = Ok l0 -> l0 = l)
    /\ (trace w1 = trace w \/ trace w1 = trace w ++ [Call_fetch_itemslist c]).
Proof.
  intros Hc.
  destruct (Item__items its) as [l|] eqn:Hl.
  - rewrite (Collection_items_memo S c its l w Hc Hl). cbn [fst snd].
    exists l. rewrite (Collection_items_memo S c its l w Hc Hl).
    split; [reflexivity|]. split; [now intros l0 [= <-]|now left].
  - destruct (Collection_items_first S c its w Hc Hl)
      as (w' & new & Hrun & _ & Htrace & Hself & _).
    rewrite Hrun. cbn [fst snd]. exists new.
    rewrite (Collection_items_memo S c _ new w' Hself eq_refl).
    split; [reflexivity|]. split; [|now right].
    intros l0. destruct (snd (_fetch_itemslist S _ c)); [discriminate|].
    now intros [= <-].
Qed.

(** ** More on the cache *)

Lemma with_items_insert_id (d : ref) (it : Item) (w : World) :
  items w !! d = Some it -> with_items (insert d it) w = w.
Proof.
  intros H. unfold with_items. rewrite (insert_id _ _ _ H). now destruct w.
Qed.

Lemma set_query_same (it : Item) : set_query (Dataset_query it) it = it.
Proof. now destruct it. Qed.

(** X13: Once [fetch] has returned a result set, [data] and a [fetch] without
    a query return that same object and change nothing in the store: no
    collaborator is called and the cursor stays.  The callbacks that
    ran while the first call moved the cursor are asked not to rebind
    the query of the dataset. *)
Theorem data_after_fetch_is_cached
    (S : Scraper) (md5 : string -> string) (dt : string -> option allowed)
    (d : ref) (q : json) (w w1 : World) (rs : ref) :
  (forall q0, hooks_keep (query_is d q0) S) ->
  Dataset_fetch S md5 dt d q w = (Ok rs, w1) ->
  Dataset_data S md5 dt d w1 = (Ok rs, w1)
  /\ Dataset_fetch S md5 dt d JNull w1 = (Ok rs, w1).
Proof.
  intros HK Hfetch.
  destruct (fetch_caches S md5 dt d q w w1 rs HK Hfetch) as (it1 & Hit1 & Hc & _).
  split.
  - cbv [Dataset_data bind get_item]. rewrite Hit1.
    rewrite (fetch_hit S md5 dt d (Dataset_query it1) it1 w1 rs Hit1)
      by (now destruct (truthy (Dataset_query it1))).
    destruct (truthy (Dataset_query it1)); [|reflexivity].
    now rewrite set_query_same, (with_items_insert_id d it1 w1 Hit1).
  - now rewrite (fetch_hit S md5 dt d JNull it1 w1 rs Hit1).
Qed.

(** X12: [_hash] is a function of the stored query alone, up to the
    insertion order of its dict keys: two live datasets, in whatever
    stores, whose queries are the same JSON value up to that order
    ([py_eq]: a bool is not an int) have the same hash, and computing it
    writes nothing.  The hash tells neither datasets nor stores apart. *)
Theorem hash_depends_on_query_only
    (md5 : string -> string) (d1 d2 : ref) (it1 it2 : Item) (w1 w2 : World) :
  items w1 !! d1 = Some it1 -> items w2 !! d2 = Some it2 ->
  json_wf (Dataset_query it1) -> json_wf (Dataset_query it2) ->
  py_eq (Dataset_query it1) (Dataset_query it2) = true ->
  exists h, Dataset__hash md5 d1 w1 = (Ok h, w1)
            /\ Dataset__hash md5 d2 w2 = (Ok h, w2).
Proof.
  intros H1 H2 Hwf1 Hwf2 Heq. exists (md5 (dumps (Dataset_query it1))).
  cbv [Dataset__hash bind get_item ret]. rewrite H1, H2.
  now rewrite (dumps_py_eq _ _ Hwf1 Hwf2 Heq).
Qed.

(** ** Appending to a result set without owner *)

(** X19: With no dataset bound to the result set, [append] links the result
    to the set, adds it at the end, and resolves nothing: no dimension
    value is attached, no collaborator is called, the cursor stays. *)
Theorem append_without_owner
    (S : Scraper) (dt : string -> option allowed)
    (rs r : ref) (rsv : ResultSet) (x : Result) (w : World) :
  resultsets w !! rs = Some rsv -> ResultSet_dataset rsv = None ->
  results w !! r = Some x ->
  ResultSet_append S dt rs r w
  = (Ok tt,
     with_resultsets
       (insert rs (set_ResultSet_list (ResultSet_list rsv ++ [r]) rsv))
       (with_results
          (insert r (set_Result_dataset None (set_Result_resultset (Some rs) x)))
          w)).
Proof.
  intros Hrs Hd Hr.
  cbv [ResultSet_append bind get_resultset update_result get_result modify
         update_resultset ret].
  rewrite Hrs, Hr, Hd. cbn. rewrite lookup_insert_eq. cbn. rewrite Hrs.
  f_equal. unfold with_resultsets, with_results. cbn.
  now rewrite insert_insert_eq.
Qed.

Lemma ensures_bind {A B} (P : World -> Prop) (m : M A) (f : A -> M B)
    (Q : res B -> World -> Prop) :
  preserves P m -> (forall a, ensures P (f a) Q) ->
  (forall e w, P w -> Q (Raise e) w) ->
  ensures P (bind m f) Q.
Proof.
  intros Hm Hf Hr w Hw. unfold bind. specialize (Hm w Hw).
  destruct (m w) as [[a|e] w1]; cbn [fst snd] in *.
  - now apply Hf.
  - now apply Hr.
Qed.

Section cache_frame.
Variable D : gmap string ref.

Lemma cache_is_frame : frame (cache_is D).
Proof. split; intros; assumption. Qed.

Lemma cache_update_result r f : preserves (cache_is D) (update_result r f).
Proof.
  intros w Hw. cbv [update_result bind get_result modify].
  now destruct (results w !! r).
Qed.

Lemma cache_update_resultset r f : preserves (cache_is D) (update_resultset r f).
Proof.
  intros w Hw. cbv [update_resultset bind get_resultset modify].
  now destruct (resultsets w !! r).
Qed.

Lemma cache_new_resultset x : preserves (cache_is D) (new_resultset x).
Proof. intros w Hw. exact Hw. Qed.

Lemma cache_Result_init v d : preserves (cache_is D) (Result___init__ v d).
Proof.
  intros w Hw. unfold Result___init__. destruct d; exact Hw.
Qed.

Lemma cache_dimensionvalues_append val x :
  preserves (cache_is D) (Result_dimensionvalues_append val x).
Proof.
  intros w Hw. cbv [Result_dimensionvalues_append bind get_result modify].
  now destruct (results w !! val).
Qed.

Variable S : Scraper.
Variable Datatype_allowed_values : string -> option allowed.

(** No callback writes to the cache. *)
Hypothesis HK : hooks_keep (cache_is D) S.

Hint Resolve cache_update_result cache_update_resultset cache_new_resultset
  cache_Result_init cache_dimensionvalues_append : pres.

Lemma cache_append_tags dataset val dims tags dim :
  preserves (cache_is D)
    (append_tags S Datatype_allowed_values dataset val dims tags dim).
Proof.
  pose proof cache_is_frame as F.
  revert dim. induction tags as [|[k v] tags IH]; intros dim;
    cbn [append_tags].
  - apply preserves_ret.
  - pres; eauto using preserves_Dataset_dimensions,
      preserves_Dimensionslist_contains, preserves_Dimensionslist_getitem,
      preserves_DimensionValue_init, preserves_Dimension_call.
Qed.

Lemma cache_ResultSet_append self val :
  preserves (cache_is D) (ResultSet_append S Datatype_allowed_values self val).
Proof.
  pose proof cache_is_frame as F.
  unfold ResultSet_append. pres;
    eauto using preserves_Dataset_dimensions, cache_append_tags.
Qed.
End cache_frame.

Lemma bind_get_world {B} (f : World -> M B) (w : World) :
  bind get_world f w = f w w.
Proof. reflexivity. Qed.

Lemma cache_update_item (D : gmap string ref) r f :
  preserves (cache_is D) (update_item r f).
Proof.
  intros w Hw. cbv [update_item bind get_item modify].
  now destruct (items w !! r).
Qed.

(** X14: [fetch] writes to the cache at its very end only: a call that
    raises, be it in the repositioning, in a callback, in the
    collaborator or in [append], leaves the cache as it was; a call
    that returns has left it as it was or has added the one entry of
    the result set it returns, under a hash that was free.  The
    callbacks are asked not to write to the cache themselves. *)
Theorem fetch_caches_on_success_only
    (S : Scraper) (md5 : string -> string) (dt : string -> option allowed)
    (d : ref) (q : json) (w : World) :
  (forall D, hooks_keep (cache_is D) S) ->
  let r := fst (Dataset_fetch S md5 dt d q w) in
  let w' := snd (Dataset_fetch S md5 dt d q w) in
  (forall e, r = Raise e -> Dataset__data w' = Dataset__data w)
  /\ (forall rs, r = Ok rs ->
        Dataset__data w' = Dataset__data w
        \/ exists h, Dataset__data w !! h = None
                     /\ Dataset__data w' = <[h := rs]> (Dataset__data w)).
Proof.
  intros HK.
  set (D := Dataset__data w).
  pose proof (HK D) as K.
  set (Q := fun (r : res ref) (w' : World) =>
              (forall e, r = Raise e -> Dataset__data w' = D)
              /\ (forall rs, r = Ok rs ->
                    Dataset__data w' = D
                    \/ exists h, D !! h = None
                                 /\ Dataset__data w' = <[h := rs]> D)).
  assert (Hraise : forall e x, cache_is D x -> Q (Raise e) x).
  { intros e x Hx. split; [intros _ _; exact Hx|discriminate]. }
  assert (H : ensures (cache_is D) (Dataset_fetch S md5 dt d q) Q).
  { pose proof (cache_is_frame D) as F. unfold Dataset_fetch.
    apply ensures_bind; [destruct (truthy q); [apply cache_update_item|
                                               apply preserves_ret]| |exact Hraise].
    intros _. apply ensures_bind; [unfold Dataset__hash; pres| |exact Hraise].
    intros h x Hx. rewrite bind_get_world. rewrite Hx.
    destruct (D !! h) as [rs0|] eqn:Hh.
    - split; [discriminate|]. intros rs _. left. exact Hx.
    - refine (ensures_bind (cache_is D) _ _ Q _ _ Hraise x Hx).
      { destruct (negb _); [now apply preserves_move_here|apply preserves_ret]. }
      intros _. apply ensures_bind; [apply cache_new_resultset| |exact Hraise].
      intros rs. apply ensures_bind; [apply preserves_get_item| |exact Hraise].
      intros it. apply ensures_bind; [apply cache_update_resultset| |exact Hraise].
      intros _. apply ensures_bind; [apply cache_update_resultset| |exact Hraise].
      intros _. apply ensures_bind; [now apply preserves_log| |exact Hraise].
      intros _. apply ensures_bind; [apply preserves_get_world| |exact Hraise].
      intros w0. apply ensures_bind; [| |exact Hraise].
      { apply preserves_for_gen. intros spec. apply preserves_bind.
        - apply cache_Result_init.
        - intros result. now apply cache_ResultSet_append. }
      intros _ y Hy. cbn. split; [discriminate|].
      intros rs' [= <-]. right. exists h. unfold cache_is in Hy.
      split; [exact Hh|]. cbn [Dataset__data with_data]. now rewrite Hy. }
  exact (H w eq_refl).
Qed.

(** ** Listing the dimensions of a dataset *)

Lemma Dataset_dimensions_unfold (S : Scraper) dt (self : ref) :
  Dataset_dimensions S dt self
  = (let* w := get_world in
     let* _ := if negb (Nat.eqb (current_item w) self)
               then Dataset__move_here S self else ret tt in
     let* it := get_item self in
     match Dataset__dimensions it with
     | Some l => ret l
     | None =>
         let* _ := update_item self (set__dimensions (Some [])) in
         let* _ := log (Call_fetch_dimensions self) in
         let* w := get_world in
         let* _ := for_gen (_fetch_dimensions S w self) (declare dt self) in
         let* it' := get_item self in
         ret (default [] (Dataset__dimensions it'))
     end).
Proof. reflexivity. Qed.











(** ** Resolving the raw tags of a result *)

Lemma dimension_id_test (w : World) (k : string) (d : ref) (D : Dimension) :
  dimensions w !! d = Some D ->
  (let* i := id_of_dimension d in ret (String.eqb i k)) w
  = (Ok (String.eqb (Dimension_id D) k), w).
Proof.
  intros HD. cbv [bind id_of_dimension get_dimension ret]. now rewrite HD.
Qed.

Lemma filter_next_find (dims : list ref) (k : string) (w : World) :
  (forall d, In d dims -> is_Some (dimensions w !! d)) ->
  filter_next (fun x => let* i := id_of_dimension x in ret (String.eqb i k)) dims w
  = (match declared w dims k with
     | Some d => Ok d
     | None => Raise StopIteration
     end, w).
Proof.
  unfold declared. induction dims as [|d dims IH]; intros Hlive; simpl.
  - reflexivity.
  - destruct (Hlive d (or_introl eq_refl)) as [D HD].
    assert (Hd : dimension_id_is w k d = String.eqb (Dimension_id D) k)
      by (unfold dimension_id_is; now rewrite HD).
    unfold bind at 1. rewrite (dimension_id_test w k d D HD), Hd.
    destruct (String.eqb (Dimension_id D) k); [reflexivity|].
    apply IH. intros x Hx. apply Hlive. now right.
Qed.

Lemma filter_list_filter (dims : list ref) (k : string) (w : World) :
  (forall d, In d dims -> is_Some (dimensions w !! d)) ->
  filter_list (fun x => let* i := id_of_dimension x in ret (String.eqb i k)) dims w
  = (Ok (List.filter (dimension_id_is w k) dims), w).
Proof.
  induction dims as [|d dims IH]; intros Hlive; simpl.
  - reflexivity.
  - destruct (Hlive d (or_introl eq_refl)) as [D HD].
    assert (Hd : dimension_id_is w k d = String.eqb (Dimension_id D) k)
      by (unfold dimension_id_is; now rewrite HD).
    specialize (IH (fun x Hx => Hlive x (or_intror Hx))).
    unfold bind at 1. rewrite (dimension_id_test w k d D HD). cbv beta iota.
    unfold bind at 1.
    destruct (filter_list _ dims w) as [r w1]. injection IH as -> ->.
    rewrite Hd. now destruct (String.eqb (Dimension_id D) k).
Qed.

Lemma find_Some_filter {A} (f : A -> bool) (l : list A) (x : A) :
  List.find f l = Some x -> List.filter f l <> [].
Proof.
  induction l as [|y l IH]; simpl; [discriminate|].
  destruct (f y); [discriminate|exact IH].
Qed.

Lemma Dimensionslist_contains_declared (dims : list ref) (k : string)
    (dk : ref) (w : World) :
  (forall d, In d dims -> is_Some (dimensions w !! d)) ->
  declared w dims k = Some dk ->
  Dimensionslist___contains__ id_of_dimension dims (KStr k) w = (Ok true, w)
  /\ Dimensionslist___getitem__ id_of_dimension dims (KStr k) w = (Ok dk, w).
Proof.
  intros Hlive Hk. split.
  - unfold Dimensionslist___contains__. unfold bind at 1.
    rewrite (filter_list_filter dims k w Hlive). unfold ret.
    pose proof (find_Some_filter _ _ _ Hk) as Hne.
    destruct (List.filter (dimension_id_is w k) dims); [contradiction|reflexivity].
  - unfold Dimensionslist___getitem__, try_except.
    now rewrite (filter_next_find dims k w Hlive), Hk.
Qed.

Lemma Dataset_dimensions_memo (S : Scraper) dt (self : ref) (dims : list ref)
    (w : World) :
  ready w self dims -> Dataset_dimensions S dt self w = (Ok dims, w).
Proof.
  intros (Hcur & (itd & Hit & Hd) & _).
  rewrite Dataset_dimensions_unfold, bind_get_world, Hcur, Nat.eqb_refl.
  cbn [negb]. cbv [bind ret get_item]. now rewrite Hit, Hd.
Qed.

Lemma resolves_refl w : resolves w w.
Proof.
  split; [now destruct w|]. split; [|auto].
  intros d D HD. exists D. auto.
Qed.

Lemma resolves_trans w1 w2 w3 : resolves w1 w2 -> resolves w2 w3 -> resolves w1 w3.
Proof.
  intros (E12 & D12 & V12) (E23 & D23 & V23). split; [|split].
  - rewrite E23 at 1. rewrite E12 at 1. reflexivity.
  - intros d D HD. destruct (D12 d D HD) as (D2 & H2 & Hi2 & Hu2).
    destruct (D23 d D2 H2) as (D3 & H3 & Hi3 & Hu3).
    exists D3. split; [exact H3|]. split; [congruence|auto].
  - auto.
Qed.

Lemma resolves_ready w w' dataset dims :
  resolves w w' -> ready w dataset dims -> ready w' dataset dims.
Proof.
  intros (E & HD & _) (Hcur & Hit & Hus).
  assert (Hi : items w' = items w) by (rewrite E; reflexivity).
  assert (Hc : current_item w' = current_item w) by (rewrite E; reflexivity).
  split; [congruence|]. split; [now rewrite Hi|].
  intros d Hd. destruct (Hus d Hd) as (D & HDd & Hu).
  destruct (HD d D HDd) as (D' & H' & _ & Hu'). exists D'. auto.
Qed.

Lemma resolves_declared w w' dims k :
  resolves w w' -> (forall d, In d dims -> is_Some (dimensions w !! d)) ->
  declared w' dims k = declared w dims k.
Proof.
  intros (_ & HD & _) Hlive. unfold declared.
  induction dims as [|d dims IH]; simpl; [reflexivity|].
  destruct (Hlive d (or_introl eq_refl)) as [D HDd].
  destruct (HD d D HDd) as (D' & H' & Hid & _).
  assert (Hd : dimension_id_is w' k d = dimension_id_is w k d)
    by (unfold dimension_id_is; now rewrite HDd, H', Hid).
  rewrite Hd. destruct (dimension_id_is w k d); [reflexivity|].
  apply IH. intros x Hx. apply Hlive. now right.
Qed.

Lemma resolves_with_dimensionvalues (v : ref) (DV : DimensionValue) (w : World) :
  dimensionvalues w !! v = None ->
  resolves w (with_dimensionvalues (insert v DV) w).
Proof.
  intros Hv. split; [now destruct w|]. split.
  - intros d D HD. exists D. auto.
  - intros v' DV' H'. cbn. rewrite lookup_insert_ne; [exact H'|].
    intros E. subst v'. congruence.
Qed.

Lemma resolves_append_dimensionvalue (x : ref) (w : World) :
  resolves w (with_Result_dimensionvalues (fun l => l ++ [x]) w).
Proof.
  split; [now destruct w|]. split; [|auto].
  intros d D HD. exists D. auto.
Qed.

(** Reading the allowed values of a usable dimension. *)
Lemma Dimension_allowed_values_usable (S : Scraper) (d : ref) (D : Dimension)
    (w : World) :
  dimensions w !! d = Some D ->
  Dimension_scraper D = true \/ is_Some (Dimension__allowed_values D) ->
  exists a w1,
    Dimension_allowed_values S d w = (Ok a, w1)
    /\ resolves w w1
    /\ dimensionvalues w1 = dimensionvalues w
    /\ Result_dimensionvalues w1 = Result_dimensionvalues w.
Proof.
  intros HD Hu.
  cbv [Dimension_allowed_values bind get_dimension log modify get_world
         update_dimension ret raise].
  rewrite HD.
  destruct (Dimension__allowed_values D) as [a|] eqn:Ha.
  - exists a, w. split; [reflexivity|]. split; [apply resolves_refl|auto].
  - destruct Hu as [Hs|[a Ha']]; [|discriminate]. rewrite Hs. cbn. rewrite HD.
    eexists _, _. split; [reflexivity|]. split; [|auto].
    split; [now destruct w|]. split; [|auto].
    intros d' D' HD'. cbn. destruct (decide (d = d')) as [<-|Hne].
    + rewrite lookup_insert_eq. eexists. split; [reflexivity|].
      rewrite HD in HD'. injection HD' as <-. cbn. eauto.
    + rewrite lookup_insert_ne by exact Hne. exists D'. auto.
Qed.

(** Building the value of a usable dimension: a new object that copies
    the id of the dimension and holds the raw value. *)
Lemma DimensionValue_init_usable (S : Scraper) (s : string) (d : ref)
    (D : Dimension) (w : World) :
  dimensions w !! d = Some D ->
  Dimension_scraper D = true \/ is_Some (Dimension__allowed_values D) ->
  exists v DV w',
    DimensionValue___init__ S s d w = (Ok v, w')
    /\ resolves w w'
    /\ dimensionvalues w !! v = None
    /\ dimensionvalues w' !! v = Some DV
    /\ DimensionValue_value DV = s
    /\ DimensionValue_id DV = Dimension_id D
    /\ DimensionValue_label DV = Dimension_label D
    /\ DimensionValue_dimension DV = d
    /\ Result_dimensionvalues w' = Result_dimensionvalues w.
Proof.
  intros HD Hu.
  destruct (Dimension_allowed_values_usable S d D w HD Hu)
    as (a & w1 & Ha & Hres & Hdv & Hrdv).
  set (v := fresh (dom (dimensionvalues w1))).
  assert (Hv1 : dimensionvalues w1 !! v = None)
    by (apply not_elem_of_dom, is_fresh).
  exists v, (mkDimensionValue s (Dimension_id D) (Dimension_label D)
               (Dimension_datatype D) a d),
    (with_dimensionvalues
       (insert v (mkDimensionValue s (Dimension_id D) (Dimension_label D)
                    (Dimension_datatype D) a d)) w1).
  split.
  { unfold DimensionValue___init__. unfold bind at 1. unfold get_dimension.
    rewrite HD. cbv beta iota. unfold bind. now rewrite Ha. }
  split.
  { eapply resolves_trans; [exact Hres|].
    now apply resolves_with_dimensionvalues. }
  split; [now rewrite <- Hdv|]. split; [cbn; apply lookup_insert_eq|].
  cbn. auto.
Qed.

Lemma resolves_fields (w w' : World) :
  resolves w w' ->
  items w' = items w /\ results w' = results w
  /\ resultsets w' = resultsets w /\ mappings w' = mappings w
  /\ current_item w' = current_item w
  /\ _collection_path w' = _collection_path w
  /\ Dataset__data w' = Dataset__data w.
Proof. intros (E & _). rewrite E. repeat split. Qed.

Lemma ready_live (w : World) (ds : ref) (dims : list ref) :
  ready w ds dims -> forall d, In d dims -> is_Some (dimensions w !! d).
Proof.
  intros (_ & _ & Hu) d Hd. destruct (Hu d Hd) as (D & HD & _). eauto.
Qed.

Lemma declared_id (w : World) (dims : list ref) (k : string) (dk : ref) :
  declared w dims k = Some dk ->
  In dk dims /\ exists D, dimensions w !! dk = Some D /\ Dimension_id D = k.
Proof.
  unfold declared. intros H. apply find_some in H as [Hin Hid].
  split; [exact Hin|]. unfold dimension_id_is in Hid.
  destruct (dimensions w !! dk) as [D|]; [|discriminate].
  exists D. split; [reflexivity|]. now apply String.eqb_eq.
Qed.

(** The loop of [append] over literal tags whose ids are declared: each
    tag gets one new dimension value, in order. *)
Lemma append_scalar_tags (S : Scraper) dt (ds val : ref) (dims : list ref)
    (tags : list (string * string)) :
  forall (dim : option ref) (w : World),
    ready w ds dims -> is_Some (results w !! val) ->
    (forall tag, In tag tags -> is_Some (declared w dims (fst tag))) ->
    exists w' vs,
      append_tags S dt ds val dims (map scalar_tag tags) dim w = (Ok tt, w')
      /\ resolves w w'
      /\ Result_dimensionvalues w' = Result_dimensionvalues w ++ vs
      /\ Forall2 (resolved_tag w w' dims) vs tags.
Proof.
  induction tags as [|[k s] tags IH]; intros dim w Hready Hval Hdecl.
  - exists w, []. rewrite app_nil_r. split; [reflexivity|].
    split; [apply resolves_refl|]. split; [reflexivity|constructor].
  - pose proof (ready_live w ds dims Hready) as Hlive.
    destruct (Hdecl (k, s) (or_introl eq_refl)) as [dk Hdk]. cbn [fst] in Hdk.
    destruct (declared_id w dims k dk Hdk) as (Hin & D & HD & Hid).
    destruct (Dimensionslist_contains_declared dims k dk w Hlive Hdk)
      as [Hcont Hget].
    assert (Hu : Dimension_scraper D = true \/ is_Some (Dimension__allowed_values D)).
    { destruct Hready as (_ & _ & Hus). destruct (Hus dk Hin) as (D0 & HD0 & Hu).
      rewrite HD in HD0. now injection HD0 as <-. }
    destruct (DimensionValue_init_usable S s dk D w HD Hu)
      as (v & DV & w1 & Hinit & Hres1 & Hvnew & Hv1 & Hval1 & Hid1 & _ & Hdim1 & Hrdv1).
    destruct (resolves_fields w w1 Hres1) as (_ & Hr1 & _).
    set (w2 := with_Result_dimensionvalues (fun l => l ++ [v]) w1).
    assert (Hres2 : resolves w w2)
      by (eapply resolves_trans; [exact Hres1|apply resolves_append_dimensionvalue]).
    assert (Happ : Result_dimensionvalues_append val v w1 = (Ok tt, w2)).
    { cbv [Result_dimensionvalues_append bind get_result modify].
      rewrite Hr1. destruct Hval as [x ->]. reflexivity. }
    destruct (IH (Some v) w2) as (w' & vs & Hrun & Hres' & Hrdv' & Hall').
    { eapply resolves_ready; eassumption. }
    { destruct (resolves_fields w w2 Hres2) as (_ & -> & _). exact Hval. }
    { intros tag Htag. rewrite (resolves_declared w w2 dims _ Hres2 Hlive).
      apply Hdecl. now right. }
    exists w', (v :: vs). split; [|split; [|split]].
    + cbn [map scalar_tag fst snd append_tags].
      unfold bind at 1. unfold bind at 1.
      rewrite (Dataset_dimensions_memo S dt ds dims w Hready). cbv beta iota.
      unfold bind at 1. rewrite Hcont. cbv beta iota.
      unfold bind at 1. rewrite Hget. cbv beta iota.
      unfold bind at 1. rewrite Hinit. cbv beta iota. unfold ret at 1.
      unfold bind at 1. rewrite Happ. cbv beta iota. exact Hrun.
    + eapply resolves_trans; eassumption.
    + rewrite Hrdv'. subst w2. cbn. rewrite Hrdv1, <- app_assoc. reflexivity.
    + constructor.
      * destruct Hres' as (_ & _ & Hkeep). exists DV.
        split; [apply Hkeep; subst w2; exact Hv1|].
        cbn [fst snd]. rewrite Hdim1, Hid1, Hid. repeat split; assumption.
      * eapply Forall2_impl; [exact Hall'|]. intros v' tag (DV' & H1 & H2 & H3 & H4 & H5).
        exists DV'. split; [exact H1|]. split; [exact H2|]. split; [exact H3|].
        split; [now rewrite <- (resolves_declared w w2 dims _ Hres2 Hlive)|].
        destruct (dimensionvalues w !! v') as [DV0|] eqn:Hv0; [|reflexivity].
        destruct Hres2 as (_ & _ & Hkeep2). rewrite (Hkeep2 v' DV0 Hv0) in H5.
        discriminate.
Qed.

Lemma get_resultset_eq (r : ref) (d : ResultSet) (w : World) :
  resultsets w !! r = Some d -> get_resultset r w = (Ok d, w).
Proof. intros H. unfold get_resultset. now rewrite H. Qed.

Lemma get_result_eq (r : ref) (d : Result) (w : World) :
  results w !! r = Some d -> get_result r w = (Ok d, w).
Proof. intros H. unfold get_result. now rewrite H. Qed.

Lemma get_mapping_eq (r : ref) (d : list (string * rawvalue)) (w : World) :
  mappings w !! r = Some d -> get_mapping r w = (Ok d, w).
Proof. intros H. unfold get_mapping. now rewrite H. Qed.

Lemma update_result_eq (r : ref) (f : Result -> Result) (d : Result) (w : World) :
  results w !! r = Some d ->
  update_result r f w = (Ok tt, with_results (insert r (f d)) w).
Proof. intros H. cbv [update_result bind get_result modify]. now rewrite H. Qed.

Lemma update_resultset_eq (r : ref) (f : ResultSet -> ResultSet) (d : ResultSet)
    (w : World) :
  resultsets w !! r = Some d ->
  update_resultset r f w = (Ok tt, with_resultsets (insert r (f d)) w).
Proof. intros H. cbv [update_resultset bind get_resultset modify]. now rewrite H. Qed.

Lemma ready_with_results (f : gmap ref Result -> gmap ref Result) (w : World)
    (ds : ref) (dims : list ref) :
  ready w ds dims -> ready (with_results f w) ds dims.
Proof. intros H. exact H. Qed.

(** X20: [ResultSet.append] on a result whose raw dimensions are literals
    under declared ids: the result is linked to the set and its dataset,
    every tag is resolved, in order, into a new dimension value bound to
    the declared dimension of that id, the values are added to
    [Result.dimensionvalues], and the result becomes the last element of
    the set. *)
Theorem append_resolves_declared_tags (S : Scraper) dt (rs r ds : ref)
    (RS : ResultSet) (x : Result) (dims : list ref)
    (tags : list (string * string)) (w : World) :
  resultsets w !! rs = Some RS ->
  ResultSet_dataset RS = Some ds ->
  results w !! r = Some x ->
  mappings w !! Result_raw_dimensions x = Some (map scalar_tag tags) ->
  ready w ds dims ->
  (forall tag, In tag tags -> is_Some (declared w dims (fst tag))) ->
  exists w' vs,
    ResultSet_append S dt rs r w = (Ok tt, w')
    /\ Result_dimensionvalues w' = Result_dimensionvalues w ++ vs
    /\ Forall2 (resolved_tag w w' dims) vs tags
    /\ resultsets w' !! rs
       = Some (set_ResultSet_list (ResultSet_list RS ++ [r]) RS)
    /\ results w' !! r
       = Some (mkResult (Result_value x) (Result_raw_dimensions x)
                 (Some rs) (Some ds))
    /\ current_item w' = ds.
Proof.
  intros Hrs Hds Hr Hmap Hready Hdecl.
  set (x1 := set_Result_resultset (Some rs) x).
  set (x2 := set_Result_dataset (Some ds) x1).
  set (wa := with_results (insert r x1) w).
  set (wb := with_results (insert r x2) wa).
  assert (Hra : results wa !! r = Some x1) by apply lookup_insert_eq.
  assert (Hrb : results wb !! r = Some x2) by apply lookup_insert_eq.
  assert (Hreadyb : ready wb ds dims) by exact Hready.
  destruct (append_scalar_tags S dt ds r dims tags None wb Hreadyb
              (ex_intro _ x2 Hrb) Hdecl)
    as (wc & vs & Hloop & Hres & Hrdv & Hall).
  destruct (resolves_fields wb wc Hres) as (_ & Hrc & Hrsc & _ & Hcur & _).
  assert (Hrsc' : resultsets wc !! rs = Some RS) by (rewrite Hrsc; exact Hrs).
  exists (with_resultsets
            (insert rs (set_ResultSet_list (ResultSet_list RS ++ [r]) RS)) wc), vs.
  split; [|split; [|split; [|split; [|split]]]].
  - unfold ResultSet_append.
    unfold bind at 1. rewrite (get_resultset_eq rs RS w Hrs). cbv beta iota.
    unfold bind at 1. rewrite (update_result_eq r _ x w Hr). cbv beta iota.
    unfold bind at 1. rewrite Hds.
    rewrite (update_result_eq r _ x1 wa Hra). cbv beta iota.
    change (with_results (insert r (set_Result_dataset (Some ds) x1)) wa) with wb.
    unfold bind at 1. unfold bind at 1.
    rewrite (Dataset_dimensions_memo S dt ds dims wb Hreadyb). cbv beta iota.
    unfold bind at 1. rewrite (get_result_eq r x2 wb Hrb). cbv beta iota.
    unfold bind at 1. change (Result_raw_dimensions x2) with (Result_raw_dimensions x).
    rewrite (get_mapping_eq _ _ wb Hmap). cbv beta iota.
    rewrite Hloop. cbv beta iota.
    exact (update_resultset_eq rs
             (fun x0 => set_ResultSet_list (ResultSet_list x0 ++ [r]) x0)
             RS wc Hrsc').
  - exact Hrdv.
  - eapply Forall2_impl; [exact Hall|].
    intros v tag (DV & H1 & H2 & H3 & H4 & H5). exists DV. auto.
  - apply lookup_insert_eq.
  - cbn. rewrite Hrc. exact Hrb.
  - cbn. rewrite Hcur. apply Hready.
Qed.



Lemma filter_next_pure (f : ref -> M bool) (p : ref -> bool) (l : list ref)
    (w : World) :
  (forall x, In x l -> f x w = (Ok (p x), w)) ->
  filter_next f l w
  = (match List.find p l with Some x => Ok x | None => Raise StopIteration end, w).
Proof.
  induction l as [|x l IH]; intros Hf; [reflexivity|].
  cbn [filter_next List.find]. unfold bind at 1.
  rewrite (Hf x (or_introl eq_refl)). cbv beta iota.
  destruct (p x); [reflexivity|]. apply IH. intros y Hy. apply Hf. now right.
Qed.

Lemma filter_list_pure (f : ref -> M bool) (p : ref -> bool) (l : list ref)
    (w : World) :
  (forall x, In x l -> f x w = (Ok (p x), w)) ->
  filter_list f l w = (Ok (List.filter p l), w).
Proof.
  induction l as [|x l IH]; intros Hf; [reflexivity|].
  cbn [filter_list List.filter]. unfold bind at 1.
  rewrite (Hf x (or_introl eq_refl)). cbv beta iota.
  unfold bind at 1. rewrite IH by (intros y Hy; apply Hf; now right).
  reflexivity.
Qed.

Lemma item_id_test (w : World) (s : string) (l : list ref) :
  (forall y, In y l -> is_Some (items w !! y)) ->
  forall x, In x l ->
    (let* i := id_of_item x in ret (String.eqb i s)) w = (Ok (item_id_is w s x), w).
Proof.
  intros Hlive x Hx. destruct (Hlive x Hx) as [it Hit].
  cbv [bind id_of_item get_item ret item_id_is]. now rewrite Hit.
Qed.

Lemma find_none_filter {A} (p : A -> bool) (l : list A) :
  List.find p l = None -> List.filter p l = [].
Proof.
  induction l as [|x l IH]; [reflexivity|]. cbn.
  destruct (p x); [discriminate|exact IH].
Qed.

(** X11: [k in items] and [items[k]] agree on a list of live items, for a
    key that is an id or an item: [in] is true exactly when the
    subscript returns, and it then returns a member of the list with
    that id, or the item itself; when [in] is false the subscript
    raises [StopIteration]. *)
Theorem in_agrees_with_subscript (l : list ref) (w : World) :
  (forall y, In y l -> is_Some (items w !! y)) ->
  (forall s, exists b,
      Itemslist___contains__ l (KStr s) w = (Ok b, w)
      /\ (b = true ->
          exists x itx, In x l /\ items w !! x = Some itx /\ Item_id itx = s
                        /\ Itemslist___getitem__ l (KStr s) w = (Ok x, w))
      /\ (b = false ->
          Itemslist___getitem__ l (KStr s) w = (Raise StopIteration, w)))
  /\ (forall x, exists b,
        Itemslist___contains__ l (KItem x) w = (Ok b, w)
        /\ (b = true -> In x l
                        /\ Itemslist___getitem__ l (KItem x) w = (Ok x, w))
        /\ (b = false ->
            Itemslist___getitem__ l (KItem x) w = (Raise StopIteration, w))).
Proof.
  intros Hlive. split.
  - intros s.
    pose proof (filter_next_pure
                  (fun x => let* i := id_of_item x in ret (String.eqb i s))
                  (item_id_is w s) l w (item_id_test w s l Hlive)) as Hnext.
    pose proof (filter_list_pure
                  (fun x => let* i := id_of_item x in ret (String.eqb i s))
                  (item_id_is w s) l w (item_id_test w s l Hlive)) as Hlist.
    assert (Hget : Itemslist___getitem__ l (KStr s) w
                   = (match List.find (item_id_is w s) l with
                      | Some x => Ok x | None => Raise StopIteration end, w)).
    { cbv [Itemslist___getitem__ try_except]. rewrite Hnext.
      now destruct (List.find (item_id_is w s) l). }
    exists (negb (Nat.eqb (length (List.filter (item_id_is w s) l)) 0)).
    split; [|split].
    + cbv [Itemslist___contains__]. unfold bind at 1. now rewrite Hlist.
    + intros Hb. destruct (List.find (item_id_is w s) l) as [x|] eqn:Hfind.
      * destruct (find_some _ _ Hfind) as [Hin Hid]. unfold item_id_is in Hid.
        destruct (items w !! x) as [itx|] eqn:Hx; [|discriminate].
        exists x, itx. repeat split; try assumption. now apply String.eqb_eq.
      * rewrite (find_none_filter _ _ Hfind) in Hb. discriminate.
    + intros Hb. destruct (List.find (item_id_is w s) l) as [x|] eqn:Hfind;
        [|exact Hget].
      exfalso. apply (find_Some_filter _ _ _ Hfind).
      destruct (List.filter (item_id_is w s) l); [reflexivity|discriminate].
  - intros x. exists (existsb (Nat.eqb x) l).
    rewrite Itemslist_getitem_by_identity. split; [reflexivity|]. split.
    + intros Hb. rewrite Hb. split; [|reflexivity].
      apply existsb_exists in Hb as (y & Hy & Heq).
      apply Nat.eqb_eq in Heq. now subst.
    + intros Hb. now rewrite Hb.
Qed.


(** ** Repositioning the cursor on a dataset *)

Lemma find_ext {A} (f g : A -> bool) (l : list A) :
  (forall x, In x l -> f x = g x) -> List.find f l = List.find g l.
Proof.
  induction l as [|x l IH]; intros H; [reflexivity|]. cbn.
  rewrite (H x (or_introl eq_refl)). destruct (g x); [reflexivity|].
  apply IH. intros y Hy. apply H. now right.
Qed.

(** Lookup by id among live items: the first item with the id, and
    [StopIteration] when there is none. *)
Lemma Itemslist_getitem_find (l : list ref) (s : string) (w : World) :
  (forall y, In y l -> is_Some (items w !! y)) ->
  Itemslist___getitem__ l (KStr s) w
  = (match List.find (item_id_is w s) l with
     | Some x => Ok x
     | None => Raise StopIteration
     end, w).
Proof.
  intros Hlive. cbv [Itemslist___getitem__ try_except].
  rewrite (filter_next_pure
             (fun x => let* i := id_of_item x in ret (String.eqb i s))
             (item_id_is w s) l w (item_id_test w s l Hlive)).
  now destruct (List.find (item_id_is w s) l).
Qed.

Section repositioning.
Variable S : Scraper.

(** The callbacks only observe, and none raises. *)
Hypothesis Hobs : hooks_observe S.
Hypothesis Hret : hooks_return S.

(** [_move_here] on a dataset listed by its parent: the cursor goes up
    one level, to [c'], and the id of the dataset is looked up among the
    children of [c']. *)
Lemma move_here_outcome (d par c' : ref) (itd itp itc' : Item)
    (l l' : list ref) (w : World) :
  items w !! d = Some itd -> Item_parent_ itd = Some par ->
  items w !! par = Some itp -> Item_type itp = TYPE_COLLECTION ->
  Item__items itp = Some l -> In d l ->
  last (_collection_path w) = Some (current_item w) ->
  last (popped (_collection_path w)) = Some c' ->
  items w !! c' = Some itc' -> Item_type itc' = TYPE_COLLECTION ->
  Item__items itc' = Some l' ->
  (forall y, In y l' -> is_Some (items w !! y)) ->
  exists t,
    Dataset__move_here S d w
    = match List.find (item_id_is w (Item_id itd)) l' with
      | Some x =>
          (Ok tt,
           with_trace (fun _ => t)
             (with_current_item x
                (with_collection_path
                   (fun _ => popped (_collection_path w) ++ [x]) w)))
      | None =>
          (Raise DatasetNotInView,
           with_trace (fun _ => t)
             (with_current_item c'
                (with_collection_path
                   (fun _ => popped (_collection_path w)) w)))
      end.
Proof.
  intros Hd Hparent Hpar Htype Hl Hin Hlast Hup Hc' Htype' Hl' Hlive.
  destruct (up_hooks_quiet S (gone_up w) Hobs Hret) as (t1 & Hhooks).
  destruct (gone_up_fields w) as (Hg & Hgp & Hcases).
  assert (Hgc : current_item (gone_up w) = c').
  { destruct Hcases as [(Hlen & Hsame)|(p & c & x & Hp & Hp' & Hc)].
    - rewrite Hsame. unfold popped in Hup.
      destruct (1 <? length (_collection_path w))%nat eqn:E;
        [apply Nat.ltb_lt in E; lia|].
      rewrite Hlast in Hup. now injection Hup.
    - rewrite Hc. rewrite <- Hgp, Hp', last_snoc in Hup. now injection Hup. }
  set (wu := with_trace (fun _ => t1) (gone_up w)) in *.
  assert (Hwu : wu = with_trace (fun _ => t1)
                       (with_current_item c'
                          (with_collection_path
                             (fun _ => popped (_collection_path w)) w)))
    by (unfold wu; rewrite Hg, Hgc, Hgp; reflexivity).
  assert (Hitems : items wu = items w) by (rewrite Hwu; reflexivity).
  assert (Hcur : current_item wu = c') by (rewrite Hwu; reflexivity).
  assert (Hfind : List.find (item_id_is wu (Item_id itd)) l'
                  = List.find (item_id_is w (Item_id itd)) l').
  { apply find_ext. intros y _. unfold item_id_is. now rewrite Hitems. }
  assert (Hmove : BaseScraper_move_to S (KStr (Item_id itd)) wu
                  = match List.find (item_id_is w (Item_id itd)) l' with
                    | Some x => run_hooks S "select" (arrived x wu)
                    | None => (Raise NoSuchItem, wu)
                    end).
  { rewrite (move_to_listed S wu itc' l'); rewrite ?Hcur, ?Hitems; auto.
    rewrite Itemslist_getitem_find by (now rewrite Hitems). rewrite Hfind.
    now destruct (List.find (item_id_is w (Item_id itd)) l'). }
  assert (Hhere : Dataset__move_here S d w
                  = try_except (BaseScraper_move_to S (KStr (Item_id itd)))
                      [NoSuchItem] (raise DatasetNotInView) wu).
  { cbv [Dataset__move_here Item_parent bind get_item ret].
    rewrite Hd, Hparent, Item_items_eq, Hpar, Htype.
    rewrite (Collection_items_memo S par itp _ w Hpar Hl).
    cbn [Itemslist___contains__]. unfold ret.
    rewrite (existsb_eqb_In d l Hin), move_up_eq, Hhooks.
    fold wu. now rewrite Hitems, Hd. }
  rewrite Hhere. unfold try_except. rewrite Hmove.
  destruct (List.find (item_id_is w (Item_id itd)) l') as [x|].
  - destruct (run_hooks_quiet S "select" (arrived x wu) Hobs Hret) as (t2 & ->).
    exists t2. rewrite Hwu. reflexivity.
  - exists t1. cbn. now rewrite Hwu.
Qed.

(** C3.  A dataset that its parent lists is asked for its dimensions or
    its data from elsewhere.  The cursor first goes up one level: it
    leaves the top of the stack for the entry below, [c'], or stays
    where it is at the root.  Then the id of the dataset is looked up
    among the listed children of [c'], the item that is now current.
    With a child of that id the cursor ends on the first such child.
    With none the repositioning fails with [DatasetNotInView], never
    with [NoSuchItem], the cursor stays on [c'], and reading the
    dimensions or fetching the data fails in the same way; the cache is
    not written.  Nothing but cursor, stack and trace is written.  When
    the child found is the dataset itself, reading its dimensions goes
    on as from the store where the cursor is on it.  With [par] the
    current item the dataset is a child of the current item; the code
    goes up from anywhere, since it looks for the dataset in the list
    of its own parent.  The callbacks are asked to only observe and to
    return. *)
Theorem repositioning_goes_up_then_selects
    (md5 : string -> string) (dt : string -> option allowed)
    (d par c' : ref) (itd itp itc' : Item) (l l' : list ref) (w : World) :
  items w !! d = Some itd -> Item_type itd = TYPE_DATASET ->
  Item_parent_ itd = Some par ->
  items w !! par = Some itp -> Item_type itp = TYPE_COLLECTION ->
  Item__items itp = Some l -> In d l ->
  current_item w <> d ->
  last (_collection_path w) = Some (current_item w) ->
  last (popped (_collection_path w)) = Some c' ->
  items w !! c' = Some itc' -> Item_type itc' = TYPE_COLLECTION ->
  Item__items itc' = Some l' ->
  (forall y, In y l' -> is_Some (items w !! y)) ->
  let target := List.find (item_id_is w (Item_id itd)) l' in
  exists w',
    Dataset__move_here S d w
    = (match target with Some _ => Ok tt | None => Raise DatasetNotInView end,
       w')
    /\ current_item w' = match target with Some x => x | None => c' end
    /\ _collection_path w'
       = popped (_collection_path w)
         ++ match target with Some x => [x] | None => [] end
    /\ w' = with_trace (fun _ => trace w')
              (with_current_item (current_item w')
                 (with_collection_path (fun _ => _collection_path w') w))
    /\ (target = None ->
        Dataset_dimensions S dt d w = (Raise DatasetNotInView, w')
        /\ forall q,
             Dataset__data w
               !! md5 (dumps (if truthy q then q else Dataset_query itd)) = None ->
             let out := Dataset_fetch S md5 dt d q w in
             fst out = Raise DatasetNotInView
             /\ current_item (snd out) = c'
             /\ _collection_path (snd out) = popped (_collection_path w)
             /\ Dataset__data (snd out) = Dataset__data w)
    /\ (target = Some d ->
        Dataset_dimensions S dt d w = Dataset_dimensions S dt d w').
Proof.
  intros Hd Hdtype Hparent Hpar Htype Hl Hin Hne Hlast Hup Hc' Htype' Hl' Hlive
    target.
  destruct (move_here_outcome d par c' itd itp itc' l l' w Hd Hparent Hpar Htype
              Hl Hin Hlast Hup Hc' Htype' Hl' Hlive) as (t & Hhere).
  fold target in Hhere.
  assert (Hneb : (current_item w =? d)%nat = false) by now apply Nat.eqb_neq.
  assert (HdimsR : forall w1 e,
            Dataset__move_here S d w = (Raise e, w1) ->
            Dataset_dimensions S dt d w = (Raise e, w1)).
  { intros w1 e H. rewrite Dataset_dimensions_unfold, bind_get_world, Hneb.
    cbn [negb]. unfold bind at 1. now rewrite H. }
  assert (HdimsO : forall w1,
            Dataset__move_here S d w = (Ok tt, w1) -> current_item w1 = d ->
            Dataset_dimensions S dt d w = Dataset_dimensions S dt d w1).
  { intros w1 H Hcur. rewrite Dataset_dimensions_unfold, !bind_get_world.
    rewrite Hneb, Hcur, Nat.eqb_refl. cbn [negb].
    unfold bind at 1. rewrite H. reflexivity. }
  assert (Hfetch : target = None -> forall q,
            Dataset__data w
              !! md5 (dumps (if truthy q then q else Dataset_query itd)) = None ->
            let out := Dataset_fetch S md5 dt d q w in
            fst out = Raise DatasetNotInView
            /\ current_item (snd out) = c'
            /\ _collection_path (snd out) = popped (_collection_path w)
            /\ Dataset__data (snd out) = Dataset__data w).
  { intros Hnone q Hmiss.
    set (itd0 := if truthy q then set_query q itd else itd).
    set (w0 := with_items (insert d itd0) w).
    assert (Hset : (if truthy q then update_item d (set_query q) else ret tt) w
                   = (Ok tt, w0)).
    { unfold w0, itd0. destruct (truthy q).
      - cbv [update_item bind get_item modify]. now rewrite Hd.
      - now rewrite (with_items_insert_id d itd w Hd). }
    assert (Hd0 : items w0 !! d = Some itd0) by apply lookup_insert_eq.
    assert (Hsame : Item_id itd0 = Item_id itd /\ Item_parent_ itd0 = Some par
                    /\ Dataset_query itd0
                       = (if truthy q then q else Dataset_query itd))
      by (unfold itd0; destruct (truthy q); auto).
    destruct Hsame as (Hid0 & Hparent0 & Hq0).
    assert (Hother : forall r it, items w !! r = Some it ->
              Item_type it = TYPE_COLLECTION -> items w0 !! r = Some it).
    { intros r it Hr Ht. unfold w0. cbn.
      rewrite lookup_insert_ne; [exact Hr|]. intros <-.
      rewrite Hd in Hr. injection Hr as <-. congruence. }
    assert (Hlive0 : forall y, In y l' -> is_Some (items w0 !! y)).
    { intros y Hy. unfold w0. cbn. destruct (decide (d = y)) as [<-|Hny].
      - rewrite lookup_insert_eq. eauto.
      - rewrite lookup_insert_ne by exact Hny. now apply Hlive. }
    assert (Hfind0 : List.find (item_id_is w0 (Item_id itd0)) l' = None).
    { rewrite <- Hnone. unfold target. apply find_ext. intros y _.
      unfold item_id_is, w0. cbn. rewrite Hid0.
      destruct (decide (d = y)) as [<-|Hny].
      - now rewrite lookup_insert_eq, Hd, Hid0.
      - now rewrite lookup_insert_ne by exact Hny. }
    destruct (move_here_outcome d par c' itd0 itp itc' l l' w0 Hd0 Hparent0
                (Hother _ _ Hpar Htype) Htype Hl Hin Hlast Hup
                (Hother _ _ Hc' Htype') Htype' Hl' Hlive0) as (t0 & Hhere0).
    rewrite Hfind0 in Hhere0.
    assert (Hf : Dataset_fetch S md5 dt d q w
                 = (Raise DatasetNotInView,
                    with_trace (fun _ => t0)
                      (with_current_item c'
                         (with_collection_path
                            (fun _ => popped (_collection_path w0)) w0)))).
    { unfold Dataset_fetch. unfold bind at 1. rewrite Hset.
      unfold bind at 1. unfold Dataset__hash at 1.
      unfold bind at 1. rewrite (get_item_eq d itd0 w0 Hd0). unfold ret at 1.
      unfold bind at 1. unfold get_world at 1. cbv beta iota.
      change (Dataset__data w0) with (Dataset__data w). rewrite Hq0, Hmiss.
      change (current_item w0) with (current_item w).
      rewrite Hneb. cbn [negb].
      unfold bind at 1. now rewrite Hhere0. }
    cbv zeta. rewrite Hf. cbn. auto. }
  destruct target as [x|] eqn:Ht.
  - eexists. split; [exact Hhere|]. split; [reflexivity|].
    split; [reflexivity|]. split; [now destruct w|].
    split; [discriminate|]. intros [= ->].
    now apply HdimsO.
  - eexists. split; [exact Hhere|]. split; [reflexivity|].
    split; [cbn; now rewrite app_nil_r|]. split; [now destruct w|].
    split; [|discriminate]. intros _.
    split; [exact (HdimsR _ _ Hhere)|]. now apply Hfetch.
Qed.
End repositioning.

(** ** The theorems at work on the test scrapers *)

Lemma HookedScraper_keeps_invariant (root : ref) :
  hooks_keep (navigation_invariant root) HookedScraper.
Proof.
  apply hooks_observe_keep; [exact HookedScraper_observes|].
  intros f w. apply navigation_invariant_trace.
Qed.

Lemma HookedScraper_keeps_cursor (c : ref) (p : list ref) :
  hooks_keep (cursor_is c p) HookedScraper.
Proof.
  apply hooks_observe_keep; [exact HookedScraper_observes|].
  intros f w. apply cursor_is_trace.
Qed.

Lemma move_up_at_root_witness :
  let w := fresh_scraper HookedScraper in
  BaseScraper_move_up HookedScraper w
  = (let* _ := run_hooks HookedScraper "up" in run_hooks HookedScraper "top") w.
Proof.
  intros w.
  refine (proj1 (move_up_at_root_is_noop HookedScraper w _ _)).
  - vm_compute. reflexivity.
  - apply HookedScraper_keeps_cursor.
Defined.



Lemma move_to_top_witness :
  let w := run_ops HookedScraper [Move_to (KStr "Dataset_1")]
             (fresh_scraper HookedScraper) in
  BaseScraper_move_to_top HookedScraper w
  = run_hooks HookedScraper "top" (at_top (current_item root_created) w).
Proof.
  refine (proj1 (move_to_top_returns_to_root HookedScraper
                   [Move_to (KStr "Dataset_1")] _)).
  apply HookedScraper_keeps_invariant.
Defined.


Lemma move_to_then_move_up_witness :
  let w2 := snd (BaseScraper_move_up TestScraper at_Dataset_1) in
  current_item w2 = current_item (fresh_scraper TestScraper)
  /\ _collection_path w2 = _collection_path (fresh_scraper TestScraper).
Proof.
  intros w2.
  destruct (move_to_then_move_up_restores_cursor TestScraper (KStr "Dataset_1")
              (fresh_scraper TestScraper) at_Dataset_1) as (H1 & H2 & _).
  - intros c p. apply hooks_keep_none, TestScraper_no_hooks.
  - vm_compute. reflexivity.
  - vm_compute. reflexivity.
  - split; assumption.
Defined.


Lemma move_to_missing_child_witness :
  BaseScraper_move_to TestScraper (KInt 3) (root_listed TestScraper)
  = (Raise NoSuchItem, root_listed TestScraper).
Proof.
  refine (proj1 (proj2
    (move_to_missing_child TestScraper (root_listed TestScraper)
       (root_item (Some [1; 2; 3])) [1; 2; 3] _ _ _)) 3%Z _).
  - vm_compute. reflexivity.
  - reflexivity.
  - reflexivity.
  - left. simpl. lia.
Defined.


Lemma move_to_from_dataset_witness :
  BaseScraper_move_to TestScraper (KStr "Dataset_2") at_Dataset_1
  = (Raise TypeError, at_Dataset_1).
Proof.
  refine (move_to_from_dataset_raises_TypeError TestScraper (KStr "Dataset_2")
            at_Dataset_1 (child_item TYPE_DATASET "Dataset_1" 0 None) _ _).
  - vm_compute. reflexivity.
  - reflexivity.
Defined.

Lemma Collection_items_asks_once_witness :
  let w0 := fresh_scraper TestScraper in
  let w1 := snd (Collection_items TestScraper 0 w0) in
  exists l,
    Collection_items TestScraper 0 w1 = (Ok l, w1)
    /\ (forall l0, fst (Collection_items TestScraper 0 w0) = Ok l0 -> l0 = l)
    /\ (trace w1 = trace w0
        \/ trace w1 = trace w0 ++ [Call_fetch_itemslist 0]).
Proof.
  refine (Collection_items_asks_once TestScraper 0 (root_item None)
            (fresh_scraper TestScraper) _).
  vm_compute. reflexivity.
Defined.

Lemma data_after_fetch_witness :
  let w1 := snd (Dataset_fetch TestScraper (fun s => s) (fun _ => None) 1 JNull
                   (root_listed TestScraper)) in
  Dataset_data TestScraper (fun s => s) (fun _ => None) 1 w1 = (Ok 0, w1)
  /\ Dataset_fetch TestScraper (fun s => s) (fun _ => None) 1 JNull w1
     = (Ok 0, w1).
Proof.
  intros w1.
  refine (data_after_fetch_is_cached TestScraper (fun s => s) (fun _ => None)
            1 JNull (root_listed TestScraper) w1 0
            (fun q0 => hooks_keep_none _ _ TestScraper_no_hooks) _).
  vm_compute. reflexivity.
Defined.

Lemma fetch_caches_witness :
  let out := Dataset_fetch TestScraper (fun s => s) (fun _ => None) 1 JNull
               (root_listed TestScraper) in
  (forall e, fst out = Raise e ->
     Dataset__data (snd out) = Dataset__data (root_listed TestScraper))
  /\ (forall rs, fst out = Ok rs ->
        Dataset__data (snd out) = Dataset__data (root_listed TestScraper)
        \/ exists h, Dataset__data (root_listed TestScraper) !! h = None
                     /\ Dataset__data (snd out)
                        = <[h := rs]> (Dataset__data (root_listed TestScraper))).
Proof.
  refine (fetch_caches_on_success_only TestScraper (fun s => s) (fun _ => None)
            1 JNull (root_listed TestScraper) _).
  intros D. apply hooks_keep_none, TestScraper_no_hooks.
Defined.

Lemma hash_depends_on_query_witness :
  let w1 := with_items (insert 1 (set_query query_ab
                                    (child_item TYPE_DATASET "Dataset_1" 0 None)))
              (root_listed TestScraper) in
  let w2 := with_items (insert 2 (set_query query_ba
                                    (child_item TYPE_DATASET "Dataset_2" 0 None)))
              (root_listed TestScraper) in
  exists h, Dataset__hash (fun s => s) 1 w1 = (Ok h, w1)
            /\ Dataset__hash (fun s => s) 2 w2 = (Ok h, w2).
Proof.
  intros w1 w2.
  refine (hash_depends_on_query_only (fun s => s) 1 2
            (set_query query_ab (child_item TYPE_DATASET "Dataset_1" 0 None))
            (set_query query_ba (child_item TYPE_DATASET "Dataset_2" 0 None))
            w1 w2 _ _ (proj1 query_ab_wf) (proj2 query_ab_wf) _).
  - vm_compute. reflexivity.
  - vm_compute. reflexivity.
  - vm_compute. reflexivity.
Defined.

Lemma append_without_owner_witness :
  fst (ResultSet_append TestScraper (fun _ => None) 0 0 unowned_result) = Ok tt.
Proof.
  refine (f_equal fst
    (append_without_owner TestScraper (fun _ => None) 0 0
       (mkResultSet None None []) (mkResult 127 1 None None) unowned_result
       _ _ _)).
  - vm_compute. reflexivity.
  - reflexivity.
  - vm_compute. reflexivity.
Defined.

Lemma repositioning_witness :
  (exists w',
     Dataset__move_here TestScraper 1 (root_listed TestScraper) = (Ok tt, w')
     /\ current_item w' = 1 /\ _collection_path w' = [0; 1])
  /\ (exists w',
        Dataset__move_here NestedScraper 3 nested_below
        = (Raise DatasetNotInView, w')
        /\ current_item w' = 0 /\ _collection_path w' = [0]
        /\ Dataset_dimensions NestedScraper (fun _ => None) 3 nested_below
           = (Raise DatasetNotInView, w')).
Proof.
  split.
  - assert (Hfind : List.find (item_id_is (root_listed TestScraper) "Dataset_1")
                      [1; 2; 3] = Some 1) by (vm_compute; reflexivity).
    assert (Hpop : popped (_collection_path (root_listed TestScraper)) = [0])
      by (vm_compute; reflexivity).
    pose proof (repositioning_goes_up_then_selects TestScraper
                  (hooks_observe_none _ TestScraper_no_hooks)
                  (hooks_return_none _ TestScraper_no_hooks)
                  (fun s => s) (fun _ => None) 1 0 0
                  (child_item TYPE_DATASET "Dataset_1" 0 None)
                  (root_item (Some [1; 2; 3])) (root_item (Some [1; 2; 3]))
                  [1; 2; 3] [1; 2; 3] (root_listed TestScraper)) as H.
    cbv zeta in H. cbn [Item_id child_item] in H. rewrite Hfind, Hpop in H.
    destruct H as (w' & H1 & H2 & H3 & _).
    + vm_compute. reflexivity.
    + reflexivity.
    + reflexivity.
    + vm_compute. reflexivity.
    + reflexivity.
    + reflexivity.
    + simpl. auto.
    + vm_compute. discriminate.
    + vm_compute. reflexivity.
    + vm_compute. reflexivity.
    + vm_compute. reflexivity.
    + reflexivity.
    + reflexivity.
    + intros y [<-|[<-|[<-|[]]]]; eexists; vm_compute; reflexivity.
    + exists w'. auto.
  - assert (Hfind : List.find (item_id_is nested_below "Dataset_1") [1; 2] = None)
      by (vm_compute; reflexivity).
    assert (Hpop : popped (_collection_path nested_below) = [0])
      by (vm_compute; reflexivity).
    pose proof (repositioning_goes_up_then_selects NestedScraper
                  (hooks_observe_none _ TestScraper_no_hooks)
                  (hooks_return_none _ TestScraper_no_hooks)
                  (fun s => s) (fun _ => None) 3 1 0
                  (child_item TYPE_DATASET "Dataset_1" 1 None)
                  (child_item TYPE_COLLECTION "Collection_1" 0 (Some [3]))
                  (root_item (Some [1; 2])) [3] [1; 2] nested_below) as H.
    cbv zeta in H. cbn [Item_id child_item] in H. rewrite Hfind, Hpop in H.
    destruct H as (w' & H1 & H2 & H3 & _ & H5 & _).
    + vm_compute. reflexivity.
    + reflexivity.
    + reflexivity.
    + vm_compute. reflexivity.
    + reflexivity.
    + reflexivity.
    + simpl. auto.
    + vm_compute. discriminate.
    + vm_compute. reflexivity.
    + vm_compute. reflexivity.
    + vm_compute. reflexivity.
    + reflexivity.
    + reflexivity.
    + intros y [<-|[<-|[]]]; eexists; vm_compute; reflexivity.
    + exists w'. split; [exact H1|]. split; [exact H2|]. split; [exact H3|].
      exact (proj1 (H5 eq_refl)).
Defined.


Lemma append_resolves_witness :
  exists w' vs,
    ResultSet_append TestScraper (fun _ => None) 0 0 result_built = (Ok tt, w')
    /\ Result_dimensionvalues w' = Result_dimensionvalues result_built ++ vs
    /\ length vs = 2%nat.
Proof.
  destruct (append_resolves_declared_tags TestScraper (fun _ => None) 0 0 1
              (mkResultSet (Some 1) None []) (mkResult 127 1 None None)
              [0; 1; 2]
              [("date", "2017-08-10"); ("municipality", "Robertsfors kommun")]
              result_built)
    as (w' & vs & H1 & H2 & H3 & _).
  - vm_compute. reflexivity.
  - reflexivity.
  - vm_compute. reflexivity.
  - vm_compute. reflexivity.
  - split; [reflexivity|]. split.
    + eexists. split; [vm_compute; reflexivity|]. reflexivity.
    + intros d [<-|[<-|[<-|[]]]]; eexists;
        (split; [vm_compute; reflexivity|]); left; reflexivity.
  - intros tag [<-|[<-|[]]]; eexists; vm_compute; reflexivity.
  - exists w', vs. split; [exact H1|]. split; [exact H2|].
    now rewrite (Forall2_length _ _ _ H3).
Defined.

Lemma in_agrees_with_subscript_witness :
  exists b,
    Itemslist___contains__ [1; 2; 3] (KStr "Dataset_1") (root_listed TestScraper)
    = (Ok b, root_listed TestScraper).
Proof.
  assert (Hlive : forall y, In y [1; 2; 3] ->
                     is_Some (items (root_listed TestScraper) !! y))
    by (intros y [<-|[<-|[<-|[]]]]; eexists; vm_compute; reflexivity).
  destruct (proj1 (in_agrees_with_subscript [1; 2; 3] (root_listed TestScraper)
                     Hlive) "Dataset_1") as (b & Hb & _).
  exists b. exact Hb.
Defined.

Lemma allowed_values_memoized_witness :
  let a := Generator [] (Some TypeError) in
  let w' := snd (Dimension_allowed_values TestScraper 2 dims_listed) in
  Dimension_allowed_values TestScraper 2 w' = (Ok a, w').
Proof.
  intros a w'.
  refine (allowed_values_memoized TestScraper 2 a dims_listed w' _).
  vm_compute. reflexivity.
Defined.

